(** * Government tender matcher: ingestion and matching pipeline

    A shallow embedding of the Python sources

      - [utils/firecrawl_wrapper.py]   (scraping, amount and date extraction),
      - [utils/config.py]              (record schemas, tender sources),
      - [agents/tender_scraper_agent.py]  (embedding, index and store append,
                                           raw export, scrape report),
      - [agents/company_scraper_agent.py] (company information, matching
                                           engine),

    followed by the properties of the specification that concern them.

    Modelling conventions.
      - A Python [str] is the Rocq [string] of its UTF-8 bytes, read one
        character at a time; the classes [\d] and [\s], [str.strip],
        [str.lower], [float], [len], slices and case-insensitive matching
        are the ones of Unicode, from the tables of the character database
        of Unicode 14.0, those of CPython 3.11 (a rupee sign is the three
        bytes E2 82 B9, one character without case).
      - A Python [float] is an exact rational of [Q]; [float32] conversion is
        a parameter.
      - An exception is a value of [exn]; code that may raise returns a
        [result]; [try]/[except] is [try_except].
      - The [logger] calls of the matching engine are returned as a list of
        [log_entry]; elsewhere they are left out.
      - A fetched page is the list of its tender elements; an element answers
        the queries the wrapper makes of it ([select_one], the headings, its
        text and its markup).  The clock, the embedding service, the language
        model and the PDF reader are parameters. *)

From Stdlib Require Import Bool Arith ZArith QArith List String Ascii.
From Stdlib Require Import Lia Lqa Permutation Sorted.
From Stdlib Require Import NArith DecimalString DecimalNat DecimalN.
Import ListNotations.

Set Implicit Arguments.

(* ================================================================== *)
(** * The Unicode character database                                    *)
(* ================================================================== *)

(** The tables of Unicode 14.0, as CPython 3.11 has them; a range is given
    by its first and its last code point. *)

Module Unicode.

Local Open Scope N_scope.

(** The characters [str.isspace] holds of; they are those of the class
    [\s] and those [str.strip] removes. *)
Definition whitespace : list (N * N) :=
  [ (9, 13); (28, 32); (133, 133); (160, 160); (5760, 5760); (8192, 8202);
    (8232, 8233); (8239, 8239); (8287, 8287); (12288, 12288) ].

(** The decimal digits (general category Nd), in runs of ten from the digit
    zero; they are those of the class [\d]. *)
Definition decimal_digits : list (N * N) :=
  [ (48, 57); (1632, 1641); (1776, 1785); (1984, 1993); (2406, 2415);
    (2534, 2543); (2662, 2671); (2790, 2799); (2918, 2927); (3046, 3055);
    (3174, 3183); (3302, 3311); (3430, 3439); (3558, 3567); (3664, 3673);
    (3792, 3801); (3872, 3881); (4160, 4169); (4240, 4249); (6112, 6121);
    (6160, 6169); (6470, 6479); (6608, 6617); (6784, 6793); (6800, 6809);
    (6992, 7001); (7088, 7097); (7232, 7241); (7248, 7257); (42528, 42537);
    (43216, 43225); (43264, 43273); (43472, 43481); (43504, 43513);
    (43600, 43609); (44016, 44025); (65296, 65305); (66720, 66729);
    (68912, 68921); (69734, 69743); (69872, 69881); (69942, 69951);
    (70096, 70105); (70384, 70393); (70736, 70745); (70864, 70873);
    (71248, 71257); (71360, 71369); (71472, 71481); (71904, 71913);
    (72016, 72025); (72784, 72793); (73040, 73049); (73120, 73129);
    (92768, 92777); (92864, 92873); (93008, 93017); (120782, 120831);
    (123200, 123209); (123632, 123641); (125264, 125273); (130032, 130041) ].

(** The simple lowercase mapping: the characters [first], [first + step],
    ... up to [last] are mapped to [image], [image + step], ... in this
    order; an entry is [(first, last, step, image)]. *)
Definition lowercase : list (N * N * N * N) :=
  [ (65, 90, 1, 97); (192, 214, 1, 224); (216, 222, 1, 248);
    (256, 302, 2, 257); (304, 304, 1, 105); (306, 310, 2, 307);
    (313, 327, 2, 314); (330, 374, 2, 331); (376, 376, 1, 255);
    (377, 381, 2, 378); (385, 385, 1, 595); (386, 388, 2, 387);
    (390, 390, 1, 596); (391, 391, 1, 392); (393, 394, 1, 598);
    (395, 395, 1, 396); (398, 398, 1, 477); (399, 399, 1, 601);
    (400, 400, 1, 603); (401, 401, 1, 402); (403, 403, 1, 608);
    (404, 404, 1, 611); (406, 406, 1, 617); (407, 407, 1, 616);
    (408, 408, 1, 409); (412, 412, 1, 623); (413, 413, 1, 626);
    (415, 415, 1, 629); (416, 420, 2, 417); (422, 422, 1, 640);
    (423, 423, 1, 424); (425, 425, 1, 643); (428, 428, 1, 429);
    (430, 430, 1, 648); (431, 431, 1, 432); (433, 434, 1, 650);
    (435, 437, 2, 436); (439, 439, 1, 658); (440, 440, 1, 441);
    (444, 444, 1, 445); (452, 452, 1, 454); (453, 453, 1, 454);
    (455, 455, 1, 457); (456, 456, 1, 457); (458, 458, 1, 460);
    (459, 475, 2, 460); (478, 494, 2, 479); (497, 497, 1, 499);
    (498, 500, 2, 499); (502, 502, 1, 405); (503, 503, 1, 447);
    (504, 542, 2, 505); (544, 544, 1, 414); (546, 562, 2, 547);
    (570, 570, 1, 11365); (571, 571, 1, 572); (573, 573, 1, 410);
    (574, 574, 1, 11366); (577, 577, 1, 578); (579, 579, 1, 384);
    (580, 580, 1, 649); (581, 581, 1, 652); (582, 590, 2, 583);
    (880, 882, 2, 881); (886, 886, 1, 887); (895, 895, 1, 1011);
    (902, 902, 1, 940); (904, 906, 1, 941); (908, 908, 1, 972);
    (910, 911, 1, 973); (913, 929, 1, 945); (931, 939, 1, 963);
    (975, 975, 1, 983); (984, 1006, 2, 985); (1012, 1012, 1, 952);
    (1015, 1015, 1, 1016); (1017, 1017, 1, 1010); (1018, 1018, 1, 1019);
    (1021, 1023, 1, 891); (1024, 1039, 1, 1104); (1040, 1071, 1, 1072);
    (1120, 1152, 2, 1121); (1162, 1214, 2, 1163); (1216, 1216, 1, 1231);
    (1217, 1229, 2, 1218); (1232, 1326, 2, 1233); (1329, 1366, 1, 1377);
    (4256, 4293, 1, 11520); (4295, 4295, 1, 11559); (4301, 4301, 1, 11565);
    (5024, 5103, 1, 43888); (5104, 5109, 1, 5112); (7312, 7354, 1, 4304);
    (7357, 7359, 1, 4349); (7680, 7828, 2, 7681); (7838, 7838, 1, 223);
    (7840, 7934, 2, 7841); (7944, 7951, 1, 7936); (7960, 7965, 1, 7952);
    (7976, 7983, 1, 7968); (7992, 7999, 1, 7984); (8008, 8013, 1, 8000);
    (8025, 8031, 2, 8017); (8040, 8047, 1, 8032); (8072, 8079, 1, 8064);
    (8088, 8095, 1, 8080); (8104, 8111, 1, 8096); (8120, 8121, 1, 8112);
    (8122, 8123, 1, 8048); (8124, 8124, 1, 8115); (8136, 8139, 1, 8050);
    (8140, 8140, 1, 8131); (8152, 8153, 1, 8144); (8154, 8155, 1, 8054);
    (8168, 8169, 1, 8160); (8170, 8171, 1, 8058); (8172, 8172, 1, 8165);
    (8184, 8185, 1, 8056); (8186, 8187, 1, 8060); (8188, 8188, 1, 8179);
    (8486, 8486, 1, 969); (8490, 8490, 1, 107); (8491, 8491, 1, 229);
    (8498, 8498, 1, 8526); (8544, 8559, 1, 8560); (8579, 8579, 1, 8580);
    (9398, 9423, 1, 9424); (11264, 11311, 1, 11312);
    (11360, 11360, 1, 11361); (11362, 11362, 1, 619);
    (11363, 11363, 1, 7549); (11364, 11364, 1, 637);
    (11367, 11371, 2, 11368); (11373, 11373, 1, 593);
    (11374, 11374, 1, 625); (11375, 11375, 1, 592); (11376, 11376, 1, 594);
    (11378, 11378, 1, 11379); (11381, 11381, 1, 11382);
    (11390, 11391, 1, 575); (11392, 11490, 2, 11393);
    (11499, 11501, 2, 11500); (11506, 11506, 1, 11507);
    (42560, 42604, 2, 42561); (42624, 42650, 2, 42625);
    (42786, 42798, 2, 42787); (42802, 42862, 2, 42803);
    (42873, 42875, 2, 42874); (42877, 42877, 1, 7545);
    (42878, 42886, 2, 42879); (42891, 42891, 1, 42892);
    (42893, 42893, 1, 613); (42896, 42898, 2, 42897);
    (42902, 42920, 2, 42903); (42922, 42922, 1, 614);
    (42923, 42923, 1, 604); (42924, 42924, 1, 609); (42925, 42925, 1, 620);
    (42926, 42926, 1, 618); (42928, 42928, 1, 670); (42929, 42929, 1, 647);
    (42930, 42930, 1, 669); (42931, 42931, 1, 43859);
    (42932, 42946, 2, 42933); (42948, 42948, 1, 42900);
    (42949, 42949, 1, 642); (42950, 42950, 1, 7566);
    (42951, 42953, 2, 42952); (42960, 42960, 1, 42961);
    (42966, 42968, 2, 42967); (42997, 42997, 1, 42998);
    (65313, 65338, 1, 65345); (66560, 66599, 1, 66600);
    (66736, 66771, 1, 66776); (66928, 66938, 1, 66967);
    (66940, 66954, 1, 66979); (66956, 66962, 1, 66995);
    (66964, 66965, 1, 67003); (68736, 68786, 1, 68800);
    (71840, 71871, 1, 71872); (93760, 93791, 1, 93792);
    (125184, 125217, 1, 125218) ].

(** The characters a simple case mapping, to lowercase or to uppercase,
    changes ([_sre.unicode_iscased]). *)
Definition changed_by_case : list (N * N) :=
  [ (65, 90); (97, 122); (181, 181); (192, 214); (216, 246); (248, 311);
    (313, 396); (398, 410); (412, 425); (428, 441); (444, 445); (447, 447);
    (452, 544); (546, 563); (570, 596); (598, 599); (601, 601); (603, 604);
    (608, 609); (611, 611); (613, 614); (616, 620); (623, 623); (625, 626);
    (629, 629); (637, 637); (640, 640); (642, 643); (647, 652); (658, 658);
    (669, 670); (837, 837); (880, 883); (886, 887); (891, 893); (895, 895);
    (902, 902); (904, 906); (908, 908); (910, 929); (931, 977); (981, 1013);
    (1015, 1019); (1021, 1153); (1162, 1327); (1329, 1366); (1377, 1415);
    (4256, 4293); (4295, 4295); (4301, 4301); (4304, 4346); (4349, 4351);
    (5024, 5109); (5112, 5117); (7296, 7304); (7312, 7354); (7357, 7359);
    (7545, 7545); (7549, 7549); (7566, 7566); (7680, 7835); (7838, 7838);
    (7840, 7957); (7960, 7965); (7968, 8005); (8008, 8013); (8016, 8023);
    (8025, 8025); (8027, 8027); (8029, 8029); (8031, 8061); (8064, 8116);
    (8118, 8124); (8126, 8126); (8130, 8132); (8134, 8140); (8144, 8147);
    (8150, 8155); (8160, 8172); (8178, 8180); (8182, 8188); (8486, 8486);
    (8490, 8491); (8498, 8498); (8526, 8526); (8544, 8575); (8579, 8580);
    (9398, 9449); (11264, 11376); (11378, 11379); (11381, 11382);
    (11390, 11491); (11499, 11502); (11506, 11507); (11520, 11557);
    (11559, 11559); (11565, 11565); (42560, 42605); (42624, 42651);
    (42786, 42799); (42802, 42863); (42873, 42887); (42891, 42893);
    (42896, 42900); (42902, 42926); (42928, 42954); (42960, 42961);
    (42966, 42969); (42997, 42998); (43859, 43859); (43888, 43967);
    (64256, 64262); (64275, 64279); (65313, 65338); (65345, 65370);
    (66560, 66639); (66736, 66771); (66776, 66811); (66928, 66938);
    (66940, 66954); (66956, 66962); (66964, 66965); (66967, 66977);
    (66979, 66993); (66995, 67001); (67003, 67004); (68736, 68786);
    (68800, 68850); (71840, 71903); (93760, 93823); (125184, 125251) ].

(** The lowercase characters that match another one when case is ignored,
    each with the others ([re._casefix._EXTRA_CASES]). *)
Definition extra_cases : list (N * list N) :=
  [ (105, [305]); (115, [383]); (181, [956]); (305, [105]); (383, [115]);
    (837, [953; 8126]); (912, [8147]); (944, [8163]); (946, [976]);
    (949, [1013]); (952, [977]); (953, [837; 8126]); (954, [1008]);
    (956, [181]); (960, [982]); (961, [1009]); (962, [963]); (963, [962]);
    (966, [981]); (976, [946]); (977, [952]); (981, [966]); (982, [960]);
    (1008, [954]); (1009, [961]); (1013, [949]); (1074, [7296]);
    (1076, [7297]); (1086, [7298]); (1089, [7299]); (1090, [7300; 7301]);
    (1098, [7302]); (1123, [7303]); (7296, [1074]); (7297, [1076]);
    (7298, [1086]); (7299, [1089]); (7300, [1090; 7301]);
    (7301, [1090; 7300]); (7302, [1098]); (7303, [1123]); (7304, [42571]);
    (7777, [7835]); (7835, [7777]); (8126, [837; 953]); (8147, [912]);
    (8163, [944]); (42571, [7304]); (64261, [64262]); (64262, [64261]) ].

(** The characters with the property Cased that are not Case_Ignorable. *)
Definition cased : list (N * N) :=
  [ (65, 90); (97, 122); (170, 170); (181, 181); (186, 186); (192, 214);
    (216, 246); (248, 442); (444, 447); (452, 659); (661, 687); (880, 883);
    (886, 887); (891, 893); (895, 895); (902, 902); (904, 906); (908, 908);
    (910, 929); (931, 1013); (1015, 1153); (1162, 1327); (1329, 1366);
    (1376, 1416); (4256, 4293); (4295, 4295); (4301, 4301); (4304, 4346);
    (4349, 4351); (5024, 5109); (5112, 5117); (7296, 7304); (7312, 7354);
    (7357, 7359); (7424, 7467); (7531, 7543); (7545, 7578); (7680, 7957);
    (7960, 7965); (7968, 8005); (8008, 8013); (8016, 8023); (8025, 8025);
    (8027, 8027); (8029, 8029); (8031, 8061); (8064, 8116); (8118, 8124);
    (8126, 8126); (8130, 8132); (8134, 8140); (8144, 8147); (8150, 8155);
    (8160, 8172); (8178, 8180); (8182, 8188); (8450, 8450); (8455, 8455);
    (8458, 8467); (8469, 8469); (8473, 8477); (8484, 8484); (8486, 8486);
    (8488, 8488); (8490, 8493); (8495, 8500); (8505, 8505); (8508, 8511);
    (8517, 8521); (8526, 8526); (8544, 8575); (8579, 8580); (9398, 9449);
    (11264, 11387); (11390, 11492); (11499, 11502); (11506, 11507);
    (11520, 11557); (11559, 11559); (11565, 11565); (42560, 42605);
    (42624, 42651); (42786, 42863); (42865, 42887); (42891, 42894);
    (42896, 42954); (42960, 42961); (42963, 42963); (42965, 42969);
    (42997, 42998); (43002, 43002); (43824, 43866); (43872, 43880);
    (43888, 43967); (64256, 64262); (64275, 64279); (65313, 65338);
    (65345, 65370); (66560, 66639); (66736, 66771); (66776, 66811);
    (66928, 66938); (66940, 66954); (66956, 66962); (66964, 66965);
    (66967, 66977); (66979, 66993); (66995, 67001); (67003, 67004);
    (68736, 68786); (68800, 68850); (71840, 71903); (93760, 93823);
    (119808, 119892); (119894, 119964); (119966, 119967); (119970, 119970);
    (119973, 119974); (119977, 119980); (119982, 119993); (119995, 119995);
    (119997, 120003); (120005, 120069); (120071, 120074); (120077, 120084);
    (120086, 120092); (120094, 120121); (120123, 120126); (120128, 120132);
    (120134, 120134); (120138, 120144); (120146, 120485); (120488, 120512);
    (120514, 120538); (120540, 120570); (120572, 120596); (120598, 120628);
    (120630, 120654); (120656, 120686); (120688, 120712); (120714, 120744);
    (120746, 120770); (120772, 120779); (122624, 122633); (122635, 122654);
    (125184, 125251); (127280, 127305); (127312, 127337); (127344, 127369) ].

(** The characters with the property Case_Ignorable. *)
Definition case_ignorable : list (N * N) :=
  [ (39, 39); (46, 46); (58, 58); (94, 94); (96, 96); (168, 168);
    (173, 173); (175, 175); (180, 180); (183, 184); (688, 879); (884, 885);
    (890, 890); (900, 901); (903, 903); (1155, 1161); (1369, 1369);
    (1375, 1375); (1425, 1469); (1471, 1471); (1473, 1474); (1476, 1477);
    (1479, 1479); (1524, 1524); (1536, 1541); (1552, 1562); (1564, 1564);
    (1600, 1600); (1611, 1631); (1648, 1648); (1750, 1757); (1759, 1768);
    (1770, 1773); (1807, 1807); (1809, 1809); (1840, 1866); (1958, 1968);
    (2027, 2037); (2042, 2042); (2045, 2045); (2070, 2093); (2137, 2139);
    (2184, 2184); (2192, 2193); (2200, 2207); (2249, 2306); (2362, 2362);
    (2364, 2364); (2369, 2376); (2381, 2381); (2385, 2391); (2402, 2403);
    (2417, 2417); (2433, 2433); (2492, 2492); (2497, 2500); (2509, 2509);
    (2530, 2531); (2558, 2558); (2561, 2562); (2620, 2620); (2625, 2626);
    (2631, 2632); (2635, 2637); (2641, 2641); (2672, 2673); (2677, 2677);
    (2689, 2690); (2748, 2748); (2753, 2757); (2759, 2760); (2765, 2765);
    (2786, 2787); (2810, 2815); (2817, 2817); (2876, 2876); (2879, 2879);
    (2881, 2884); (2893, 2893); (2901, 2902); (2914, 2915); (2946, 2946);
    (3008, 3008); (3021, 3021); (3072, 3072); (3076, 3076); (3132, 3132);
    (3134, 3136); (3142, 3144); (3146, 3149); (3157, 3158); (3170, 3171);
    (3201, 3201); (3260, 3260); (3263, 3263); (3270, 3270); (3276, 3277);
    (3298, 3299); (3328, 3329); (3387, 3388); (3393, 3396); (3405, 3405);
    (3426, 3427); (3457, 3457); (3530, 3530); (3538, 3540); (3542, 3542);
    (3633, 3633); (3636, 3642); (3654, 3662); (3761, 3761); (3764, 3772);
    (3782, 3782); (3784, 3789); (3864, 3865); (3893, 3893); (3895, 3895);
    (3897, 3897); (3953, 3966); (3968, 3972); (3974, 3975); (3981, 3991);
    (3993, 4028); (4038, 4038); (4141, 4144); (4146, 4151); (4153, 4154);
    (4157, 4158); (4184, 4185); (4190, 4192); (4209, 4212); (4226, 4226);
    (4229, 4230); (4237, 4237); (4253, 4253); (4348, 4348); (4957, 4959);
    (5906, 5908); (5938, 5939); (5970, 5971); (6002, 6003); (6068, 6069);
    (6071, 6077); (6086, 6086); (6089, 6099); (6103, 6103); (6109, 6109);
    (6155, 6159); (6211, 6211); (6277, 6278); (6313, 6313); (6432, 6434);
    (6439, 6440); (6450, 6450); (6457, 6459); (6679, 6680); (6683, 6683);
    (6742, 6742); (6744, 6750); (6752, 6752); (6754, 6754); (6757, 6764);
    (6771, 6780); (6783, 6783); (6823, 6823); (6832, 6862); (6912, 6915);
    (6964, 6964); (6966, 6970); (6972, 6972); (6978, 6978); (7019, 7027);
    (7040, 7041); (7074, 7077); (7080, 7081); (7083, 7085); (7142, 7142);
    (7144, 7145); (7149, 7149); (7151, 7153); (7212, 7219); (7222, 7223);
    (7288, 7293); (7376, 7378); (7380, 7392); (7394, 7400); (7405, 7405);
    (7412, 7412); (7416, 7417); (7468, 7530); (7544, 7544); (7579, 7679);
    (8125, 8125); (8127, 8129); (8141, 8143); (8157, 8159); (8173, 8175);
    (8189, 8190); (8203, 8207); (8216, 8217); (8228, 8228); (8231, 8231);
    (8234, 8238); (8288, 8292); (8294, 8303); (8305, 8305); (8319, 8319);
    (8336, 8348); (8400, 8432); (11388, 11389); (11503, 11505);
    (11631, 11631); (11647, 11647); (11744, 11775); (11823, 11823);
    (12293, 12293); (12330, 12333); (12337, 12341); (12347, 12347);
    (12441, 12446); (12540, 12542); (40981, 40981); (42232, 42237);
    (42508, 42508); (42607, 42610); (42612, 42621); (42623, 42623);
    (42652, 42655); (42736, 42737); (42752, 42785); (42864, 42864);
    (42888, 42890); (42994, 42996); (43000, 43001); (43010, 43010);
    (43014, 43014); (43019, 43019); (43045, 43046); (43052, 43052);
    (43204, 43205); (43232, 43249); (43263, 43263); (43302, 43309);
    (43335, 43345); (43392, 43394); (43443, 43443); (43446, 43449);
    (43452, 43453); (43471, 43471); (43493, 43494); (43561, 43566);
    (43569, 43570); (43573, 43574); (43587, 43587); (43596, 43596);
    (43632, 43632); (43644, 43644); (43696, 43696); (43698, 43700);
    (43703, 43704); (43710, 43711); (43713, 43713); (43741, 43741);
    (43756, 43757); (43763, 43764); (43766, 43766); (43867, 43871);
    (43881, 43883); (44005, 44005); (44008, 44008); (44013, 44013);
    (64286, 64286); (64434, 64450); (65024, 65039); (65043, 65043);
    (65056, 65071); (65106, 65106); (65109, 65109); (65279, 65279);
    (65287, 65287); (65294, 65294); (65306, 65306); (65342, 65342);
    (65344, 65344); (65392, 65392); (65438, 65439); (65507, 65507);
    (65529, 65531); (66045, 66045); (66272, 66272); (66422, 66426);
    (67456, 67461); (67463, 67504); (67506, 67514); (68097, 68099);
    (68101, 68102); (68108, 68111); (68152, 68154); (68159, 68159);
    (68325, 68326); (68900, 68903); (69291, 69292); (69446, 69456);
    (69506, 69509); (69633, 69633); (69688, 69702); (69744, 69744);
    (69747, 69748); (69759, 69761); (69811, 69814); (69817, 69818);
    (69821, 69821); (69826, 69826); (69837, 69837); (69888, 69890);
    (69927, 69931); (69933, 69940); (70003, 70003); (70016, 70017);
    (70070, 70078); (70089, 70092); (70095, 70095); (70191, 70193);
    (70196, 70196); (70198, 70199); (70206, 70206); (70367, 70367);
    (70371, 70378); (70400, 70401); (70459, 70460); (70464, 70464);
    (70502, 70508); (70512, 70516); (70712, 70719); (70722, 70724);
    (70726, 70726); (70750, 70750); (70835, 70840); (70842, 70842);
    (70847, 70848); (70850, 70851); (71090, 71093); (71100, 71101);
    (71103, 71104); (71132, 71133); (71219, 71226); (71229, 71229);
    (71231, 71232); (71339, 71339); (71341, 71341); (71344, 71349);
    (71351, 71351); (71453, 71455); (71458, 71461); (71463, 71467);
    (71727, 71735); (71737, 71738); (71995, 71996); (71998, 71998);
    (72003, 72003); (72148, 72151); (72154, 72155); (72160, 72160);
    (72193, 72202); (72243, 72248); (72251, 72254); (72263, 72263);
    (72273, 72278); (72281, 72283); (72330, 72342); (72344, 72345);
    (72752, 72758); (72760, 72765); (72767, 72767); (72850, 72871);
    (72874, 72880); (72882, 72883); (72885, 72886); (73009, 73014);
    (73018, 73018); (73020, 73021); (73023, 73029); (73031, 73031);
    (73104, 73105); (73109, 73109); (73111, 73111); (73459, 73460);
    (78896, 78904); (92912, 92916); (92976, 92982); (92992, 92995);
    (94031, 94031); (94095, 94111); (94176, 94177); (94179, 94180);
    (110576, 110579); (110581, 110587); (110589, 110590); (113821, 113822);
    (113824, 113827); (118528, 118573); (118576, 118598); (119143, 119145);
    (119155, 119170); (119173, 119179); (119210, 119213); (119362, 119364);
    (121344, 121398); (121403, 121452); (121461, 121461); (121476, 121476);
    (121499, 121503); (121505, 121519); (122880, 122886); (122888, 122904);
    (122907, 122913); (122915, 122916); (122918, 122922); (123184, 123197);
    (123566, 123566); (123628, 123631); (125136, 125142); (125252, 125259);
    (127995, 127999); (917505, 917505); (917536, 917631); (917760, 917999) ].

End Unicode.

(* ================================================================== *)
(** * Python runtime                                                    *)
(* ================================================================== *)

Module Py.

Inductive exn : Type :=
| AttributeError
| AssertionError
| ValueError
| ValidationError
| NotImplementedError
| IOError.

Inductive result (A : Type) : Type :=
| Ok (a : A)
| Raise (e : exn).
Arguments Ok {A} a.
Arguments Raise {A} e.

Definition bind {A B} (m : result A) (f : A -> result B) : result B :=
  match m with
  | Ok a => f a
  | Raise e => Raise e
  end.

(** [try: body  except Exception as e: handler e] *)
Definition try_except {A} (body : result A) (handler : exn -> result A)
  : result A :=
  match body with
  | Ok a => Ok a
  | Raise e => handler e
  end.

Inductive log_entry : Type :=
| LogInfo (msg : string)
| LogWarning (msg : string)
| LogError (msg : string) (cause : option exn).

Local Open Scope string_scope.

(** ** Characters

    A [str] is the [string] of its UTF-8 bytes.  [chars] cuts a string into
    its characters, each one the string of its own bytes, and [ord] gives
    the code point of a character.  A string that is not valid UTF-8 is the
    encoding of no [str]: such a string is cut as its first bytes announce,
    and [ord] has no value on a piece that is not the encoding of a
    character, so that no test holds of it. *)

Definition byte (a : ascii) : N := N_of_ascii a.

(** The number of bytes that the first byte of a character announces. *)
Definition width (a : ascii) : nat :=
  if (byte a <? 192)%N then 1
  else if (byte a <? 224)%N then 2
  else if (byte a <? 240)%N then 3
  else if (byte a <? 248)%N then 4
  else 1.

Fixpoint take (n : nat) (s : string) : string :=
  match n, s with
  | S k, String a s' => String a (take k s')
  | _, _ => EmptyString
  end.

Fixpoint drop (n : nat) (s : string) : string :=
  match n, s with
  | S k, String _ s' => drop k s'
  | _, _ => s
  end.

Fixpoint chars_from (skip : nat) (s : string) : list string :=
  match s with
  | EmptyString => []
  | String a s' =>
      match skip with
      | S k => chars_from k s'
      | O => take (width a) s :: chars_from (width a - 1) s'
      end
  end.

(** [list(s)] *)
Definition chars (s : string) : list string := chars_from 0 s.

(** [''.join(l)] *)
Definition join (l : list string) : string :=
  fold_right append EmptyString l.

(** The six bits of a continuation byte [10xxxxxx]. *)
Definition continuation (a : ascii) : option N :=
  if ((128 <=? byte a) && (byte a <? 192))%N then Some (byte a - 128)%N
  else None.

Definition within (low high : N) (c : N) : option N :=
  if ((low <=? c) && (c <=? high))%N then Some c else None.

(** [ord(c)]: the code point of the character [c]; the shortest encoding
    only, no surrogate, nothing beyond U+10FFFF. *)
Definition ord (c : string) : option N :=
  match c with
  | String a EmptyString =>
      if (byte a <? 128)%N then Some (byte a) else None
  | String a (String b1 EmptyString) =>
      match continuation b1 with
      | Some x1 =>
          if ((192 <=? byte a) && (byte a <? 224))%N
          then within 128 2047 ((byte a - 192) * 64 + x1)%N
          else None
      | None => None
      end
  | String a (String b1 (String b2 EmptyString)) =>
      match continuation b1, continuation b2 with
      | Some x1, Some x2 =>
          if ((224 <=? byte a) && (byte a <? 240))%N then
            let c := ((byte a - 224) * 4096 + x1 * 64 + x2)%N in
            if ((55296 <=? c) && (c <=? 57343))%N then None
            else within 2048 65535 c
          else None
      | _, _ => None
      end
  | String a (String b1 (String b2 (String b3 EmptyString))) =>
      match continuation b1, continuation b2, continuation b3 with
      | Some x1, Some x2, Some x3 =>
          if ((240 <=? byte a) && (byte a <? 248))%N
          then within 65536 1114111
                 ((byte a - 240) * 262144 + x1 * 4096 + x2 * 64 + x3)%N
          else None
      | _, _, _ => None
      end
  | _ => None
  end.

Definition of_bytes (l : list N) : string :=
  string_of_list_ascii (map ascii_of_N l).

(** [chr(c)] *)
Definition chr (c : N) : string :=
  if (c <? 128)%N then of_bytes [c]
  else if (c <? 2048)%N then of_bytes [192 + c / 64; 128 + c mod 64]%N
  else if (c <? 65536)%N then
    of_bytes [224 + c / 4096; 128 + (c / 64) mod 64; 128 + c mod 64]%N
  else
    of_bytes [240 + c / 262144; 128 + (c / 4096) mod 64;
              128 + (c / 64) mod 64; 128 + c mod 64]%N.

(** [len(s)] *)
Definition len (s : string) : nat := List.length (chars s).

(** [s[:n]] *)
Definition slice_to (n : nat) (s : string) : string :=
  join (firstn n (chars s)).

(** ** Classes of characters *)

Definition in_ranges (ranges : list (N * N)) (c : N) : bool :=
  existsb (fun r => (fst r <=? c) && (c <=? snd r))%N ranges.

(** [str.isspace], the class [\s] *)
Definition is_space (c : N) : bool := in_ranges Unicode.whitespace c.

(** The value of a decimal digit. *)
Definition decimal (c : N) : option Z :=
  match find (fun r => (fst r <=? c) && (c <=? snd r))%N
             Unicode.decimal_digits with
  | Some r => Some (Z.of_N ((c - fst r) mod 10))
  | None => None
  end.

(** The class [\d] *)
Definition is_digit (c : N) : bool :=
  match decimal c with
  | Some _ => true
  | None => false
  end.

(** The simple lowercase mapping. *)
Definition tolower (c : N) : N :=
  match find (fun e =>
                let '(first, last, step, _) := e in
                (first <=? c) && (c <=? last)
                && ((c - first) mod step =? 0))%N
             Unicode.lowercase with
  | Some (first, _, _, image) => (image + (c - first))%N
  | None => c
  end.

(** The test a character makes of a character. *)
Definition holds (p : N -> bool) (c : string) : bool :=
  match ord c with
  | Some n => p n
  | None => false
  end.

(** ** [s.lower()]

    Every character goes to its lowercase; the capital I with a dot above
    goes to two characters, and a capital sigma to the final sigma when it
    ends a word: when a cased letter comes before it and none after it,
    characters that case ignores set aside. *)

Definition lowercase_of (c : N) : list N :=
  if (c =? 304)%N then [105; 775]%N else [tolower c].

Definition case_ignorable (c : string) : bool :=
  holds (in_ranges Unicode.case_ignorable) c.

Definition cased (c : string) : bool := holds (in_ranges Unicode.cased) c.

Fixpoint before_cased (l : list string) : bool :=
  match l with
  | [] => false
  | c :: l' => if case_ignorable c then before_cased l' else cased c
  end.

Fixpoint lower_chars (after_cased : bool) (l : list string) : list string :=
  match l with
  | [] => []
  | c :: l' =>
      let lowered :=
        match ord c with
        | Some n =>
            if (n =? 931)%N then
              if after_cased && negb (before_cased l')
              then chr 962 else chr 963
            else join (map chr (lowercase_of n))
        | None => c
        end in
      lowered
        :: lower_chars (if case_ignorable c then after_cased else cased c) l'
  end.

Definition lower (s : string) : string := join (lower_chars false (chars s)).

(** [sub in s] *)
Fixpoint contains (sub s : string) : bool :=
  prefix sub s ||
  match s with
  | EmptyString => false
  | String _ s' => contains sub s'
  end.

(** [s.replace(c, '')] for an ASCII character [c] *)
Fixpoint remove_char (c : ascii) (s : string) : string :=
  match s with
  | EmptyString => EmptyString
  | String a s' =>
      if Ascii.eqb a c then remove_char c s' else String a (remove_char c s')
  end.

(** ** [s.strip()] *)

Fixpoint lstrip_chars (l : list string) : list string :=
  match l with
  | c :: l' => if holds is_space c then lstrip_chars l' else l
  | [] => []
  end.

Fixpoint rstrip_chars (l : list string) : list string :=
  match l with
  | [] => []
  | c :: l' =>
      match rstrip_chars l' with
      | [] => if holds is_space c then [] else [c]
      | r => c :: r
      end
  end.

(** [s.lstrip()] *)
Definition lstrip (s : string) : string := join (lstrip_chars (chars s)).

(** [s.strip()] *)
Definition strip (s : string) : string :=
  join (rstrip_chars (lstrip_chars (chars s))).

(** ** [float(s)]

    Every decimal digit stands for its value and white space around the
    number is passed over; the four separators U+001C to U+001F are white
    space for [strip] but not here.  The accepted syntax is: an optional
    sign, then [digits], [digits.], [digits.digits] or [.digits].  Python
    also accepts exponents, underscores and the words inf and nan; none of
    them can be spelled with the characters a group of the amount patterns
    captures, so they are left out and rejected here. *)

Definition float_space (c : N) : bool :=
  if (c <? 127)%N then (c =? 32)%N || ((9 <=? c) && (c <=? 13))%N
  else is_space c.

Definition digit (c : string) : option Z :=
  match ord c with
  | Some n => decimal n
  | None => None
  end.

Fixpoint skip_space (l : list string) : list string :=
  match l with
  | c :: l' => if holds float_space c then skip_space l' else l
  | [] => []
  end.

(** Reads a maximal run of digits; returns its value continued from [acc],
    the number of digits read and the rest. *)
Fixpoint read_digits (l : list string) (acc : Z) (n : nat)
  : Z * nat * list string :=
  match l with
  | c :: l' =>
      match digit c with
      | Some d => read_digits l' (10 * acc + d)%Z (S n)
      | None => (acc, n, l)
      end
  | [] => (acc, n, l)
  end.

Definition all_space (l : list string) : bool :=
  match skip_space l with
  | [] => true
  | _ => false
  end.

Definition float_unsigned (l : list string) : option Q :=
  let '(ip, ni, rest) := read_digits l 0%Z 0%nat in
  match rest with
  | c :: rest' =>
      if String.eqb c "." then
        let '(fp, nf, rest'') := read_digits rest' 0%Z 0%nat in
        if ((ni =? 0)%nat && (nf =? 0)%nat) || negb (all_space rest'')
        then None
        else Some (inject_Z ip + Qmake fp (Pos.pow 10 (Pos.of_nat nf)))%Q
      else
        if (ni =? 0)%nat || negb (all_space rest) then None
        else Some (inject_Z ip)
  | [] => if (ni =? 0)%nat then None else Some (inject_Z ip)
  end.

Definition float (s : string) : option Q :=
  match skip_space (chars s) with
  | c :: l =>
      if String.eqb c "-" then option_map Qopp (float_unsigned l)
      else if String.eqb c "+" then float_unsigned l
      else float_unsigned (c :: l)
  | [] => None
  end.

End Py.

(* ================================================================== *)
(** * Regular expressions ([re.search] with [re.IGNORECASE])            *)
(* ================================================================== *)

Module Re.

Local Open Scope string_scope.

(** The fragment of the pattern language the sources use.  [Group] is the
    capturing group number 1; non-capturing groups [(?:...)] are only
    parentheses.  Repetitions are greedy, alternatives are tried from left
    to right, and the matcher backtracks, as in Python. *)
Inductive regex : Type :=
| Eps
| Lit (c : string)            (* a literal character, case ignored *)
| Digit                       (* \d *)
| Space                       (* \s *)
| DigitOrComma                (* [\d,] *)
| Seq (r1 r2 : regex)
| Alt (r1 r2 : regex)         (* r1|r2 *)
| Opt (r : regex)             (* r? *)
| Star (r : regex)            (* r* *)
| Plus (r : regex)            (* r+ *)
| Group (r : regex).          (* (r), group 1 *)

Fixpoint literals (cs : list string) : regex :=
  match cs with
  | [] => Eps
  | [c] => Lit c
  | c :: cs' => Seq (Lit c) (literals cs')
  end.

(** The literal string [s] as a sequence of [Lit]. *)
Definition Str (s : string) : regex := literals (Py.chars s).

(** A literal under [re.IGNORECASE], for a pattern that is a [str]: a
    character that no case mapping changes matches itself only; another one
    matches the characters whose lowercase is its own lowercase, or one of
    the extra cases of that. *)
Definition lit_test (c : string) (a : N) : bool :=
  match Py.ord c with
  | Some n =>
      if Py.in_ranges Unicode.changed_by_case n then
        let lo := Py.tolower n in
        (Py.tolower a =? lo)%N
        || match find (fun e => (fst e =? lo)%N) Unicode.extra_cases with
           | Some e => existsb (N.eqb (Py.tolower a)) (snd e)
           | None => false
           end
      else (a =? n)%N
  | None => false
  end.

(** One character of the subject, put to the test [p]. *)
Definition char_test (p : N -> bool) {A} (s : string)
           (k : string -> option A) : option A :=
  match s with
  | String a _ =>
      if Py.holds p (Py.take (Py.width a) s)
      then k (Py.drop (Py.width a) s)
      else None
  | EmptyString => None
  end.

(** [m r s g k]: match [r] at the head of [s] with group 1 currently [g];
    on success call the continuation on the rest of the subject and the
    group; [None] from the continuation makes the matcher backtrack. *)
Fixpoint m {A} (r : regex) (s : string) (g : option string)
         (k : string -> option string -> option A) : option A :=
  match r with
  | Eps => k s g
  | Lit c => char_test (lit_test c) s (fun s' => k s' g)
  | Digit => char_test Py.is_digit s (fun s' => k s' g)
  | Space => char_test Py.is_space s (fun s' => k s' g)
  | DigitOrComma =>
      char_test (fun a => Py.is_digit a || (a =? 44)%N) s
                (fun s' => k s' g)
  | Seq r1 r2 => m r1 s g (fun s' g' => m r2 s' g' k)
  | Alt r1 r2 =>
      match m r1 s g k with
      | Some x => Some x
      | None => m r2 s g k
      end
  | Opt r1 =>
      match m r1 s g k with
      | Some x => Some x
      | None => k s g
      end
  | Star r1 =>
      (fix loop (fuel : nat) (s : string) (g : option string) : option A :=
         match fuel with
         | O => k s g
         | S fuel' =>
             match m r1 s g (fun s' g' =>
                      if (length s' <? length s)%nat
                      then loop fuel' s' g' else None) with
             | Some x => Some x
             | None => k s g
             end
         end) (length s) s g
  | Plus r1 =>
      m r1 s g (fun s1 g1 =>
      (fix loop (fuel : nat) (s : string) (g : option string) : option A :=
         match fuel with
         | O => k s g
         | S fuel' =>
             match m r1 s g (fun s' g' =>
                      if (length s' <? length s)%nat
                      then loop fuel' s' g' else None) with
             | Some x => Some x
             | None => k s g
             end
         end) (length s1) s1 g1)
  | Group r1 =>
      m r1 s g (fun s' _ =>
                  k s' (Some (substring 0 (length s - length s') s)))
  end.

(** A match object: the text of group 1 ([None] when the group took no part
    in the match). *)
Record match_object : Type := { group1 : option string }.

(** [re.match]: anchored at the start of [s]. *)
Definition match_here (r : regex) (s : string) : option match_object :=
  m r s None (fun _ g => Some {| group1 := g |}).

(** The search from the next character on, [skip] bytes ahead. *)
Fixpoint search_from (skip : nat) (r : regex) (s : string)
  : option match_object :=
  match skip, s with
  | S k, String _ s' => search_from k r s'
  | _, _ =>
      match match_here r s with
      | Some mo => Some mo
      | None =>
          match s with
          | EmptyString => None
          | String a s' => search_from (Py.width a - 1) r s'
          end
      end
  end.

(** [re.search]: the leftmost character at which [r] matches. *)
Definition search (r : regex) (s : string) : option match_object :=
  search_from 0 r s.

End Re.

(* ================================================================== *)
(** * utils/firecrawl_wrapper.py                                        *)
(* ================================================================== *)

Module FirecrawlWrapper.

Import Re.
Local Open Scope string_scope.

(** [(?:lakhs?|crores?|cr)] *)
Definition magnitude : regex :=
  Alt (Seq (Str "lakh") (Opt (Lit "s")))
      (Alt (Seq (Str "crore") (Opt (Lit "s"))) (Str "cr")).

(** [[\d,]+(?:\.\d+)?] *)
Definition number : regex :=
  Seq (Plus DigitOrComma) (Opt (Seq (Lit ".") (Plus Digit))).

(** The bytes of the rupee sign U+20B9. *)
Definition rupee : string :=
  String (ascii_of_nat 226)
    (String (ascii_of_nat 130) (String (ascii_of_nat 185) EmptyString)).

(** [(?:Rs\.?|R|INR)\s*([\d,]+(?:\.\d+)?(?:\s*(?:lakhs?|crores?|cr))?)],
    where R is the rupee sign. *)
Definition pattern_currency : regex :=
  Seq (Alt (Seq (Str "Rs") (Opt (Lit ".")))
           (Alt (Str rupee) (Str "INR")))
      (Seq (Star Space)
           (Group (Seq number (Opt (Seq (Star Space) magnitude))))).

(** [([\d,]+(?:\.\d+)?)\s*(?:lakhs?|crores?|cr)] *)
Definition pattern_magnitude : regex :=
  Seq (Group number) (Seq (Star Space) magnitude).

Definition amount_patterns : list regex :=
  [pattern_currency; pattern_magnitude].

(** The body of the [try] block: [None] stands for the [ValueError] of
    [float], which the [except] clause swallows. *)
Definition convert (text amount_str : string) : option Q :=
  if Py.contains "lakh" (Py.lower text) then
    option_map (fun x => x * 100000)%Q (Py.float amount_str)
  else if Py.contains "cr" (Py.lower text)
          || Py.contains "crore" (Py.lower text) then
    option_map (fun x => x * 10000000)%Q (Py.float amount_str)
  else
    Py.float amount_str.

(** The literal a pattern captures, thousands separators removed:
    [match.group(1).replace(',', '')].  Every match of the two patterns
    goes through group 1, so the second case is never taken. *)
Definition amount_str_of (mo : match_object) : string :=
  match group1 mo with
  | Some lit => Py.remove_char "," lit
  | None => EmptyString
  end.

(** The [for pattern in amount_patterns] loop. *)
Fixpoint extract_with (patterns : list regex) (text : string) : option Q :=
  match patterns with
  | [] => None
  | pattern :: rest =>
      match search pattern text with
      | Some mo =>
          match convert text (amount_str_of mo) with
          | Some amount => Some amount
          | None => extract_with rest text      (* except ValueError: pass *)
          end
      | None => extract_with rest text
      end
  end.

Definition _extract_amount (text : string) : option Q :=
  extract_with amount_patterns text.

End FirecrawlWrapper.

(* ================================================================== *)
(** * utils/config.py                                                   *)
(* ================================================================== *)

Module TenderSchema.
Record t : Type := mk {
  id : string;
  title : string;
  description : string;
  amount : option Q;
  deadline : option string;
  source : string;
  url : string;
  category : option string;
  department : option string;
  location : option string;
  publication_date : option string;
  raw_text : string;
  embedding : option (list Q)
}.

(** [tender.embedding = e] *)
Definition set_embedding (tender : t) (e : list Q) : t :=
  mk (id tender) (title tender) (description tender) (amount tender)
     (deadline tender) (source tender) (url tender) (category tender)
     (department tender) (location tender) (publication_date tender)
     (raw_text tender) (Some e).
End TenderSchema.

Module CompanySchema.
Record t : Type := mk {
  name : string;
  description : string;
  services : list string;
  capabilities : list string;
  expertise : list string;
  embedding : option (list Q)
}.

(** [company_info.embedding = e] *)
Definition set_embedding (company : t) (e : list Q) : t :=
  mk (name company) (description company) (services company)
     (capabilities company) (expertise company) (Some e).
End CompanySchema.

Module RecommendationSchema.
Record t : Type := mk {
  tender_id : string;
  tender_title : string;
  similarity_score : Q;
  tender_details : TenderSchema.t
}.
End RecommendationSchema.

(* ================================================================== *)
(** * The embedding service ([POST /api/embeddings])                    *)
(* ================================================================== *)

Module Ollama.

(** What [response.json()] finds in the body.  A value under the key
    "embedding" is taken to be a list of numbers, of any length. *)
Inductive body : Type :=
| NotJson                                    (* [response.json()] raises *)
| JsonNotObject                              (* valid JSON without [.get] *)
| JsonObject (embedding : option (list Q)).  (* the key may be missing *)

Inductive response : Type :=
| ConnectionError                            (* [requests.post] raises *)
| HttpResponse (status_code : Z) (b : body).

End Ollama.

(* ================================================================== *)
(** * Stable sorting                                                    *)
(* ================================================================== *)

Module StableSort.
Section Sort.
Variable A : Type.
(** [before y x]: [y] must come strictly before [x]. *)
Variable before : A -> A -> bool.

Fixpoint insert (x : A) (l : list A) : list A :=
  match l with
  | [] => [x]
  | y :: l' => if before y x then y :: insert x l' else x :: l
  end.

(** Insertion from the right end: an element stays in front of the later
    elements it does not have to follow, which makes the sort stable. *)
Fixpoint sort (l : list A) : list A :=
  match l with
  | [] => []
  | x :: l' => insert x (sort l')
  end.

(** [x] may stand in front of [y]: [y] does not have to come first. *)
Definition may_precede (x y : A) : Prop := before y x = false.
End Sort.
End StableSort.

Definition Qlt_bool (x y : Q) : bool := negb (Qle_bool y x).

(* ================================================================== *)
(** * faiss.IndexFlatL2                                                 *)
(* ================================================================== *)

Module Faiss.

Import Py.

(** An exact (brute force) L2 index: its dimension and the stored vectors,
    the ordinal of a vector being its position in [xb]. *)
Record IndexFlatL2 : Type := mk { d : nat; xb : list (list Q) }.

Definition new (dim : nat) : IndexFlatL2 := mk dim [].

Definition ntotal (ix : IndexFlatL2) : nat := List.length (xb ix).

(** [index.add(x)] for a two-dimensional array [x]: asserts that the rows
    have the dimension of the index. *)
Definition add (ix : IndexFlatL2) (x : list (list Q)) : result IndexFlatL2 :=
  if forallb (fun row => (List.length row =? d ix)%nat) x
  then Ok (mk (d ix) (xb ix ++ x))
  else Raise AssertionError.

(** Squared Euclidean distance, the metric of [IndexFlatL2]. *)
Fixpoint l2sqr (x y : list Q) : Q :=
  match x, y with
  | a :: x', b :: y' => (a - b) * (a - b) + l2sqr x' y'
  | _, _ => 0
  end.

Definition closer (n1 n2 : Q * nat) : bool := Qlt_bool (fst n1) (fst n2).

(** All stored vectors with their distance to [q], nearest first. *)
Definition ranked (ix : IndexFlatL2) (q : list Q) : list (Q * nat) :=
  StableSort.sort closer
    (combine (map (l2sqr q) (xb ix)) (seq 0 (ntotal ix))).

(** [index.search(x, k)] for a one-row query [x]: the [k] nearest stored
    vectors as pairs [(distances[0][i], indices[0][i])], by ascending
    distance.  Asserts the dimension of the query and that [k] is
    positive.  The engine asks for no more neighbours than the index holds,
    so every label is the ordinal of a stored vector. *)
Definition search (ix : IndexFlatL2) (q : list Q) (k : nat)
  : result (list (Q * nat)) :=
  if negb (List.length q =? d ix)%nat then Raise AssertionError
  else if (k =? 0)%nat then Raise AssertionError
  else Ok (firstn k (ranked ix q)).

End Faiss.

(** [np.array(rows).astype('float32')]: a list of rows of one length becomes
    a two-dimensional array, each entry converted by [float32]; rows of
    different lengths have no array. *)
Definition np_array2 (float32 : Q -> Q) (rows : list (list Q))
  : Py.result (list (list Q)) :=
  match rows with
  | [] => Py.Ok []
  | row :: rest =>
      if forallb (fun r => (List.length r =? List.length row)%nat) rest
      then Py.Ok (map (map float32) rows)
      else Py.Raise Py.ValueError
  end.

Definition zeros (n : nat) : list Q := repeat 0%Q n.

(* ================================================================== *)
(** * agents/tender_scraper_agent.py                                    *)
(* ================================================================== *)

Module TenderScraperAgent.

Import Py.
Local Open Scope string_scope.

(** The state of one file of the vector database directory.  [Unreadable]
    is a file that exists but whose load raises. *)
Inductive file (A : Type) : Type :=
| Absent
| Unreadable
| Stored (content : A).
Arguments Absent {A}.
Arguments Unreadable {A}.
Arguments Stored {A} content.

Record disk : Type := mkDisk {
  faiss_index_bin : file Faiss.IndexFlatL2;
  tenders_pkl : file (list TenderSchema.t)
}.

(** Whether the two writes of one save raise; a write that raises leaves
    the file as it was. *)
Record write_faults : Type := mkFaults {
  index_write_fails : bool;
  tenders_write_fails : bool
}.

Definition no_faults : write_faults := mkFaults false false.

(** The fields [self.index] and [self.tenders]. *)
Record agent : Type := mkAgent {
  index : option Faiss.IndexFlatL2;
  tenders : list TenderSchema.t
}.

Definition __init__ : agent := mkAgent None [].

Section Agent.

(** [VECTOR_DIMENSION] of the configuration, the answer of the embedding
    service to a prompt, and the conversion to [float32]. *)
Variable VECTOR_DIMENSION : nat.
Variable service : string -> Ollama.response.
Variable float32 : Q -> Q.

Definition get_embedding (text : string) : result (list Q) :=
  try_except
    (match service text with
     | Ollama.ConnectionError => Raise IOError
     | Ollama.HttpResponse status_code b =>
         if negb (status_code =? 200)%Z then Ok (zeros VECTOR_DIMENSION)
         else
           match b with
           | Ollama.NotJson => Raise ValueError
           | Ollama.JsonNotObject => Raise AttributeError
           | Ollama.JsonObject None => Ok (zeros VECTOR_DIMENSION)
           | Ollama.JsonObject (Some embedding) => Ok embedding
           end
     end)
    (fun _ => Ok (zeros VECTOR_DIMENSION)).

(** [f"{tender.title} {tender.description}"] *)
Definition text_for_embedding (tender : TenderSchema.t) : string :=
  TenderSchema.title tender ++ " " ++ TenderSchema.description tender.

Definition _load_index_and_tenders (self : agent) (dk : disk) : agent :=
  let tenders' :=
    match tenders_pkl dk with
    | Absent => tenders self
    | Unreadable => []
    | Stored ts => ts
    end in
  let index' :=
    match faiss_index_bin dk with
    | Absent => index self
    | Unreadable => None
    | Stored ix => Some ix
    end in
  mkAgent index' tenders'.

(** The loop over the scraped tenders, with its two accumulators.  The
    export of the raw record ([_save_raw_tender]) catches its own errors
    and touches neither the index nor the store; the exports of the loop
    are followed apart, in [TenderIngestion.export_loop]. *)
Fixpoint embed_loop (batch new_tenders : list TenderSchema.t)
         (embeddings : list (list Q))
  : list TenderSchema.t * list (list Q) :=
  match batch with
  | [] => (new_tenders, embeddings)
  | tender :: rest =>
      match get_embedding (text_for_embedding tender) with
      | Ok embedding =>
          embed_loop rest
            (new_tenders ++ [TenderSchema.set_embedding tender embedding])
            (embeddings ++ [embedding])
      | Raise _ => embed_loop rest new_tenders embeddings
      end
  end.

(** Returns the agent as the call leaves it, also when it raises. *)
Definition _update_index (self : agent) (new_embeddings : list (list Q))
  : agent * result unit :=
  match new_embeddings with
  | [] => (self, Ok tt)
  | _ =>
      match np_array2 float32 new_embeddings with
      | Raise e => (self, Raise e)
      | Ok embeddings_array =>
          let ix :=
            match index self with
            | None => Faiss.new VECTOR_DIMENSION
            | Some ix => ix
            end in
          match Faiss.add ix embeddings_array with
          | Ok ix' => (mkAgent (Some ix') (tenders self), Ok tt)
          | Raise e => (mkAgent (Some ix) (tenders self), Raise e)
          end
      end
  end.

Definition _save_index_and_tenders (self : agent) (dk : disk)
           (faults : write_faults) : disk :=
  let index_file :=
    match index self with
    | Some ix =>
        if index_write_fails faults then faiss_index_bin dk else Stored ix
    | None => faiss_index_bin dk
    end in
  let tenders_file :=
    if tenders_write_fails faults then tenders_pkl dk
    else Stored (tenders self) in
  mkDisk index_file tenders_file.

Definition _process_and_store_tenders (self : agent) (dk : disk)
           (batch : list TenderSchema.t) (faults : write_faults)
  : agent * disk * result unit :=
  let self1 := _load_index_and_tenders self dk in
  let '(new_tenders, embeddings) := embed_loop batch [] [] in
  match new_tenders with
  | [] => (self1, dk, Ok tt)
  | _ =>
      let self2 := mkAgent (index self1) (tenders self1 ++ new_tenders) in
      match _update_index self2 embeddings with
      | (self3, Ok _) =>
          (self3, _save_index_and_tenders self3 dk faults, Ok tt)
      | (self3, Raise e) => (self3, dk, Raise e)
      end
  end.

(** ** Runs of the ingestion side *)

Record system : Type := mkSystem { the_agent : agent; the_disk : disk }.

(** A fresh installation: a new agent and an empty data directory. *)
Definition fresh : system := mkSystem __init__ (mkDisk Absent Absent).

Inductive event : Type :=
| NewAgent                               (* [TenderScraperAgent()] *)
| Append (batch : list TenderSchema.t) (faults : write_faults).

Definition step (st : system) (ev : event) : system * result unit :=
  match ev with
  | NewAgent => (mkSystem __init__ (the_disk st), Ok tt)
  | Append batch faults =>
      let '(a, dk, r) :=
        _process_and_store_tenders (the_agent st) (the_disk st)
                                   batch faults in
      (mkSystem a dk, r)
  end.

(** The state after each event, oldest first, with the outcome of the
    event. *)
Fixpoint run (st : system) (evs : list event)
  : list (system * result unit) :=
  match evs with
  | [] => []
  | ev :: evs' =>
      let '(st', r) := step st ev in (st', r) :: run st' evs'
  end.

(** ** The alignment of index and store *)

(** The vector the index holds for a stored tender: the [float32] image
    of the embedding of its title and description. *)
Definition derived (vector : list Q) (tender : TenderSchema.t) : Prop :=
  exists embedding,
    get_embedding (text_for_embedding tender) = Ok embedding /\
    TenderSchema.embedding tender = Some embedding /\
    vector = map float32 embedding.

Definition index_vectors (ix : option Faiss.IndexFlatL2)
  : list (list Q) :=
  match ix with
  | None => []
  | Some ix => Faiss.xb ix
  end.

(** Equal counts, and ordinal by ordinal the vector of the tender. *)
Definition aligned (a : agent) : Prop :=
  List.length (index_vectors (index a)) = List.length (tenders a) /\
  forall i vector tender,
    nth_error (index_vectors (index a)) i = Some vector ->
    nth_error (tenders a) i = Some tender ->
    derived vector tender.

End Agent.

End TenderScraperAgent.

(* ================================================================== *)
(** * agents/company_scraper_agent.py                                   *)
(* ================================================================== *)

(** Values of [model_dump()]: the external representation of a record. *)
#[warnings="-register-all"]
Inductive pyvalue : Type :=
| PNone
| PStr (s : string)
| PFloat (x : Q)
| PList (items : list pyvalue)
| PDict (items : list (string * pyvalue)).

Module Pydantic.

Local Open Scope string_scope.

Definition dict : Type := list (string * pyvalue).

(** [d.get(key)] *)
Fixpoint get (key : string) (d : dict) : option pyvalue :=
  match d with
  | [] => None
  | (k, v) :: d' => if String.eqb k key then Some v else get key d'
  end.

Definition opt_str (o : option string) : pyvalue :=
  match o with Some s => PStr s | None => PNone end.

Definition opt_float (o : option Q) : pyvalue :=
  match o with Some x => PFloat x | None => PNone end.

Definition opt_vector (o : option (list Q)) : pyvalue :=
  match o with Some v => PList (map PFloat v) | None => PNone end.

Definition str_list (l : list string) : pyvalue := PList (map PStr l).

(** [model_dump(exclude=S)] with [S] a set of strings: a member of [S]
    names a field of the model being dumped, and that field is left out.
    Fields of nested models are not addressed by such names (pydantic wants
    a dictionary [{'field': {'subfield'}}] for them), so a name that is no
    field of the model excludes nothing. *)
Definition exclude_fields (exclude : list string) (fields : dict) : dict :=
  filter (fun kv => negb (existsb (String.eqb (fst kv)) exclude)) fields.

Definition dump_tender (exclude : list string) (t : TenderSchema.t) : dict :=
  exclude_fields exclude
    [ ("id", PStr (TenderSchema.id t));
      ("title", PStr (TenderSchema.title t));
      ("description", PStr (TenderSchema.description t));
      ("amount", opt_float (TenderSchema.amount t));
      ("deadline", opt_str (TenderSchema.deadline t));
      ("source", PStr (TenderSchema.source t));
      ("url", PStr (TenderSchema.url t));
      ("category", opt_str (TenderSchema.category t));
      ("department", opt_str (TenderSchema.department t));
      ("location", opt_str (TenderSchema.location t));
      ("publication_date", opt_str (TenderSchema.publication_date t));
      ("raw_text", PStr (TenderSchema.raw_text t));
      ("embedding", opt_vector (TenderSchema.embedding t)) ].

Definition dump_company (exclude : list string) (c : CompanySchema.t)
  : dict :=
  exclude_fields exclude
    [ ("name", PStr (CompanySchema.name c));
      ("description", PStr (CompanySchema.description c));
      ("services", str_list (CompanySchema.services c));
      ("capabilities", str_list (CompanySchema.capabilities c));
      ("expertise", str_list (CompanySchema.expertise c));
      ("embedding", opt_vector (CompanySchema.embedding c)) ].

Definition dump_recommendation (exclude : list string)
           (r : RecommendationSchema.t) : dict :=
  exclude_fields exclude
    [ ("tender_id", PStr (RecommendationSchema.tender_id r));
      ("tender_title", PStr (RecommendationSchema.tender_title r));
      ("similarity_score", PFloat (RecommendationSchema.similarity_score r));
      ("tender_details",
       PDict (dump_tender [] (RecommendationSchema.tender_details r))) ].

End Pydantic.

Module CompanyScraperAgent.

Import Py.
Local Open Scope string_scope.

(** An element of the unpickled list [self.tenders]: a [TenderSchema]
    instance, or any other object, which has no attribute [id]. *)
Inductive pyobj : Type :=
| Tender (t : TenderSchema.t)
| Other.

(** The fields [self.index] and [self.tenders]. *)
Record agent : Type := mkAgent {
  index : option Faiss.IndexFlatL2;
  tenders : list pyobj
}.

(** Python's two-argument [min] and [max]: the first argument unless the
    second is strictly smaller (larger). *)
Definition py_min (a b : Q) : Q := if Qlt_bool b a then b else a.
Definition py_max (a b : Q) : Q := if Qlt_bool a b then b else a.

(** [max(0, min(100, (1.0 - distance/10) * 100))] *)
Definition similarity (distance : Q) : Q :=
  py_max 0 (py_min 100 ((1 - distance / 10) * 100)).

(** [key=lambda x: x.similarity_score, reverse=True]: [y] goes strictly
    before [x] when its score is strictly higher. *)
Definition higher_score (y x : RecommendationSchema.t) : bool :=
  Qlt_bool (RecommendationSchema.similarity_score x)
           (RecommendationSchema.similarity_score y).

(** [recommendations.sort(key=..., reverse=True)]; the sort of Python lists
    is stable, also in reverse. *)
Definition sort_recommendations (l : list RecommendationSchema.t)
  : list RecommendationSchema.t :=
  StableSort.sort higher_score l.

(** The [for i in range(len(indices[0]))] loop.  Returns the local list
    [recommendations] as the loop leaves it and the exception that ended
    it, if one did. *)
Fixpoint scoring_loop (tenders : list pyobj) (neighbours : list (Q * nat))
         (recommendations : list RecommendationSchema.t)
  : list RecommendationSchema.t * option exn :=
  match neighbours with
  | [] => (recommendations, None)
  | (distance, idx) :: rest =>
      if (idx <? List.length tenders)%nat then
        match nth_error tenders idx with
        | Some (Tender tender) =>
            let similarity_score := similarity distance in
            let recommendation :=
              RecommendationSchema.mk (TenderSchema.id tender)
                (TenderSchema.title tender) similarity_score tender in
            scoring_loop tenders rest (recommendations ++ [recommendation])
        | _ => (recommendations, Some AttributeError)
        end
      else scoring_loop tenders rest recommendations
  end.

Section Agent.

Variable service : string -> Ollama.response.
Variable float32 : Q -> Q.

Definition get_embedding (text : string) : result (list Q) :=
  try_except
    (match service text with
     | Ollama.ConnectionError => Raise IOError
     | Ollama.HttpResponse status_code b =>
         if negb (status_code =? 200)%Z then Ok (zeros 384)
         else
           match b with
           | Ollama.NotJson => Raise ValueError
           | Ollama.JsonNotObject => Raise AttributeError
           | Ollama.JsonObject None => Ok (zeros 384)
           | Ollama.JsonObject (Some embedding) => Ok embedding
           end
     end)
    (fun _ => Ok (zeros 384)).

(** The body of the [try] block of [_find_matching_tenders]. *)
Definition matching_body (self : agent) (ix : Faiss.IndexFlatL2)
           (company_info : CompanySchema.t) (top_k : nat)
  : result (list RecommendationSchema.t) :=
  match CompanySchema.embedding company_info with
  | None => Raise ValueError
  | Some embedding =>
      let query_vector := map float32 embedding in
      bind (Faiss.search ix query_vector
                         (Nat.min top_k (Faiss.ntotal ix)))
        (fun neighbours =>
           match scoring_loop (tenders self) neighbours [] with
           | (_, Some e) => Raise e
           | (recommendations, None) =>
               Ok (sort_recommendations recommendations)
           end)
  end.

Definition no_tenders_warning : log_entry :=
  LogWarning "No tenders or index available for matching".

Definition _find_matching_tenders (self : agent)
           (company_info : CompanySchema.t) (top_k : nat)
  : list log_entry * result (list RecommendationSchema.t) :=
  match index self with
  | None => ([no_tenders_warning], Ok [])
  | Some ix =>
      match tenders self with
      | [] => ([no_tenders_warning], Ok [])
      | _ =>
          if (Faiss.ntotal ix =? 0)%nat then ([no_tenders_warning], Ok [])
          else
            match matching_body self ix company_info top_k with
            | Ok recommendations => ([], Ok recommendations)
            | Raise e =>
                ([LogError "Error finding matching tenders" (Some e)],
                 Ok [])
            end
      end
  end.

(** The dictionary [process_company_profile] returns. *)
Record profile_response : Type := mkResponse {
  status : string;
  message : option string;
  company_info : option Pydantic.dict;
  recommendations : list Pydantic.dict
}.

Definition error_response (e : exn) : profile_response :=
  mkResponse "error" (Some "Error processing company profile") None [].

(** [extraction] is the outcome of [_extract_company_info] on the
    submitted profile (text or file), which relies on the language model
    service.  [_find_matching_tenders] is called with its default
    [top_k]. *)
Definition process_company_profile (self : agent)
           (extraction : result CompanySchema.t) : profile_response :=
  let body :=
    bind extraction (fun company_info =>
    bind (get_embedding (CompanySchema.description company_info))
      (fun company_embedding =>
    let company_info :=
      CompanySchema.set_embedding company_info company_embedding in
    bind (snd (_find_matching_tenders self company_info 10))
      (fun recommendations =>
    Ok (mkResponse "success" None
          (Some (Pydantic.dump_company ["embedding"] company_info))
          (map (Pydantic.dump_recommendation
                  ["tender_details.embedding"])
               recommendations))))) in
  match body with
  | Ok response => response
  | Raise e => error_response e
  end.

End Agent.

End CompanyScraperAgent.

(* ================================================================== *)
(** * Reference definitions and notions used in the statements          *)
(* ================================================================== *)

(** The reference definition of the specification:
    [clamp(lo, hi, x)] is [x] brought into the interval from [lo] to [hi]. *)
Definition clamp (lo hi x : Q) : Q :=
  if Qlt_bool x lo then lo else if Qlt_bool hi x then hi else x.

Definition reference_similarity (distance : Q) : Q :=
  clamp 0 100 ((1 - distance / 10) * 100).

(** The multiplier rule in the words of the specification: what becomes of
    the parsed number, decided on the whole text. *)
Definition apply_multiplier (text : string) (number : Q) : Q :=
  if Py.contains "lakh" (Py.lower text) then number * 100000
  else if Py.contains "cr" (Py.lower text)
          || Py.contains "crore" (Py.lower text) then number * 10000000
  else number.

(** The number a pattern yields on a text: the literal of its leftmost match,
    thousands separators removed, parsed; nothing when the pattern does not
    match or the literal does not parse. *)
Definition parsed (pattern : Re.regex) (text : string) : option Q :=
  match Re.search pattern text with
  | Some mo => Py.float (FirecrawlWrapper.amount_str_of mo)
  | None => None
  end.

(** The patterns in which every successful match goes through group 1. *)
Fixpoint sets_group (r : Re.regex) : bool :=
  match r with
  | Re.Group _ => true
  | Re.Seq r1 r2 => sets_group r1 || sets_group r2
  | Re.Alt r1 r2 => sets_group r1 && sets_group r2
  | Re.Plus r1 => sets_group r1
  | _ => false
  end.

(** [o] is a result and its value is [x]. *)
Definition returns (o : option Q) (x : Q) : Prop :=
  match o with
  | Some v => v == x
  | None => False
  end.

(** The first pattern of the list that matches [text], with its match. *)
Fixpoint first_match (patterns : list Re.regex) (text : string)
  : option (Re.regex * Re.match_object) :=
  match patterns with
  | [] => None
  | pattern :: rest =>
      match Re.search pattern text with
      | Some mo => Some (pattern, mo)
      | None => first_match rest text
      end
  end.


(** The neighbours whose ordinal is a position of the store:
    [idx < len(self.tenders)]. *)
Definition in_store (tenders : list CompanyScraperAgent.pyobj)
           (neighbour : Q * nat) : bool :=
  (snd neighbour <? List.length tenders)%nat.

(** The recommendations of a score equal to [s]. *)
Definition has_score (s : Q) (r : RecommendationSchema.t) : bool :=
  Qeq_bool (RecommendationSchema.similarity_score r) s.

(** ** Sample data *)

Module Sample.

Local Open Scope string_scope.

Definition tender (id title : string) (embedding : option (list Q))
  : TenderSchema.t :=
  TenderSchema.mk id title "Supply and installation" None None
    "Tamil Nadu Tenders" "https://tntenders.gov.in/nicgep/app"
    None None None None "<tr></tr>" embedding.

Definition t0 : TenderSchema.t := tender "tamil-nadu-tenders-1-0" "Pumps" None.
Definition t1 : TenderSchema.t := tender "tamil-nadu-tenders-1-1" "Pipes" None.
Definition t2 : TenderSchema.t := tender "tamil-nadu-tenders-2-0" "Valves" None.

Definition company (embedding : option (list Q)) : CompanySchema.t :=
  CompanySchema.mk "Acme" "Pumps and pipes" [] [] [] embedding.

(** A one-dimensional index over three vectors, two of them at the same
    distance of the origin. *)
Definition index3 : Faiss.IndexFlatL2 := Faiss.mk 1 [[2]; [0]; [-2]].

Definition matcher3 : CompanyScraperAgent.agent :=
  CompanyScraperAgent.mkAgent (Some index3)
    [CompanyScraperAgent.Tender t0; CompanyScraperAgent.Tender t1;
     CompanyScraperAgent.Tender t2].

(** A store whose second element is not a tender record. *)
Definition index2 : Faiss.IndexFlatL2 := Faiss.mk 1 [[0]; [1]].

Definition matcher_broken : CompanyScraperAgent.agent :=
  CompanyScraperAgent.mkAgent (Some index2)
    [CompanyScraperAgent.Tender t0; CompanyScraperAgent.Other].

Definition float32_id (x : Q) : Q := x.

End Sample.

(** The three ways [_find_matching_tenders] returns. *)
Inductive outcome (float32 : Q -> Q) (self : CompanyScraperAgent.agent)
          (company : CompanySchema.t) (top_k : nat)
  : list Py.log_entry * Py.result (list RecommendationSchema.t) -> Prop :=
| outcome_nothing_to_match :
    (CompanyScraperAgent.index self = None \/
     CompanyScraperAgent.tenders self = [] \/
     exists ix, CompanyScraperAgent.index self = Some ix /\
                Faiss.ntotal ix = 0%nat) ->
    outcome float32 self company top_k
      ([CompanyScraperAgent.no_tenders_warning], Py.Ok [])
| outcome_failed e :
    outcome float32 self company top_k
      ([Py.LogError "Error finding matching tenders"%string (Some e)],
       Py.Ok [])
| outcome_matched ix embedding ns built :
    CompanyScraperAgent.index self = Some ix ->
    CompanySchema.embedding company = Some embedding ->
    Faiss.search ix (map float32 embedding)
                 (Nat.min top_k (Faiss.ntotal ix)) = Py.Ok ns ->
    CompanyScraperAgent.scoring_loop
      (CompanyScraperAgent.tenders self) ns [] = (built, None) ->
    outcome float32 self company top_k
      ([], Py.Ok (CompanyScraperAgent.sort_recommendations built)).


(** ** Embedding failures and consistent installations *)

(** The failures of the embedding service: no answer, a status other than
    200, a body that is no JSON object, or an object without the key
    "embedding". *)
Definition service_failure (r : Ollama.response) : Prop :=
  match r with
  | Ollama.ConnectionError => True
  | Ollama.HttpResponse status_code b =>
      status_code <> 200%Z \/
      match b with
      | Ollama.JsonObject (Some _) => False
      | _ => True
      end
  end.

(** An event during which no write of the index or of the store fails. *)
Definition fault_free (ev : TenderScraperAgent.event) : Prop :=
  match ev with
  | TenderScraperAgent.NewAgent => True
  | TenderScraperAgent.Append _ faults =>
      faults = TenderScraperAgent.no_faults
  end.

Definition embedding_of (tender : TenderSchema.t) : list Q :=
  match TenderSchema.embedding tender with
  | Some embedding => embedding
  | None => []
  end.

(** The vector stored for a tender that carries its embedding. *)
Definition stored_vector (float32 : Q -> Q) (tender : TenderSchema.t)
  : list Q :=
  match TenderSchema.embedding tender with
  | Some embedding => map float32 embedding
  | None => []
  end.

Section Consistency.
Import TenderScraperAgent.

Variable VECTOR_DIMENSION : nat.
Variable service : string -> Ollama.response.
Variable float32 : Q -> Q.

(** A tender as the loop stores it: it carries the embedding of its text. *)
Definition embedded (tender : TenderSchema.t) : Prop :=
  exists embedding,
    get_embedding VECTOR_DIMENSION service (text_for_embedding tender)
    = Py.Ok embedding /\
    TenderSchema.embedding tender = Some embedding.

(** Index and store as two lists that go together. *)
Definition paired (vectors : list (list Q)) (store : list TenderSchema.t)
  : Prop :=
  Forall2 (derived VECTOR_DIMENSION service float32) vectors store.

(** The data directory holds nothing, or an index and a store that go
    together. *)
Definition disk_consistent (dk : disk) : Prop :=
  match faiss_index_bin dk, tenders_pkl dk with
  | Absent, Absent => True
  | Stored ix, Stored ts => paired (Faiss.xb ix) ts
  | _, _ => False
  end.

Definition consistent (st : system) : Prop :=
  paired (index_vectors (index (the_agent st))) (tenders (the_agent st)) /\
  disk_consistent (the_disk st).

End Consistency.

Module SampleRun.

Import TenderScraperAgent.

(** An embedding service that answers every prompt with the vector [1]. *)
Definition service (prompt : string) : Ollama.response :=
  Ollama.HttpResponse 200 (Ollama.JsonObject (Some [1])).

(** An embedding service that is down. *)
Definition service_down (prompt : string) : Ollama.response :=
  Ollama.ConnectionError.

(** Two scrape cycles, each by an agent of its own; in the first cycle the
    write of the index file fails. *)
Definition index_write_lost : list event :=
  [Append [Sample.t0] (mkFaults true false);
   NewAgent;
   Append [Sample.t1] no_faults].

(** The same cycles without the failure. *)
Definition two_cycles : list event :=
  [Append [Sample.t0] no_faults; NewAgent; Append [Sample.t1] no_faults].

(** The counts of index and store in a state. *)
Definition counts (sr : system * Py.result unit) : nat * nat :=
  (List.length (index_vectors (index (the_agent (fst sr)))),
   List.length (tenders (the_agent (fst sr)))).

End SampleRun.


(* ================================================================== *)
(** * agents/company_scraper_agent.py: loading                          *)
(* ================================================================== *)

Module CompanyScraperAgentInit.

Import TenderScraperAgent.

(** [CompanyScraperAgent._load_index_and_tenders]: unlike the tender agent,
    a missing or unreadable file resets the field.  The pickled list holds
    the [TenderSchema] records the tender agent saved. *)
Definition _load_index_and_tenders (dk : disk) : CompanyScraperAgent.agent :=
  let tenders :=
    match tenders_pkl dk with
    | Stored ts => map CompanyScraperAgent.Tender ts
    | Unreadable => []
    | Absent => []
    end in
  let index :=
    match faiss_index_bin dk with
    | Stored ix => Some ix
    | Unreadable => None
    | Absent => None
    end in
  CompanyScraperAgent.mkAgent index tenders.

(** [CompanyScraperAgent()] *)
Definition __init__ (dk : disk) : CompanyScraperAgent.agent :=
  _load_index_and_tenders dk.

End CompanyScraperAgentInit.

(** ** Notions used in the further properties *)

(** The embedding the loop of [_process_and_store_tenders] obtains for a
    scraped tender. *)
Definition embedding_for (VECTOR_DIMENSION : nat)
           (service : string -> Ollama.response) (tender : TenderSchema.t)
  : list Q :=
  match TenderScraperAgent.get_embedding VECTOR_DIMENSION service
          (TenderScraperAgent.text_for_embedding tender) with
  | Py.Ok embedding => embedding
  | Py.Raise _ => []
  end.

(** The dimension an append adds vectors of: that of the index in use, or
    [VECTOR_DIMENSION] when a new index is created. *)
Definition index_dimension (VECTOR_DIMENSION : nat)
           (ix : option Faiss.IndexFlatL2) : nat :=
  match ix with
  | Some ix => Faiss.d ix
  | None => VECTOR_DIMENSION
  end.

(** The elements of a store that are tender records. *)
Definition is_tender (o : CompanyScraperAgent.pyobj) : Prop :=
  match o with
  | CompanyScraperAgent.Tender _ => True
  | CompanyScraperAgent.Other => False
  end.

(** What the scoring loop builds: records of tenders of the store, with
    their id and title and a score between 0 and 100. *)
Definition well_formed (store : list CompanyScraperAgent.pyobj)
           (r : RecommendationSchema.t) : Prop :=
  In (CompanyScraperAgent.Tender (RecommendationSchema.tender_details r))
     store /\
  RecommendationSchema.tender_id r
  = TenderSchema.id (RecommendationSchema.tender_details r) /\
  RecommendationSchema.tender_title r
  = TenderSchema.title (RecommendationSchema.tender_details r) /\
  0 <= RecommendationSchema.similarity_score r /\
  RecommendationSchema.similarity_score r <= 100.


(* ================================================================== *)
(** * utils/firecrawl_wrapper.py: dates                                 *)
(* ================================================================== *)

Module FirecrawlDates.

Import Re.
Local Open Scope string_scope.

(** [r1|r2|...] *)
Fixpoint alternatives (rs : list regex) : regex :=
  match rs with
  | [] => Eps
  | [r] => r
  | r :: rs' => Alt r (alternatives rs')
  end.

(** [\d{1,2}] *)
Definition digits_1_2 : regex := Seq Digit (Opt Digit).

(** [\d{2,4}] *)
Definition digits_2_4 : regex :=
  Seq Digit (Seq Digit (Seq (Opt Digit) (Opt Digit))).

(** [[/-]] *)
Definition separator : regex := Alt (Lit "/") (Lit "-").

(** [[a-z]] under [re.IGNORECASE]: the set is compiled to the lowercase
    letters with their extra cases and put to the lowercase of the
    character, as the twenty-six literals are one by one. *)
Definition letter : regex :=
  alternatives (map Lit (Py.chars "abcdefghijklmnopqrstuvwxyz")).

(** [(?:Jan|Feb|Mar|Apr|May|Jun|Jul|Aug|Sep|Oct|Nov|Dec)] *)
Definition month : regex :=
  alternatives
    (map Str ["Jan"; "Feb"; "Mar"; "Apr"; "May"; "Jun";
              "Jul"; "Aug"; "Sep"; "Oct"; "Nov"; "Dec"]).

(** [(\d{1,2}[/-]\d{1,2}[/-]\d{2,4})] *)
Definition date_numeric : regex :=
  Group (Seq digits_1_2
          (Seq separator (Seq digits_1_2 (Seq separator digits_2_4)))).

(** [(\d{1,2}\s+(?:Jan|...|Dec)[a-z]*\s+\d{2,4})] *)
Definition date_month : regex :=
  Group (Seq digits_1_2
          (Seq (Plus Space)
             (Seq month (Seq (Star letter) (Seq (Plus Space) digits_2_4))))).

Definition date_patterns : list regex := [date_numeric; date_month].

(** The [for pattern in date_patterns] loop: the first pattern that matches
    decides, and [match.group(1)] is returned as it is. *)
Fixpoint first_group (patterns : list regex) (text : string)
  : option string :=
  match patterns with
  | [] => None
  | pattern :: rest =>
      match search pattern text with
      | Some mo => group1 mo
      | None => first_group rest text
      end
  end.

Definition _extract_date (text : string) : option string :=
  first_group date_patterns text.

End FirecrawlDates.

(** ** The language of a pattern *)

(** The group of the later part of a match, else that of the earlier. *)
Definition orelse (c g : option string) : option string :=
  match c with
  | Some _ => c
  | None => g
  end.

(** [matches r w c]: the pattern [r] matches exactly the text [w], and the
    match leaves group 1 set to [c] ([None] when no group took part). *)
Inductive matches : Re.regex -> string -> option string -> Prop :=
| matches_eps : matches Re.Eps EmptyString None
| matches_lit c w a :
    Py.ord w = Some a -> Re.lit_test c a = true ->
    matches (Re.Lit c) w None
| matches_digit w a :
    Py.ord w = Some a -> Py.is_digit a = true -> matches Re.Digit w None
| matches_space w a :
    Py.ord w = Some a -> Py.is_space a = true -> matches Re.Space w None
| matches_digit_or_comma w a :
    Py.ord w = Some a -> Py.is_digit a || (a =? 44)%N = true ->
    matches Re.DigitOrComma w None
| matches_seq r1 r2 w1 w2 c1 c2 :
    matches r1 w1 c1 -> matches r2 w2 c2 ->
    matches (Re.Seq r1 r2) (w1 ++ w2) (orelse c2 c1)
| matches_alt_l r1 r2 w c : matches r1 w c -> matches (Re.Alt r1 r2) w c
| matches_alt_r r1 r2 w c : matches r2 w c -> matches (Re.Alt r1 r2) w c
| matches_opt_some r w c : matches r w c -> matches (Re.Opt r) w c
| matches_opt_none r : matches (Re.Opt r) EmptyString None
| matches_star_nil r : matches (Re.Star r) EmptyString None
| matches_star_cons r w1 w2 c1 c2 :
    matches r w1 c1 -> matches (Re.Star r) w2 c2 ->
    matches (Re.Star r) (w1 ++ w2) (orelse c2 c1)
| matches_plus r w1 w2 c1 c2 :
    matches r w1 c1 -> matches (Re.Star r) w2 c2 ->
    matches (Re.Plus r) (w1 ++ w2) (orelse c2 c1)
| matches_group r w c : matches r w c -> matches (Re.Group r) w (Some w).

(** The characters a pattern can match, by their code points. *)
Fixpoint alphabet (r : Re.regex) (a : N) : bool :=
  match r with
  | Re.Eps => false
  | Re.Lit c => Re.lit_test c a
  | Re.Digit => Py.is_digit a
  | Re.Space => Py.is_space a
  | Re.DigitOrComma => Py.is_digit a || (a =? 44)%N
  | Re.Seq r1 r2 => alphabet r1 a || alphabet r2 a
  | Re.Alt r1 r2 => alphabet r1 a || alphabet r2 a
  | Re.Opt r1 => alphabet r1 a
  | Re.Star r1 => alphabet r1 a
  | Re.Plus r1 => alphabet r1 a
  | Re.Group r1 => alphabet r1 a
  end.

(** The least number of characters of a text a pattern matches. *)
Fixpoint min_length (r : Re.regex) : nat :=
  match r with
  | Re.Eps => 0
  | Re.Lit _ => 1
  | Re.Digit => 1
  | Re.Space => 1
  | Re.DigitOrComma => 1
  | Re.Seq r1 r2 => min_length r1 + min_length r2
  | Re.Alt r1 r2 => Nat.min (min_length r1) (min_length r2)
  | Re.Opt _ => 0
  | Re.Star _ => 0
  | Re.Plus r1 => min_length r1
  | Re.Group r1 => min_length r1
  end.

(** Every byte of [s] passes the test [p]. *)
Fixpoint all_chars (p : ascii -> bool) (s : string) : Prop :=
  match s with
  | EmptyString => True
  | String a s' => p a = true /\ all_chars p s'
  end.

(** Every character of [s] passes the test [p]. *)
Definition all_of (p : N -> bool) (s : string) : Prop :=
  Forall (fun c => Py.holds p c = true) (Py.chars s).

(** [d] occurs in [text]. *)
Definition occurs_in (d text : string) : Prop :=
  exists before after, text = (before ++ d ++ after)%string.


(** [s] begins with a decimal digit. *)
Definition starts_with_digit (s : string) : Prop :=
  match Py.chars s with
  | c :: _ => Py.holds Py.is_digit c = true
  | [] => False
  end.


(** A byte other than the minus sign. *)
Definition not_minus (a : ascii) : bool := negb (Ascii.eqb a "-").

(** The bytes a pattern admits in a text of its language: the characters
    of its alphabet up to U+007F, and the bytes of the characters beyond,
    all from 128 on. *)
Definition admits (r : Re.regex) (b : ascii) : bool :=
  (128 <=? Py.byte b)%N || alphabet r (Py.byte b).


(* ================================================================== *)
(** * agents/company_scraper_agent.py: company information              *)
(* ================================================================== *)

Module CompanyExtraction.

Import Py.
Local Open Scope string_scope.

Definition newline : ascii := ascii_of_nat 10.

Definition strip := Py.strip.

(** [s.split('\n')]: the pieces between line breaks, at least one. *)
Fixpoint split_lines (s : string) : list string :=
  match s with
  | EmptyString => [EmptyString]
  | String c s' =>
      if Ascii.eqb c newline then EmptyString :: split_lines s'
      else
        match split_lines s' with
        | line :: lines => String c line :: lines
        | [] => [String c EmptyString]
        end
  end.

Definition keywords : list string :=
  ["service"; "provide"; "offer"; "solution"; "product"; "capability";
   "expertise"].

(** [any(keyword in line for keyword in keywords)] *)
Definition has_keyword (line : string) : bool :=
  existsb (fun keyword => contains keyword line) keywords.

(** The [for line in lines] loop with its three lists. *)
Fixpoint bucket_loop (lines services capabilities expertise : list string)
  : list string * list string * list string :=
  match lines with
  | [] => (services, capabilities, expertise)
  | line :: rest =>
      let line := lower line in
      if has_keyword line then
        if contains "service" line || contains "provide" line
           || contains "offer" line then
          bucket_loop rest (services ++ [strip line]) capabilities expertise
        else if contains "capability" line then
          bucket_loop rest services (capabilities ++ [strip line]) expertise
        else if contains "expertise" line || contains "specialize" line then
          bucket_loop rest services capabilities (expertise ++ [strip line])
        else bucket_loop rest services capabilities expertise
      else bucket_loop rest services capabilities expertise
  end.

(** [xs[:5] if xs else [default]] *)
Definition first_five_or (default : string) (xs : list string)
  : list string :=
  match xs with
  | [] => [default]
  | _ => firstn 5 xs
  end.

Definition _basic_company_extraction (text : string) : CompanySchema.t :=
  let lines := split_lines (strip text) in
  let name :=
    match lines with
    | first :: _ => first
    | [] => "Unknown Company"
    end in
  let description :=
    if (500 <? len text)%nat then slice_to 500 text else text in
  let '(services, capabilities, expertise) := bucket_loop lines [] [] [] in
  CompanySchema.mk name description
    (first_five_or "General services" services)
    (first_five_or "General capabilities" capabilities)
    (first_five_or "General expertise" expertise)
    None.

(** The answer of the language model service to the extraction prompt: no
    answer, or a status with what becomes of the body in the rest of the
    [try] block (the search for a JSON object, [json.loads] and the
    construction of the [CompanySchema]). *)
Inductive llm_response : Type :=
| LlmConnectionError
| LlmResponse (status_code : Z) (parsed : result CompanySchema.t).

(** Python's truth value of an optional string or bytes argument. *)
Definition truthy (o : option string) : bool :=
  match o with
  | Some (String _ _) => true
  | _ => false
  end.

Definition value (o : option string) : string :=
  match o with
  | Some s => s
  | None => EmptyString
  end.

Section ExtractCompanyInfo.

(** [PdfReader(file_content)] and the text of its pages;
    [file_content.decode("utf-8")]; the language model service on the text
    of the profile. *)
Variable read_pdf : string -> result string.
Variable decode_utf8 : string -> result string.
Variable llm : string -> llm_response.

(** The text of the profile, from the file or from [profile_text]. *)
Definition profile_source (profile_text file_content file_type
                           : option string) : result string :=
  if truthy file_content && truthy file_type then
    if String.eqb (value file_type) "pdf" then read_pdf (value file_content)
    else if String.eqb (value file_type) "txt" then
      decode_utf8 (value file_content)
    else if String.eqb (value file_type) "docx" then
      Raise NotImplementedError
    else Ok EmptyString
  else if truthy profile_text then Ok (value profile_text)
  else Raise ValueError.

Definition _extract_company_info (profile_text file_content file_type
                                  : option string)
  : result CompanySchema.t :=
  bind (profile_source profile_text file_content file_type) (fun text =>
  try_except
    (match llm text with
     | LlmConnectionError => Raise IOError
     | LlmResponse status_code parsed =>
         if negb (status_code =? 200)%Z
         then Ok (_basic_company_extraction text)
         else parsed
     end)
    (fun _ => Ok (_basic_company_extraction text))).

End ExtractCompanyInfo.

End CompanyExtraction.


(** A byte other than the line break. *)
Definition not_newline (a : ascii) : bool :=
  negb (Ascii.eqb a CompanyExtraction.newline).

(** The lines the heuristic extraction files under one heading. *)
Definition service_line (line : string) : bool :=
  Py.contains "service" line || Py.contains "provide" line
  || Py.contains "offer" line.

(** [entry] is a line of the text, lowercased and stripped, that holds one
    of the keywords and meets the test of a list. *)
Definition filed (test : string -> bool) (lines : list string)
           (entry : string) : Prop :=
  exists line,
    In line lines /\
    entry = CompanyExtraction.strip (Py.lower line) /\
    CompanyExtraction.has_keyword (Py.lower line) = true /\
    test (Py.lower line) = true.

(** The test of the list of capabilities, and that of the list of areas of
    expertise. *)
Definition capability_line (line : string) : bool :=
  negb (service_line line) && Py.contains "capability" line.

Definition expertise_line (line : string) : bool :=
  negb (service_line line) && negb (Py.contains "capability" line)
  && (Py.contains "expertise" line || Py.contains "specialize" line).


(* ================================================================== *)
(** * utils/firecrawl_wrapper.py: scraping                              *)
(* ================================================================== *)

Module Scraping.

Import Py.
Local Open Scope string_scope.

(** A tag of the fetched page: its [.text] and its [href] attribute. *)
Record tag : Type := mkTag { text : string; href : option string }.

(** A tender element of the page, as far as the wrapper looks at it. *)
Record element : Type := mkElement {
  select_one : string -> option tag;   (* [element.select_one(css)] *)
  headings : list tag;        (* [element.select('h1, h2, h3, h4, h5, h6')] *)
  get_text : string;                   (* [element.get_text()] *)
  markup : string                      (* [str(element)] *)
}.

(** An entry of [TENDER_SOURCES]. *)
Record source : Type := mkSource {
  name : string;
  url : string;
  selector : string
}.

Definition TENDER_SOURCES : list source :=
  [ mkSource "Tamil Nadu Tenders" "https://tntenders.gov.in/nicgep/app"
             "table.list_table tr";
    mkSource "Maharashtra Tenders" "https://mahatenders.gov.in/nicgep/app"
             "table.list_table tr";
    mkSource "Central Public Procurement Portal"
             "https://eprocure.gov.in/eprocure/app" "div.list-group-item";
    mkSource "Government e-Marketplace" "https://gem.gov.in/"
             "div.gem-bidding-card" ].

(** The dictionary [tender_data]; the key [url] may be missing. *)
Record tender_data : Type := mkData {
  data_title : string;
  data_description : string;
  data_amount : option Q;
  data_deadline : option string;
  data_url : option string
}.

Definition strip := CompanyExtraction.strip.

Definition _generic_extract (e : element) : tender_data :=
  let title :=
    match headings e with
    | heading :: _ => strip (text heading)
    | [] => slice_to 100 (strip (get_text e))
    end in
  let description := strip (get_text e) in
  let amount := FirecrawlWrapper._extract_amount (get_text e) in
  let deadline := FirecrawlDates._extract_date (get_text e) in
  let url :=
    match select_one e "a" with
    | Some link => href link
    | None => None
    end in
  mkData title description amount deadline url.

(** The body of the [try] block of one source: [None] stands for the
    exception a missing tag or a missing [href] raises.  [prefix] tells
    whether the address of the source is put before the link. *)
Definition specific_extract (e : element) (src : source)
           (title_css description_css amount_css deadline_css link_css
            : string) (prefix : bool) : option tender_data :=
  match select_one e title_css, select_one e description_css,
        select_one e amount_css, select_one e deadline_css with
  | Some title, Some description, Some amount_text, Some deadline =>
      let data link_url :=
        mkData (strip (text title)) (strip (text description))
               (FirecrawlWrapper._extract_amount (strip (text amount_text)))
               (Some (strip (text deadline))) (Some link_url) in
      match select_one e link_css with
      | Some link =>
          match href link with
          | Some target =>
              Some (data (if prefix then url src ++ target else target))
          | None => None
          end
      | None => Some (data (url src))
      end
  | _, _, _, _ => None
  end.

Definition or_generic (e : element) (specific : option tender_data)
  : tender_data :=
  match specific with
  | Some data => data
  | None => _generic_extract e
  end.

Definition _extract_tender_data (e : element) (src : source)
  : tender_data :=
  if String.eqb (name src) "Tamil Nadu Tenders" then
    or_generic e
      (specific_extract e src "td:nth-child(1)" "td:nth-child(2)"
                        "td:nth-child(3)" "td:nth-child(4)" "a" true)
  else if String.eqb (name src) "Maharashtra Tenders" then
    or_generic e
      (specific_extract e src "td:nth-child(1)" "td:nth-child(2)"
                        "td:nth-child(3)" "td:nth-child(4)" "a" true)
  else if String.eqb (name src) "Central Public Procurement Portal" then
    or_generic e
      (specific_extract e src "h4" "p.description" "span.amount"
                        "span.deadline" "a" true)
  else if String.eqb (name src) "Government e-Marketplace" then
    or_generic e
      (specific_extract e src "h3.card-title" "div.card-text"
                        "span.bid-amount" "span.deadline" "a.card-link"
                        false)
  else _generic_extract e.

(** [s.replace(a, b)] for one-character [a] and [b] *)
Fixpoint replace_char (a b : ascii) (s : string) : string :=
  match s with
  | EmptyString => EmptyString
  | String c s' =>
      String (if Ascii.eqb c a then b else c) (replace_char a b s')
  end.

(** [str(n)] for a natural number *)
Definition decimal (n : N) : string :=
  NilEmpty.string_of_uint (N.to_uint n).

(** [f"{source['name'].lower().replace(' ', '-')}-{int(time.time())}-{index}"] *)
Definition slug (src : source) : string :=
  replace_char " " "-" (lower (name src)).

Definition tender_id (src : source) (now : N) (index : nat) : string :=
  slug src ++ "-" ++ decimal now ++ "-" ++ decimal (N.of_nat index).

Definition is_empty (s : string) : bool :=
  match s with
  | EmptyString => true
  | _ => false
  end.

(** [not (tender_data.get('title') and tender_data.get('description'))] *)
Definition skipped (data : tender_data) : bool :=
  is_empty (data_title data) || is_empty (data_description data).

(** The [TenderSchema(...)] of an element that is kept; the keys
    [category], [department], [location] and [publication_date] are never
    set in [tender_data]. *)
Definition new_tender (src : source) (now : N) (index : nat) (e : element)
           (data : tender_data) : TenderSchema.t :=
  TenderSchema.mk
    (tender_id src now index)
    (data_title data) (data_description data)
    (data_amount data) (data_deadline data)
    (name src)
    (match data_url data with
     | Some link => link
     | None => url src
     end)
    None None None None (markup e) None.

(** The loop [for index, element in enumerate(tender_elements[:20])];
    [clock index] is [int(time.time())] when the element is handled. *)
Fixpoint scrape_loop (src : source) (clock : nat -> N) (index : nat)
         (elements : list element) (scraped_tenders : list TenderSchema.t)
  : list TenderSchema.t :=
  match elements with
  | [] => scraped_tenders
  | e :: rest =>
      let data := _extract_tender_data e src in
      if skipped data
      then scrape_loop src clock (S index) rest scraped_tenders
      else
        scrape_loop src clock (S index) rest
          (scraped_tenders ++ [new_tender src (clock index) index e data])
  end.

(** [fetched] is what the request of the page and
    [soup.select(source['selector'])] give, or the exception they raise. *)
Definition _scrape_source (src : source)
           (fetched : result (list element)) (clock : nat -> N)
  : list TenderSchema.t :=
  match fetched with
  | Ok tender_elements => scrape_loop src clock 0 (firstn 20 tender_elements) []
  | Raise _ => []
  end.

(** [fetch] and [clock] give, for each source, the page and the time. *)
Fixpoint scrape_all_sources (sources : list source)
         (fetch : source -> result (list element))
         (clock : source -> nat -> N) : list TenderSchema.t :=
  match sources with
  | [] => []
  | src :: rest =>
      _scrape_source src (fetch src) (clock src)
      ++ scrape_all_sources rest fetch clock
  end.

End Scraping.

(** ** The raw export of a tender *)

(** [d.pop(key, None)] *)
Definition pop (key : string) (d : Pydantic.dict) : Pydantic.dict :=
  filter (fun kv => negb (String.eqb (fst kv) key)) d.

(** The dictionary [_save_raw_tender] writes: [tender.model_dump()] without
    its embedding. *)
Definition raw_tender (tender : TenderSchema.t) : Pydantic.dict :=
  pop "embedding" (Pydantic.dump_tender [] tender).

(** The data directory [VECTOR_DB_PATH]: the two files of the vector
    database, and the directory [raw_tenders] with the file names and what
    the files hold, the latest write first. *)
Record data_directory : Type := mkDirectory {
  vector_db : TenderScraperAgent.disk;
  raw_tenders : list (string * Pydantic.dict)
}.

(** A write that raises is logged and leaves the directory as it was. *)
Definition _save_raw_tender (raw_tenders : list (string * Pydantic.dict))
           (tender : TenderSchema.t) (write_fails : bool)
  : list (string * Pydantic.dict) :=
  if write_fails then raw_tenders
  else ((TenderSchema.id tender ++ ".json")%string, raw_tender tender)
       :: raw_tenders.

(** The report of [scrape_and_store_tenders]. *)
Record scrape_report : Type := mkReport {
  report_status : string;
  tender_count : nat
}.

(** ** A scrape cycle on the data directory *)

Module TenderIngestion.

Section Agent.

Variable VECTOR_DIMENSION : nat.
Variable service : string -> Ollama.response.
Variable float32 : Q -> Q.

(** The exports of the loop over the scraped tenders: a tender is exported
    as soon as it carries its embedding, whatever becomes of the index
    afterwards.  [export_fails] tells which of the writes raise, by the
    position of the tender in the batch. *)
Fixpoint export_loop (raw_tenders : list (string * Pydantic.dict))
         (batch : list TenderSchema.t) (export_fails : nat -> bool)
         (position : nat) : list (string * Pydantic.dict) :=
  match batch with
  | [] => raw_tenders
  | tender :: rest =>
      export_loop
        (_save_raw_tender raw_tenders
           (TenderSchema.set_embedding tender
              (embedding_for VECTOR_DIMENSION service tender))
           (export_fails position))
        rest export_fails (S position)
  end.

(** [_process_and_store_tenders] with the exports of its loop. *)
Definition _process_and_store_tenders
           (self : TenderScraperAgent.agent) (directory : data_directory)
           (batch : list TenderSchema.t)
           (faults : TenderScraperAgent.write_faults)
           (export_fails : nat -> bool)
  : TenderScraperAgent.agent * data_directory * Py.result unit :=
  let '(self', dk', outcome) :=
    TenderScraperAgent._process_and_store_tenders
      VECTOR_DIMENSION service float32 self (vector_db directory)
      batch faults in
  (self',
   mkDirectory dk'
     (export_loop (raw_tenders directory) batch export_fails 0),
   outcome).

(** [scrape_and_store_tenders]: [scraped_tenders] is the result of
    [self.scraper.scrape_all_sources()]. *)
Definition scrape_and_store_tenders
           (self : TenderScraperAgent.agent) (directory : data_directory)
           (scraped_tenders : list TenderSchema.t)
           (faults : TenderScraperAgent.write_faults)
           (export_fails : nat -> bool)
  : TenderScraperAgent.agent * data_directory * scrape_report :=
  match _process_and_store_tenders self directory scraped_tenders faults
                                   export_fails with
  | (self', directory', Py.Ok _) =>
      (self', directory',
       mkReport "success" (List.length scraped_tenders))
  | (self', directory', Py.Raise _) =>
      (self', directory', mkReport "error" 0)
  end.

End Agent.

End TenderIngestion.

(** The file of the raw export of [tender], with what it holds. *)
Definition export_of (tender : TenderSchema.t) : string * Pydantic.dict :=
  ((TenderSchema.id tender ++ ".json")%string, raw_tender tender).

(** The exports of the tenders of [batch] whose write did not fail are in
    the directory. *)
Definition exported (batch : list TenderSchema.t)
           (export_fails : nat -> bool)
           (raw_tenders : list (string * Pydantic.dict)) : Prop :=
  forall position tender,
    nth_error batch position = Some tender ->
    export_fails position = false ->
    In (export_of tender) raw_tenders.


(** The iteration of [Star] and [Plus] in the matcher. *)
Definition star_loop {A} (r : Re.regex)
           (k : string -> option string -> option A) :=
  fix loop (fuel : nat) (s : string) (g : option string) {struct fuel}
    : option A :=
    match fuel with
    | O => k s g
    | S fuel' =>
        match Re.m r s g (fun s' g' =>
                 if (String.length s' <? String.length s)%nat
                 then loop fuel' s' g' else None) with
        | Some x => Some x
        | None => k s g
        end
    end.


(** ** Notions and a sample page for the scraping properties *)

(** [s] does not begin with white space. *)
Definition no_leading_space (s : string) : Prop :=
  match Py.chars s with
  | c :: _ => Py.holds Py.is_space c = true -> False
  | [] => True
  end.

(** The tender number [index] of the page of [src] comes from: the element
    at that position, if its extracted title and description are not
    empty. *)
Definition tender_of_element (src : Scraping.source)
           (fetch : Scraping.source -> Py.result (list Scraping.element))
           (clock : Scraping.source -> nat -> N)
           (index : nat) (e : Scraping.element) (t : TenderSchema.t) : Prop :=
  exists tender_elements,
    fetch src = Py.Ok tender_elements /\
    (index < 20)%nat /\
    nth_error tender_elements index = Some e /\
    Scraping.skipped (Scraping._extract_tender_data e src) = false /\
    t = Scraping.new_tender src (clock src index) index e
          (Scraping._extract_tender_data e src).

Module SamplePage.

Import Py Scraping.
Local Open Scope string_scope.

(** A row of a tender table: four cells and a link. *)
Definition row : element :=
  mkElement
    (fun css =>
       if String.eqb css "td:nth-child(1)" then
         Some (mkTag " Road works " None)
       else if String.eqb css "td:nth-child(2)" then
         Some (mkTag "Resurfacing of NH 44" None)
       else if String.eqb css "td:nth-child(3)" then
         Some (mkTag "Rs. 2,500 lakh" None)
       else if String.eqb css "td:nth-child(4)" then
         Some (mkTag "12/03/2025" None)
       else if String.eqb css "a" then
         Some (mkTag "view" (Some "?id=7"))
       else None)
    [] "Road works Resurfacing of NH 44 Rs. 2,500 lakh 12/03/2025 view"
    "<tr>...</tr>".

(** The header row of the table: nothing the wrapper looks for. *)
Definition header : element :=
  mkElement (fun _ => None) [] "  " "<tr></tr>".

(** A card with a heading and free text. *)
Definition notice : element :=
  mkElement (fun _ => None) [mkTag "Bridge repair" None]
            " Bridge repair, Rs. 40 crore, due 1 march 2025 "
            "<div>...</div>".

Definition fetch (src : source) : result (list element) :=
  if String.eqb (name src) "Tamil Nadu Tenders" then
    Ok [header; row; notice]
  else if String.eqb (name src) "Government e-Marketplace" then
    Ok [notice]
  else Raise IOError.

Definition clock (src : source) (index : nat) : N := 1730000000%N.

Definition tamil_nadu : source :=
  mkSource "Tamil Nadu Tenders" "https://tntenders.gov.in/nicgep/app"
           "table.list_table tr".

(** The tender of [row], the second element of the first page. *)
Definition row_tender : TenderSchema.t :=
  new_tender tamil_nadu 1730000000%N 1 row
             (_extract_tender_data row tamil_nadu).

End SamplePage.

(* ================================================================== *)
(** * Properties                                                        *)
(* ================================================================== *)

(** ** Comparisons on [Q] *)

Lemma Qlt_bool_iff (x y : Q) : Qlt_bool x y = true <-> x < y.
Proof.
  unfold Qlt_bool. rewrite negb_true_iff.
  split; intro H.
  - apply Qnot_le_lt. intro Hle. apply Qle_bool_iff in Hle. congruence.
  - destruct (Qle_bool y x) eqn:E; [|reflexivity].
    apply Qle_bool_iff in E. exfalso. apply (Qlt_not_le _ _ H E).
Qed.

Lemma Qlt_bool_false_iff (x y : Q) : Qlt_bool x y = false <-> y <= x.
Proof.
  unfold Qlt_bool. rewrite negb_false_iff. apply Qle_bool_iff.
Qed.

Ltac Qcase a b :=
  let E := fresh "E" in
  destruct (Qlt_bool a b) eqn:E;
  [apply Qlt_bool_iff in E | apply Qlt_bool_false_iff in E].

Ltac Qcases :=
  repeat match goal with
    | |- context [Qlt_bool ?a ?b] => Qcase a b
    end.

(** ** Similarity score *)

Section Similarity.
Import CompanyScraperAgent.

Lemma similarity_refines_reference (d : Q) :
  similarity d == reference_similarity d.
Proof.
  unfold similarity, reference_similarity, py_max, py_min, clamp.
  set (x := (1 - d / 10) * 100).
  Qcase x 100; Qcases; try reflexivity; lra.
Qed.

Lemma similarity_range (d : Q) : 0 <= similarity d /\ similarity d <= 100.
Proof.
  unfold similarity, py_max, py_min.
  set (x := (1 - d / 10) * 100).
  Qcase x 100; Qcases; split; lra.
Qed.

(** C5: the conversion of a distance into a similarity is the reference
    clamp(0, 100, (1 - distance/10) * 100); for every distance d >= 0 the
    score lies between 0 and 100; distance 0 gives 100, distance 10 gives
    0 and distance 20 gives 0. *)
Theorem C5_similarity_bound :
  (forall d, similarity d == reference_similarity d) /\
  (forall d, 0 <= d -> 0 <= similarity d /\ similarity d <= 100) /\
  similarity 0 == 100 /\
  similarity 10 == 0 /\
  similarity 20 == 0.
Proof.
  split; [exact similarity_refines_reference|].
  split; [intros d _; apply similarity_range|].
  repeat split; vm_compute; reflexivity.
Qed.

Lemma C5_similarity_bound_witness :
  0 <= similarity 5 /\ similarity 5 <= 100.
Proof.
  apply (proj1 (proj2 C5_similarity_bound) 5). discriminate.
Defined.

End Similarity.

(** ** Amount extraction *)

Section Matcher.
Import Re.

Lemma char_test_some (p : N -> bool) A s (k : string -> option A) x :
  char_test p s k = Some x -> exists s', k s' = Some x.
Proof.
  destruct s as [|a s']; unfold char_test; [discriminate|].
  destruct (Py.holds p _); [|discriminate]. eauto.
Qed.

(** A successful match ends in a successful call of the continuation; the
    group is never unset, and is set when the pattern sets it. *)
Lemma m_some (r : regex) :
  forall A s g (k : string -> option string -> option A) x,
    m r s g k = Some x ->
    exists s' g',
      k s' g' = Some x /\
      (g <> None -> g' <> None) /\
      (sets_group r = true -> g' <> None).
Proof.
  induction r; intros A s g k x H; simpl in H.
  - exists s, g. simpl. intuition discriminate.
  - apply char_test_some in H as [s' H]. exists s', g.
    simpl. intuition discriminate.
  - apply char_test_some in H as [s' H]. exists s', g.
    simpl. intuition discriminate.
  - apply char_test_some in H as [s' H]. exists s', g.
    simpl. intuition discriminate.
  - apply char_test_some in H as [s' H]. exists s', g.
    simpl. intuition discriminate.
  - apply IHr1 in H as (s1 & g1 & H & Hk1 & Hs1).
    apply IHr2 in H as (s2 & g2 & H & Hk2 & Hs2).
    exists s2, g2. simpl. rewrite orb_true_iff. intuition.
  - destruct (m r1 s g k) eqn:E.
    + inversion H; subst. apply IHr1 in E as (s' & g' & E & Hk & Hs).
      exists s', g'. simpl. rewrite andb_true_iff. intuition.
    + apply IHr2 in H as (s' & g' & H & Hk & Hs).
      exists s', g'. simpl. rewrite andb_true_iff. intuition.
  - destruct (m r s g k) eqn:E.
    + inversion H; subst. apply IHr in E as (s' & g' & E & Hk & _).
      exists s', g'. simpl. intuition discriminate.
    + exists s, g. simpl. intuition discriminate.
  - revert H. generalize (length s) at 1. intros fuel. revert s g.
    induction fuel as [|fuel IHf]; intros s g H.
    + exists s, g. simpl. intuition discriminate.
    + match type of H with
      | match ?c with _ => _ end = _ => destruct c eqn:E
      end.
      * inversion H; subst.
        apply IHr in E as (s' & g' & E & Hk & _).
        destruct (length s' <? length s)%nat; [|discriminate].
        apply IHf in E as (s2 & g2 & E & Hk2 & _).
        exists s2, g2. simpl. intuition discriminate.
      * exists s, g. simpl. intuition discriminate.
  - apply IHr in H as (s1 & g1 & H & Hk1 & Hs1).
    revert H. generalize (length s1) at 1. intros fuel.
    assert (Hgen : forall s0 g0,
               (fix loop (fuel : nat) (s : string) (g : option string)
                  {struct fuel} : option A :=
                  match fuel with
                  | O => k s g
                  | S fuel' =>
                      match m r s g (fun s' g' =>
                               if (length s' <? length s)%nat
                               then loop fuel' s' g' else None) with
                      | Some x => Some x
                      | None => k s g
                      end
                  end) fuel s0 g0 = Some x ->
               exists s' g', k s' g' = Some x /\ (g0 <> None -> g' <> None)).
    { induction fuel as [|fuel IHf]; intros s0 g0 H.
      - exists s0, g0. intuition.
      - match type of H with
        | match ?c with _ => _ end = _ => destruct c eqn:E
        end.
        + inversion H; subst.
          apply IHr in E as (s' & g' & E & Hk & _).
          destruct (length s' <? length s0)%nat; [|discriminate].
          apply IHf in E as (s2 & g2 & E & Hk2).
          exists s2, g2. intuition.
        + exists s0, g0. intuition. }
    intro H. apply Hgen in H as (s' & g' & H & Hk).
    exists s', g'. simpl. intuition.
  - apply IHr in H as (s' & g' & H & _ & _).
    eexists _, _. split; [exact H|]. simpl. intuition discriminate.
Qed.

Lemma search_group_set (r : regex) (text : string) (mo : match_object) :
  sets_group r = true ->
  search r text = Some mo ->
  exists literal, group1 mo = Some literal.
Proof.
  intros Hr. unfold search. generalize 0%nat.
  assert (Hm : forall s mo',
             match_here r s = Some mo' ->
             exists literal, group1 mo' = Some literal).
  { intros s mo' E. unfold match_here in E.
    apply m_some in E as (s' & g' & E & _ & Hs).
    inversion E; subst; simpl.
    destruct g' as [lit|]; [eauto | exfalso; apply (Hs Hr); reflexivity]. }
  induction text as [|c text IH]; intros skip; simpl.
  - destruct skip; destruct (match_here r _) eqn:E; intro H;
      try discriminate; inversion H; subst; eapply Hm; eassumption.
  - destruct skip as [|skip]; [|apply IH].
    destruct (match_here r _) eqn:E; intro H.
    + inversion H; subst. eapply Hm; eassumption.
    + eapply IH; eassumption.
Qed.

End Matcher.

Section AmountExtraction.
Import Re FirecrawlWrapper.
Local Open Scope string_scope.

Lemma convert_apply_multiplier (text amount_str : string) :
  convert text amount_str =
  option_map (apply_multiplier text) (Py.float amount_str).
Proof.
  unfold convert, apply_multiplier.
  destruct (Py.contains "lakh" (Py.lower text)).
  - reflexivity.
  - destruct (Py.contains "cr" (Py.lower text)
              || Py.contains "crore" (Py.lower text));
      destruct (Py.float amount_str); reflexivity.
Qed.

(** One turn of the loop over the patterns. *)
Lemma extract_with_cons (pattern : regex) (rest : list regex) text :
  extract_with (pattern :: rest) text =
  match parsed pattern text with
  | Some number => Some (apply_multiplier text number)
  | None => extract_with rest text
  end.
Proof.
  unfold parsed. simpl.
  destruct (search pattern text) as [mo|]; [|reflexivity].
  rewrite convert_apply_multiplier.
  destruct (Py.float (amount_str_of mo)); reflexivity.
Qed.

Lemma parsed_literal (pattern : regex) text number :
  sets_group pattern = true ->
  parsed pattern text = Some number ->
  exists mo literal,
    search pattern text = Some mo /\
    group1 mo = Some literal /\
    Py.float (Py.remove_char "," literal) = Some number.
Proof.
  unfold parsed. intros Hs H.
  destruct (search pattern text) as [mo|] eqn:E; [|discriminate].
  destruct (search_group_set _ _ Hs E) as [literal Hl].
  exists mo, literal. repeat split; auto.
  unfold amount_str_of in H. rewrite Hl in H. exact H.
Qed.

(** C3: the reference vectors of the amount extractor; no result when
    neither pattern occurs in the text; and the multiplier rule: the
    literal, thousands separators stripped, is parsed and multiplied by
    100,000 when the text contains lakh (any case), else by 10,000,000 when
    it contains cr or crore, else left as it is. *)
Theorem C3_amount_extraction :
  returns (_extract_amount "Rs. 1,000,000") 1000000 /\
  returns (_extract_amount (rupee ++ " 10.5 Lakhs")) 1050000 /\
  returns (_extract_amount "INR 5 Cr") 50000000 /\
  (forall text,
      search pattern_currency text = None ->
      search pattern_magnitude text = None ->
      _extract_amount text = None) /\
  (forall text amount,
      _extract_amount text = Some amount ->
      exists pattern mo literal number,
        In pattern amount_patterns /\
        search pattern text = Some mo /\
        group1 mo = Some literal /\
        Py.float (Py.remove_char "," literal) = Some number /\
        amount = apply_multiplier text number).
Proof.
  split; [vm_compute; reflexivity|].
  split; [vm_compute; reflexivity|].
  split; [vm_compute; reflexivity|].
  split.
  - intros text H1 H2. unfold _extract_amount, amount_patterns. simpl.
    rewrite H1, H2. reflexivity.
  - intros text amount. unfold _extract_amount, amount_patterns.
    rewrite !extract_with_cons. simpl.
    destruct (parsed pattern_currency text) as [n1|] eqn:E1.
    + intro H; inversion H; subst.
      apply parsed_literal in E1 as (mo & lit & Hs & Hg & Hf);
        [|reflexivity].
      exists pattern_currency, mo, lit, n1. simpl. auto 10.
    + destruct (parsed pattern_magnitude text) as [n2|] eqn:E2;
        [|discriminate].
      intro H; inversion H; subst.
      apply parsed_literal in E2 as (mo & lit & Hs & Hg & Hf);
        [|reflexivity].
      exists pattern_magnitude, mo, lit, n2. simpl. auto 10.
Qed.

Lemma C3_amount_extraction_witness :
  _extract_amount "Supply of office furniture" = None /\
  exists pattern mo literal number,
    In pattern amount_patterns /\
    search pattern "Rs. 2,500" = Some mo /\
    group1 mo = Some literal /\
    Py.float (Py.remove_char "," literal) = Some number /\
    2500 = apply_multiplier "Rs. 2,500" number.
Proof.
  split.
  - apply (proj1 (proj2 (proj2 (proj2 C3_amount_extraction))));
      reflexivity.
  - apply (proj2 (proj2 (proj2 (proj2 C3_amount_extraction)))).
    reflexivity.
Defined.

(** C4, as stated, fails on "INR 5 Cr": the first pattern that matches is
    the currency pattern, its literal "5 Cr" does not parse, and the
    extractor still returns a result. *)
Lemma C4_counterexample :
  first_match amount_patterns "INR 5 Cr"
    = Some (pattern_currency, {| group1 := Some "5 Cr" |}) /\
  Py.float (Py.remove_char "," "5 Cr") = None /\
  _extract_amount "INR 5 Cr" <> None.
Proof.
  split; [reflexivity|]. split; [reflexivity|].
  vm_compute. discriminate.
Qed.

(** C4 (amended): the patterns are tried in order and the first one whose
    matched literal parses as a number, thousands separators stripped,
    wins; a pattern that does not match, or whose literal does not parse,
    is passed over for the next one; there is no result exactly when this
    happens to both patterns. *)
Theorem C4_first_parsable_match_wins (text : string) :
  (forall number,
      parsed pattern_currency text = Some number ->
      _extract_amount text = Some (apply_multiplier text number)) /\
  (forall number,
      parsed pattern_currency text = None ->
      parsed pattern_magnitude text = Some number ->
      _extract_amount text = Some (apply_multiplier text number)) /\
  (_extract_amount text = None <->
   forall pattern, In pattern amount_patterns ->
                   parsed pattern text = None).
Proof.
  unfold _extract_amount, amount_patterns.
  rewrite !extract_with_cons. simpl.
  split; [intros n H; rewrite H; reflexivity|].
  split; [intros n H1 H2; rewrite H1, H2; reflexivity|].
  split.
  - intros H pattern [<-|[<-|[]]];
      destruct (parsed pattern_currency text); try discriminate;
      destruct (parsed pattern_magnitude text); try discriminate;
      reflexivity.
  - intro H.
    rewrite (H pattern_currency), (H pattern_magnitude); simpl; auto.
Qed.

Lemma C4_first_parsable_match_wins_witness :
  _extract_amount "Rs. 2,500" = Some (apply_multiplier "Rs. 2,500" 2500) /\
  _extract_amount "INR 5 Cr" = Some (apply_multiplier "INR 5 Cr" 5).
Proof.
  split.
  - apply (proj1 (C4_first_parsable_match_wins "Rs. 2,500")).
    reflexivity.
  - apply (proj1 (proj2 (C4_first_parsable_match_wins "INR 5 Cr")));
      reflexivity.
Defined.

End AmountExtraction.

(** ** Stable insertion sort *)

Section StableSortFacts.
Import StableSort.

Variable A : Type.
Variable before : A -> A -> bool.

Lemma insert_perm (x : A) (l : list A) :
  Permutation (insert before x l) (x :: l).
Proof.
  induction l as [|y l IH]; simpl; [reflexivity|].
  destruct (before y x); [|reflexivity].
  rewrite IH. apply perm_swap.
Qed.

Lemma sort_perm (l : list A) : Permutation (sort before l) l.
Proof.
  induction l as [|x l IH]; simpl; [reflexivity|].
  rewrite insert_perm. constructor. exact IH.
Qed.

Lemma sort_length (l : list A) : List.length (sort before l) = List.length l.
Proof. apply Permutation_length, sort_perm. Qed.

Hypothesis before_asym : forall x y, before x y = true -> before y x = false.
Hypothesis may_precede_trans :
  forall x y z, may_precede before x y -> may_precede before y z ->
    may_precede before x z.

Lemma insert_sorted (x : A) (l : list A) :
  StronglySorted (may_precede before) l ->
  StronglySorted (may_precede before) (insert before x l).
Proof.
  induction 1 as [|y l Hs IH Hy]; simpl.
  - repeat constructor.
  - destruct (before y x) eqn:E.
    + constructor; [exact IH|].
      apply Forall_forall. intros z Hz.
      apply (Permutation_in _ (insert_perm x l)) in Hz.
      destruct Hz as [<-|Hz].
      * apply before_asym, E.
      * rewrite Forall_forall in Hy. auto.
    + constructor; [constructor; assumption|].
      constructor; [exact E|].
      apply Forall_forall. intros z Hz. rewrite Forall_forall in Hy.
      apply may_precede_trans with y; [exact E | auto].
Qed.

Lemma sort_sorted (l : list A) : StronglySorted (may_precede before) (sort before l).
Proof.
  induction l as [|x l IH]; simpl; [constructor|].
  apply insert_sorted, IH.
Qed.

(** Stability: the elements of a class that the order does not separate
    keep the order they had. *)
Variable class : A -> bool.
Hypothesis class_unordered :
  forall x y, class x = true -> class y = true -> before y x = false.

Lemma filter_insert (x : A) (l : list A) :
  filter class (insert before x l) = filter class (x :: l).
Proof.
  induction l as [|y l IH]; simpl; [reflexivity|].
  destruct (before y x) eqn:E; [|reflexivity].
  simpl. rewrite IH. simpl.
  destruct (class x) eqn:Ex; [|reflexivity].
  destruct (class y) eqn:Ey; [|reflexivity].
  rewrite (class_unordered Ex Ey) in E. discriminate.
Qed.

Lemma filter_sort (l : list A) :
  filter class (sort before l) = filter class l.
Proof.
  induction l as [|x l IH]; simpl; [reflexivity|].
  rewrite filter_insert. simpl. rewrite IH. reflexivity.
Qed.

End StableSortFacts.

(** ** The flat index *)

Section FaissFacts.
Import Py Faiss.

Lemma map_snd_combine A B (l : list A) :
  forall l' : list B,
    List.length l = List.length l' -> map snd (combine l l') = l'.
Proof.
  induction l as [|a l IH]; intros [|b l'] H; simpl in *;
    try discriminate; [reflexivity|].
  f_equal. apply IH. lia.
Qed.

Lemma ranked_labels (ix : IndexFlatL2) (q : list Q) :
  Permutation (map snd (ranked ix q)) (seq 0 (ntotal ix)).
Proof.
  unfold ranked. rewrite (Permutation_map snd (sort_perm closer _)).
  rewrite map_snd_combine; [reflexivity|].
  rewrite length_map, length_seq. reflexivity.
Qed.

Lemma NoDup_firstn A (k : nat) (l : list A) : NoDup l -> NoDup (firstn k l).
Proof.
  intro H. rewrite <- (firstn_skipn k l) in H.
  apply NoDup_app_remove_r in H. exact H.
Qed.

Lemma closer_asym x y : closer x y = true -> closer y x = false.
Proof.
  unfold closer. intro H. apply Qlt_bool_iff in H.
  apply Qlt_bool_false_iff, Qlt_le_weak, H.
Qed.

Lemma closer_trans x y z :
  StableSort.may_precede closer x y ->
  StableSort.may_precede closer y z ->
  StableSort.may_precede closer x z.
Proof.
  unfold StableSort.may_precede, closer. intros H1 H2.
  apply Qlt_bool_false_iff in H1, H2. apply Qlt_bool_false_iff.
  eapply Qle_trans; eauto.
Qed.

Lemma StronglySorted_firstn A (R : A -> A -> Prop) (k : nat) (l : list A) :
  StronglySorted R l -> StronglySorted R (firstn k l).
Proof.
  intro H. revert k.
  induction H as [|a l Hs IH Ha]; intros [|k]; simpl; try constructor.
  - apply IH.
  - rewrite Forall_forall in *. intros b Hb.
    apply Ha. rewrite <- (firstn_skipn k l). apply in_or_app. auto.
Qed.

(** A search answers its neighbours by ascending distance. *)
Lemma search_ascending (ix : IndexFlatL2) (q : list Q) (k : nat) ns :
  search ix q k = Ok ns ->
  StronglySorted (fun n1 n2 => fst n1 <= fst n2) ns.
Proof.
  unfold search.
  destruct (negb (List.length q =? d ix)%nat); [discriminate|].
  destruct (k =? 0)%nat; [discriminate|].
  intro H; inversion H; subst. apply StronglySorted_firstn.
  unfold ranked.
  pose proof (sort_sorted closer_asym closer_trans
                (combine (map (l2sqr q) (xb ix)) (seq 0 (ntotal ix))))
    as Hs.
  induction Hs as [|a l' Hs IH Ha]; constructor; [exact IH|].
  eapply Forall_impl; [|exact Ha].
  intros b Hb. apply Qlt_bool_false_iff. exact Hb.
Qed.

(** A search answers at most [k] neighbours, with distinct ordinals. *)
Lemma search_neighbours (ix : IndexFlatL2) (q : list Q) (k : nat) ns :
  search ix q k = Ok ns ->
  (List.length ns <= k)%nat /\ NoDup (map snd ns) /\ k <> 0%nat.
Proof.
  unfold search.
  destruct (negb (List.length q =? d ix)%nat); [discriminate|].
  destruct (k =? 0)%nat eqn:Ek; [discriminate|].
  intro H; inversion H; subst. apply Nat.eqb_neq in Ek.
  split; [apply firstn_le_length|]. split; [|exact Ek].
  rewrite <- firstn_map. apply NoDup_firstn.
  apply (Permutation_NoDup (Permutation_sym (ranked_labels ix q))).
  apply seq_NoDup.
Qed.

End FaissFacts.

(** ** The matching engine *)

Section MatchingFacts.
Import Py CompanyScraperAgent.
Variable float32 : Q -> Q.

(** What the scoring loop adds to its accumulator: at most one record per
    neighbour of a valid ordinal. *)
Lemma scoring_loop_adds tenders ns :
  forall acc built exc,
    scoring_loop tenders ns acc = (built, exc) ->
    exists new,
      built = acc ++ new /\
      (List.length new <= List.length (filter (in_store tenders) ns))%nat.
Proof.
  induction ns as [|[distance idx] ns IH]; intros acc built exc H;
    simpl in H.
  - inversion H; subst. exists []. rewrite app_nil_r. auto.
  - simpl filter.
    destruct (in_store tenders (distance, idx)) eqn:E;
      unfold in_store in E; simpl in E; rewrite E in H.
    + destruct (nth_error tenders idx) as [[tender|]|].
      * apply IH in H as (new & -> & Hlen).
        eexists (_ :: new). rewrite <- app_assoc. simpl.
        split; [reflexivity | lia].
      * inversion H; subst. exists []. rewrite app_nil_r. simpl.
        split; [reflexivity | lia].
      * inversion H; subst. exists []. rewrite app_nil_r. simpl.
        split; [reflexivity | lia].
    + apply IH in H. exact H.
Qed.

(** When the loop ends normally it has added one record per neighbour of a
    valid ordinal, in the order of the neighbours. *)
Lemma scoring_loop_completes tenders ns :
  forall acc built,
    scoring_loop tenders ns acc = (built, None) ->
    exists new,
      built = acc ++ new /\
      map RecommendationSchema.similarity_score new =
      map (fun n => similarity (fst n)) (filter (in_store tenders) ns).
Proof.
  induction ns as [|[distance idx] ns IH]; intros acc built H; simpl in H.
  - inversion H; subst. exists []. rewrite app_nil_r. auto.
  - simpl filter.
    destruct (in_store tenders (distance, idx)) eqn:E;
      unfold in_store in E; simpl in E; rewrite E in H.
    + destruct (nth_error tenders idx) as [[tender|]|]; try discriminate.
      apply IH in H as (new & -> & Hs).
      eexists (_ :: new). rewrite <- app_assoc. simpl.
      split; [reflexivity|]. rewrite Hs. reflexivity.
    + apply IH in H. exact H.
Qed.

Lemma scoring_loop_empty_store ns :
  forall acc, scoring_loop [] ns acc = (acc, None).
Proof.
  induction ns as [|[distance idx] ns IH]; intro acc; simpl; auto.
Qed.

Lemma find_matching_outcome self company top_k :
  outcome float32 self company top_k
          (_find_matching_tenders float32 self company top_k).
Proof.
  unfold _find_matching_tenders.
  destruct (index self) as [ix|] eqn:Ei; [|constructor; auto].
  destruct (tenders self) as [|t ts] eqn:Et; [constructor; auto|].
  destruct (Faiss.ntotal ix =? 0)%nat eqn:En.
  { constructor. right; right. exists ix. apply Nat.eqb_eq in En. auto. }
  unfold matching_body.
  destruct (CompanySchema.embedding company) as [embedding|] eqn:Ee;
    [|constructor].
  destruct (Faiss.search ix (map float32 embedding) _) as [ns|e] eqn:Es;
    simpl; [|constructor].
  rewrite Et.
  destruct (scoring_loop (t :: ts) ns []) as [built [e|]] eqn:El;
    [constructor|].
  eapply outcome_matched; eauto. rewrite Et. exact El.
Qed.

(** C6: when the index is absent or empty, or the store is empty, the
    matching engine returns the empty list of recommendations, raises
    nothing and logs a warning; so does every match request. *)
Theorem C6_nothing_to_match
        (service : string -> Ollama.response)
        (self : agent) (company : CompanySchema.t) (top_k : nat)
        (extraction : result CompanySchema.t) :
  index self = None \/
  (exists ix, index self = Some ix /\ Faiss.ntotal ix = 0%nat) \/
  tenders self = [] ->
  _find_matching_tenders float32 self company top_k
    = ([no_tenders_warning], Ok []) /\
  recommendations (process_company_profile service float32 self extraction)
    = [].
Proof.
  intro H.
  assert (Hfind : forall c k,
             _find_matching_tenders float32 self c k
             = ([no_tenders_warning], Ok [])).
  { intros c k. unfold _find_matching_tenders.
    destruct H as [-> | [(ix & -> & Hn) | Ht]]; [reflexivity | |].
    - destruct (tenders self); [reflexivity|]. rewrite Hn. reflexivity.
    - rewrite Ht. destruct (index self); reflexivity. }
  split; [apply Hfind|].
  unfold process_company_profile.
  destruct extraction as [c|e]; simpl; [|reflexivity].
  destruct (get_embedding service (CompanySchema.description c)) as [v|e];
    simpl; [|reflexivity].
  rewrite Hfind. reflexivity.
Qed.

(** When search and scoring go through, the result is the sorted list of
    what the loop built. *)
Lemma find_matching_of_loop self company top_k ix embedding ns built :
  index self = Some ix ->
  CompanySchema.embedding company = Some embedding ->
  Faiss.search ix (map float32 embedding)
               (Nat.min top_k (Faiss.ntotal ix)) = Ok ns ->
  scoring_loop (tenders self) ns [] = (built, None) ->
  snd (_find_matching_tenders float32 self company top_k)
  = Ok (sort_recommendations built).
Proof.
  intros Hi He Hs Hl. unfold _find_matching_tenders. rewrite Hi.
  destruct (tenders self) as [|t ts] eqn:Et.
  { rewrite scoring_loop_empty_store in Hl. inversion Hl. reflexivity. }
  destruct (Faiss.ntotal ix =? 0)%nat eqn:En.
  { apply Nat.eqb_eq in En. rewrite En, Nat.min_0_r in Hs.
    apply search_neighbours in Hs as (_ & _ & Hk). congruence. }
  unfold matching_body. rewrite He, Hs. simpl. rewrite Et, Hl. reflexivity.
Qed.

Lemma higher_score_asym x y :
  higher_score x y = true -> higher_score y x = false.
Proof.
  unfold higher_score. intro H. apply Qlt_bool_iff in H.
  apply Qlt_bool_false_iff. apply Qlt_le_weak, H.
Qed.

Lemma higher_score_trans x y z :
  StableSort.may_precede higher_score x y ->
  StableSort.may_precede higher_score y z ->
  StableSort.may_precede higher_score x z.
Proof.
  unfold StableSort.may_precede, higher_score. intros H1 H2.
  apply Qlt_bool_false_iff in H1, H2. apply Qlt_bool_false_iff.
  eapply Qle_trans; eauto.
Qed.

Lemma has_score_unordered s x y :
  has_score s x = true -> has_score s y = true -> higher_score y x = false.
Proof.
  unfold has_score, higher_score. intros Hx Hy.
  apply Qeq_bool_iff in Hx, Hy. apply Qlt_bool_false_iff.
  rewrite Hx, Hy. apply Qle_refl.
Qed.

(** Highest score first. *)
Lemma sort_recommendations_descending l :
  StronglySorted
    (fun a b => RecommendationSchema.similarity_score b
                <= RecommendationSchema.similarity_score a)
    (sort_recommendations l).
Proof.
  unfold sort_recommendations.
  pose proof (sort_sorted higher_score_asym higher_score_trans l) as H.
  induction H as [|a l' Hs IH Ha]; constructor; [exact IH|].
  eapply Forall_impl; [|exact Ha].
  intros b Hb. apply Qlt_bool_false_iff. exact Hb.
Qed.

(** The neighbours of a search that fall in the store are no more than the
    store has records. *)
Lemma in_store_bound (store : list pyobj) (ns : list (Q * nat)) :
  NoDup (map snd ns) ->
  (List.length (filter (in_store store) ns) <= List.length store)%nat.
Proof.
  intro Hnd.
  rewrite <- (length_map snd), <- (length_seq (List.length store) 0).
  apply NoDup_incl_length.
  - change (in_store store)
      with (fun n : Q * nat => (fun i => i <? List.length store)%nat (snd n)).
    rewrite <- filter_map_swap. apply NoDup_filter, Hnd.
  - intros i Hi. apply in_map_iff in Hi as (n & <- & Hn).
    apply filter_In in Hn as [_ Hn]. unfold in_store in Hn.
    apply Nat.ltb_lt in Hn. apply in_seq. lia.
Qed.

(** The engine returns at most [top_k] records and at most as many as the
    store holds. *)
Lemma find_matching_length self company top_k log recs :
  _find_matching_tenders float32 self company top_k = (log, Ok recs) ->
  (List.length recs <= Nat.min top_k (List.length (tenders self)))%nat.
Proof.
  intro H. pose proof (find_matching_outcome self company top_k) as Ho.
  rewrite H in Ho. inversion Ho as [ | | ix emb ns built Hi He Hs Hl]; subst;
    simpl; try lia.
  unfold sort_recommendations. rewrite sort_length.
  apply scoring_loop_adds in Hl as (new & -> & Hlen). simpl.
  apply search_neighbours in Hs as (Hk & Hnd & _).
  pose proof (@in_store_bound (tenders self) ns Hnd).
  pose proof (filter_length_le (in_store (tenders self)) ns).
  lia.
Qed.

End MatchingFacts.

Lemma C6_nothing_to_match_witness :
  CompanyScraperAgent._find_matching_tenders Sample.float32_id
    (CompanyScraperAgent.mkAgent None []) (Sample.company (Some [0])) 10
  = ([CompanyScraperAgent.no_tenders_warning], Py.Ok []).
Proof.
  refine (proj1 (C6_nothing_to_match Sample.float32_id
           (fun _ => Ollama.ConnectionError)
           (CompanyScraperAgent.mkAgent None []) (Sample.company (Some [0]))
           10 (Py.Raise Py.ValueError) _)).
  left. reflexivity.
Defined.

Section MatchingClaims.
Import Py CompanyScraperAgent.

(** C2, as stated, fails: on a store whose second element is not a tender
    record the scoring loop builds one recommendation and then raises, and
    the engine returns the empty list, not the recommendation built. *)
Lemma C2_counterexample :
  Faiss.search Sample.index2 (map Sample.float32_id [0])
               (Nat.min 10 (Faiss.ntotal Sample.index2))
    = Ok [(0, 0%nat); (1, 1%nat)] /\
  scoring_loop (tenders Sample.matcher_broken) [(0, 0%nat); (1, 1%nat)] []
    = ([RecommendationSchema.mk (TenderSchema.id Sample.t0)
          (TenderSchema.title Sample.t0) 100 Sample.t0],
       Some AttributeError) /\
  _find_matching_tenders Sample.float32_id Sample.matcher_broken
                         (Sample.company (Some [0])) 10
    = ([LogError "Error finding matching tenders" (Some AttributeError)],
       Ok []).
Proof.
  repeat split; vm_compute; reflexivity.
Qed.

(** C2 (amended): when an exception is raised while the neighbours are
    scored, the engine logs the error and returns the empty list; the
    recommendations built before the failure are discarded. *)
Theorem C2_failure_discards_built
        (float32 : Q -> Q) (self : agent) (company : CompanySchema.t)
        (top_k : nat) ix embedding ns built e :
  index self = Some ix ->
  CompanySchema.embedding company = Some embedding ->
  Faiss.search ix (map float32 embedding)
               (Nat.min top_k (Faiss.ntotal ix)) = Ok ns ->
  scoring_loop (tenders self) ns [] = (built, Some e) ->
  _find_matching_tenders float32 self company top_k
  = ([LogError "Error finding matching tenders" (Some e)], Ok []).
Proof.
  intros Hi He Hs Hl. unfold _find_matching_tenders. rewrite Hi.
  destruct (tenders self) as [|t ts] eqn:Et.
  { rewrite scoring_loop_empty_store in Hl. discriminate. }
  destruct (Faiss.ntotal ix =? 0)%nat eqn:En.
  { apply Nat.eqb_eq in En. rewrite En, Nat.min_0_r in Hs.
    apply search_neighbours in Hs as (_ & _ & Hk). congruence. }
  unfold matching_body. rewrite He, Hs. simpl. rewrite Et, Hl. reflexivity.
Qed.

Lemma C2_failure_discards_built_witness :
  _find_matching_tenders Sample.float32_id Sample.matcher_broken
                         (Sample.company (Some [0])) 10
  = ([LogError "Error finding matching tenders" (Some AttributeError)],
     Ok []).
Proof.
  apply (@C2_failure_discards_built Sample.float32_id Sample.matcher_broken
           (Sample.company (Some [0])) 10 Sample.index2 [0]
           [(0, 0%nat); (1, 1%nat)]
           [RecommendationSchema.mk (TenderSchema.id Sample.t0)
              (TenderSchema.title Sample.t0) 100 Sample.t0]
           AttributeError); reflexivity.
Defined.

(** C8: the recommendations a match returns are in descending order of
    similarity score, and those of equal score are in the order in which the
    index query returned their neighbours. *)
Theorem C8_sorted_descending_stable
        (float32 : Q -> Q) (self : agent) (company : CompanySchema.t)
        (top_k : nat) log recs :
  _find_matching_tenders float32 self company top_k = (log, Ok recs) ->
  StronglySorted
    (fun a b => RecommendationSchema.similarity_score b
                <= RecommendationSchema.similarity_score a) recs /\
  forall ix embedding ns built,
    index self = Some ix ->
    CompanySchema.embedding company = Some embedding ->
    Faiss.search ix (map float32 embedding)
                 (Nat.min top_k (Faiss.ntotal ix)) = Ok ns ->
    scoring_loop (tenders self) ns [] = (built, None) ->
    map RecommendationSchema.similarity_score built
      = map (fun n => similarity (fst n))
            (filter (in_store (tenders self)) ns) /\
    Permutation recs built /\
    forall s, filter (has_score s) recs = filter (has_score s) built.
Proof.
  intro H. split.
  - pose proof (find_matching_outcome float32 self company top_k) as Ho.
    rewrite H in Ho. inversion Ho; subst; try constructor.
    apply sort_recommendations_descending.
  - intros ix embedding ns built Hi He Hs Hl.
    pose proof (find_matching_of_loop float32 self company top_k
                  Hi He Hs Hl) as Hr.
    rewrite H in Hr. simpl in Hr. inversion Hr; subst recs.
    split; [|split].
    + apply scoring_loop_completes in Hl as (new & -> & Hm). exact Hm.
    + apply sort_perm.
    + intro s. apply filter_sort. apply has_score_unordered.
Qed.

Lemma C8_sorted_descending_stable_witness :
  let built :=
    fst (scoring_loop (tenders Sample.matcher3)
           [(0, 1%nat); (4, 0%nat); (4, 2%nat)] []) in
  StronglySorted
    (fun a b => RecommendationSchema.similarity_score b
                <= RecommendationSchema.similarity_score a)
    (sort_recommendations built) /\
  forall s, filter (has_score s) (sort_recommendations built)
            = filter (has_score s) built.
Proof.
  destruct (@C8_sorted_descending_stable Sample.float32_id
              Sample.matcher3 (Sample.company (Some [0])) 10 [] _ eq_refl)
    as [Hsorted Hstable].
  split; [exact Hsorted|].
  apply (Hstable Sample.index3 [0] [(0, 1%nat); (4, 0%nat); (4, 2%nat)] _
           eq_refl eq_refl eq_refl eq_refl).
Defined.

(** C10: a match request returns at most 10 recommendations, and no more
    than the store holds tenders; the number of neighbours asked of the
    index is the default [top_k] of 10, which the request cannot change. *)
Theorem C10_at_most_ten
        (service : string -> Ollama.response) (float32 : Q -> Q)
        (self : agent) (extraction : result CompanySchema.t) :
  (List.length
     (recommendations
        (process_company_profile service float32 self extraction))
   <= Nat.min 10 (List.length (tenders self)))%nat.
Proof.
  remember (Nat.min 10 (List.length (tenders self))) as bound eqn:Hb.
  unfold process_company_profile.
  destruct extraction as [c|e]; simpl; [|lia].
  destruct (get_embedding service (CompanySchema.description c)) as [v|e];
    simpl; [|lia].
  destruct (_find_matching_tenders float32 self
              (CompanySchema.set_embedding c v) 10) as [log [recs|e]] eqn:E;
    simpl; [|lia].
  rewrite length_map. subst bound. eapply find_matching_length, E.
Qed.

End MatchingClaims.

(** ** Alignment of index and store *)

Section AlignmentFacts.
Import Py TenderScraperAgent.

Variable VECTOR_DIMENSION : nat.
Variable service : string -> Ollama.response.
Variable float32 : Q -> Q.

Local Abbreviation get_embedding := (get_embedding VECTOR_DIMENSION service).
Local Abbreviation derived := (derived VECTOR_DIMENSION service float32).
Local Abbreviation aligned := (aligned VECTOR_DIMENSION service float32).
Local Abbreviation paired := (paired VECTOR_DIMENSION service float32).
Local Abbreviation consistent := (consistent VECTOR_DIMENSION service float32).
Local Abbreviation embedded := (embedded VECTOR_DIMENSION service).
Local Abbreviation disk_consistent :=
  (disk_consistent VECTOR_DIMENSION service float32).
Local Abbreviation embed_loop := (embed_loop VECTOR_DIMENSION service).
Local Abbreviation _update_index := (_update_index VECTOR_DIMENSION float32).
Local Abbreviation _process_and_store_tenders :=
  (_process_and_store_tenders VECTOR_DIMENSION service float32).
Local Abbreviation step := (step VECTOR_DIMENSION service float32).
Local Abbreviation run := (run VECTOR_DIMENSION service float32).

(** Two lists that go together have equal counts and go together ordinal by
    ordinal. *)
Lemma paired_aligned (a : agent) :
  paired (index_vectors (index a)) (tenders a) -> aligned a.
Proof.
  unfold aligned. generalize (index_vectors (index a)) (tenders a).
  induction 1 as [|v t vs ts Hvt H IH]; simpl.
  - split; [reflexivity|]. intros [|i]; discriminate.
  - destruct IH as [Hlen Hnth]. split; [congruence|].
    intros [|i] vector tender; simpl.
    + intros Hv Ht. inversion Hv; inversion Ht; subst. exact Hvt.
    + apply Hnth.
Qed.

Lemma embed_loop_adds (batch : list TenderSchema.t) :
  forall new_tenders embeddings,
  exists added,
    embed_loop batch new_tenders embeddings
    = (new_tenders ++ added, embeddings ++ map embedding_of added) /\
    Forall embedded added.
Proof.
  induction batch as [|tender batch IH]; intros new_tenders embeddings;
    simpl.
  - exists []. rewrite !app_nil_r. auto.
  - destruct (get_embedding (text_for_embedding tender))
      as [embedding|e] eqn:E.
    + destruct (IH (new_tenders
                      ++ [TenderSchema.set_embedding tender embedding])
                   (embeddings ++ [embedding])) as (added & -> & Hadded).
      exists (TenderSchema.set_embedding tender embedding :: added).
      rewrite <- !app_assoc. split; [reflexivity|].
      constructor; [|exact Hadded].
      exists embedding. split; [exact E | reflexivity].
    + apply IH.
Qed.

Lemma embedded_paired (added : list TenderSchema.t) :
  Forall embedded added ->
  paired (map (map float32) (map embedding_of added)) added.
Proof.
  induction 1 as [|t added (embedding & Hg & He) H IH]; simpl;
    constructor; [|exact IH].
  exists embedding. unfold embedding_of. rewrite He. auto.
Qed.

Lemma stored_vector_embedding_of (added : list TenderSchema.t) :
  map (map float32) (map embedding_of added)
  = map (stored_vector float32) added.
Proof.
  rewrite map_map. apply map_ext. intro t.
  unfold stored_vector, embedding_of.
  destruct (TenderSchema.embedding t); reflexivity.
Qed.

(** A completed update has appended the converted embeddings, in order. *)
Lemma update_index_completed (self self' : agent) embeddings :
  _update_index self embeddings = (self', Ok tt) ->
  index_vectors (index self')
  = index_vectors (index self) ++ map (map float32) embeddings /\
  tenders self' = tenders self /\
  (embeddings <> [] -> index self' <> None).
Proof.
  unfold _update_index, np_array2.
  destruct embeddings as [|row rest].
  - intro H; inversion H; subst. rewrite app_nil_r. intuition.
  - destruct (forallb _ rest); [|discriminate].
    unfold Faiss.add.
    destruct (forallb _ (map (map float32) (row :: rest)));
      [|discriminate].
    intro H; inversion H; subst. simpl.
    split; [|split; [reflexivity | discriminate]].
    destruct (index self); reflexivity.
Qed.

(** What a load leaves in the agent goes together when the agent and the
    directory were consistent. *)
Lemma load_paired (st : system) :
  consistent st ->
  let loaded := _load_index_and_tenders (the_agent st) (the_disk st) in
  paired (index_vectors (index loaded)) (tenders loaded).
Proof.
  intros [Hmem Hdisk]. unfold _load_index_and_tenders.
  unfold disk_consistent in Hdisk.
  destruct (faiss_index_bin (the_disk st)), (tenders_pkl (the_disk st));
    simpl; try contradiction; assumption.
Qed.

(** A completed append extends the store and the index by the same batch,
    tender by tender and vector by vector. *)
Lemma append_pairs (self : agent) (dk : disk) batch faults self' dk' :
  _process_and_store_tenders self dk batch faults = (self', dk', Ok tt) ->
  let loaded := _load_index_and_tenders self dk in
  exists added,
    tenders self' = tenders loaded ++ added /\
    index_vectors (index self')
    = index_vectors (index loaded) ++ map (stored_vector float32) added /\
    paired (map (stored_vector float32) added) added /\
    (added <> [] -> index self' <> None) /\
    dk' = match added with
          | [] => dk
          | _ => _save_index_and_tenders self' dk faults
          end.
Proof.
  unfold _process_and_store_tenders.
  destruct (embed_loop_adds batch [] []) as (added & -> & Hadded).
  simpl app.
  destruct added as [|t added].
  - intro H; inversion H; subst. exists []. simpl.
    rewrite !app_nil_r. repeat split; [constructor | congruence].
  - set (new := t :: added) in *.
    set (loaded := _load_index_and_tenders self dk).
    destruct (_update_index _ _) as [self3 [[]|e]] eqn:E; [|discriminate].
    intro H; inversion H; subst. exists new.
    apply update_index_completed in E as (Hv & Ht & Hi).
    cbn [index tenders] in Hv, Ht.
    rewrite stored_vector_embedding_of in Hv.
    split; [exact Ht|]. split; [exact Hv|]. split.
    + rewrite <- stored_vector_embedding_of. apply embedded_paired, Hadded.
    + split; [|reflexivity]. intros _. apply Hi. discriminate.
Qed.

Lemma paired_app vs ts vs' ts' :
  paired vs ts -> paired vs' ts' -> paired (vs ++ vs') (ts ++ ts').
Proof. apply Forall2_app. Qed.

(** An event without faults that completes keeps the installation
    consistent. *)
Lemma step_consistent (st st' : system) (ev : event) :
  consistent st ->
  fault_free ev ->
  step st ev = (st', Ok tt) ->
  consistent st'.
Proof.
  intros Hc Hf. destruct ev as [|batch faults]; simpl.
  - intro H; inversion H; subst. destruct Hc as [_ Hd].
    split; [constructor | exact Hd].
  - simpl in Hf. subst faults.
    destruct (_process_and_store_tenders _ _ _ _) as [[self' dk'] r] eqn:E.
    intro H; inversion H; subst.
    pose proof (load_paired Hc) as Hl.
    apply append_pairs in E as (added & Ht & Hv & Hp & Hi & Hd).
    assert (Hmem : paired (index_vectors (index self')) (tenders self')).
    { rewrite Ht, Hv. apply paired_app; assumption. }
    split; [exact Hmem|]. simpl. subst dk'.
    destruct added as [|t added]; [apply Hc|].
    unfold disk_consistent, _save_index_and_tenders. simpl.
    destruct (index self') as [ix|] eqn:Ei; [exact Hmem|].
    exfalso. apply Hi; [discriminate | reflexivity].
Qed.

Lemma fresh_consistent : consistent fresh.
Proof. split; [constructor | exact I]. Qed.

Lemma run_aligned (evs : list event) :
  forall st,
    consistent st ->
    Forall fault_free evs ->
    Forall (fun sr => snd sr = Ok tt) (run st evs) ->
    Forall (fun sr => aligned (the_agent (fst sr))) (run st evs).
Proof.
  induction evs as [|ev evs IH]; intros st Hc Hf Hok; simpl in *;
    [constructor|].
  destruct (step st ev) as [st' r] eqn:E.
  inversion Hf as [|? ? Hev Hevs]; subst.
  inversion Hok as [|? ? Hr Hrs]; subst. simpl in Hr. subst r.
  pose proof (@step_consistent st st' ev Hc Hev E) as Hc'.
  constructor; [apply paired_aligned, Hc' | apply IH; assumption].
Qed.

End AlignmentFacts.

Section AlignmentClaims.
Import Py TenderScraperAgent.

(** C1, as stated, fails when a write of the index file fails: the first
    scrape cycle completes and saves the store but not the index; the next
    cycle, by a new agent, loads the store, finds no index, and completes
    with one vector for two tenders. *)
Lemma C1_counterexample :
  let trace :=
    run 1 SampleRun.service Sample.float32_id fresh
        SampleRun.index_write_lost in
  map snd trace = [Ok tt; Ok tt; Ok tt] /\
  map SampleRun.counts trace = [(1, 1); (0, 0); (1, 2)]%nat /\
  ~ Forall (fun sr =>
              aligned 1 SampleRun.service Sample.float32_id
                      (the_agent (fst sr))) trace.
Proof.
  split; [reflexivity|]. split; [reflexivity|].
  intro H. set (tr := run _ _ _ _ _) in H. vm_compute in tr. subst tr.
  inversion H as [|? ? _ H1]; subst.
  inversion H1 as [|? ? _ H2]; subst.
  inversion H2 as [|? ? [Hlen _] _]; subst.
  discriminate Hlen.
Qed.

(** C1 (amended): for every sequence of scrape cycles, by one agent or by
    new ones, that starts from a consistent installation (a fresh one, for
    instance) and in which no write of the index file or of the store file
    fails and every append completes, index and store have equal counts
    after each of them, and the vector at each ordinal is the float32 image
    of the embedding of the title and description of the tender at that
    ordinal; and every completed append, with or without such failures,
    extends the store and the index by the same tenders, in the same
    order. *)
Theorem C1_alignment
        (VECTOR_DIMENSION : nat) (service : string -> Ollama.response)
        (float32 : Q -> Q) :
  consistent VECTOR_DIMENSION service float32 fresh /\
  (forall st evs,
      consistent VECTOR_DIMENSION service float32 st ->
      Forall fault_free evs ->
      Forall (fun sr => snd sr = Ok tt)
             (run VECTOR_DIMENSION service float32 st evs) ->
      Forall (fun sr =>
                aligned VECTOR_DIMENSION service float32
                        (the_agent (fst sr)))
             (run VECTOR_DIMENSION service float32 st evs)) /\
  (forall self dk batch faults self' dk',
      _process_and_store_tenders VECTOR_DIMENSION service float32
                                 self dk batch faults
      = (self', dk', Ok tt) ->
      exists added,
        tenders self'
        = tenders (_load_index_and_tenders self dk) ++ added /\
        index_vectors (index self')
        = index_vectors (index (_load_index_and_tenders self dk))
          ++ map (stored_vector float32) added /\
        Forall2 (derived VECTOR_DIMENSION service float32)
                (map (stored_vector float32) added) added).
Proof.
  split; [apply fresh_consistent|]. split.
  - intros st evs Hc Hf Hok. apply run_aligned; auto.
  - intros self dk batch faults self' dk' H.
    apply append_pairs in H as (added & Ht & Hv & Hp & _).
    exists added. auto.
Qed.

Lemma C1_alignment_witness :
  Forall (fun sr =>
            aligned 1 SampleRun.service Sample.float32_id
                    (the_agent (fst sr)))
         (run 1 SampleRun.service Sample.float32_id fresh
              SampleRun.two_cycles).
Proof.
  destruct (C1_alignment 1 SampleRun.service Sample.float32_id)
    as (Hfresh & Hrun & _).
  apply Hrun.
  - exact Hfresh.
  - repeat constructor.
  - vm_compute. repeat constructor.
Defined.

End AlignmentClaims.

(** ** The fallback of the embedding client *)

Section EmbeddingFallback.
Import Py.

(** On a failure of the service the client of the tender agent answers the
    zero vector of the configured dimension. *)
Lemma tender_get_embedding_failure
      (VECTOR_DIMENSION : nat) (service : string -> Ollama.response) text :
  service_failure (service text) ->
  TenderScraperAgent.get_embedding VECTOR_DIMENSION service text
  = Ok (zeros VECTOR_DIMENSION).
Proof.
  unfold TenderScraperAgent.get_embedding, service_failure.
  destruct (service text) as [|code [| |[v|]]]; simpl; try reflexivity;
    intros [H|[]]; destruct (code =? 200)%Z eqn:E; try reflexivity;
    apply Z.eqb_eq in E; contradiction.
Qed.

(** The client of the company agent answers 384 zeros. *)
Lemma company_get_embedding_failure
      (service : string -> Ollama.response) text :
  service_failure (service text) ->
  CompanyScraperAgent.get_embedding service text = Ok (zeros 384).
Proof.
  unfold CompanyScraperAgent.get_embedding, service_failure.
  destruct (service text) as [|code [| |[v|]]]; simpl; try reflexivity;
    intros [H|[]]; destruct (code =? 200)%Z eqn:E; try reflexivity;
    apply Z.eqb_eq in E; contradiction.
Qed.

(** Neither client raises. *)
Lemma get_embedding_returns
      (VECTOR_DIMENSION : nat) (service : string -> Ollama.response) text :
  (exists v,
      TenderScraperAgent.get_embedding VECTOR_DIMENSION service text = Ok v)
  /\
  (exists v, CompanyScraperAgent.get_embedding service text = Ok v).
Proof.
  unfold TenderScraperAgent.get_embedding, CompanyScraperAgent.get_embedding.
  destruct (service text) as [|code [| |[v|]]]; simpl;
    try destruct (negb (code =? 200)%Z); simpl; eauto.
Qed.

(** C7 at a configuration with VECTOR_DIMENSION = 768 and the service down:
    the tender agent falls back to 768 zeros, the company agent to 384
    zeros, and a match against an index of dimension 768 fails on the
    dimension of the query and returns nothing. *)
Theorem C7_fallback_dimension_differs :
  TenderScraperAgent.get_embedding 768 SampleRun.service_down "Pumps"
    = Ok (zeros 768) /\
  CompanyScraperAgent.get_embedding SampleRun.service_down "Pumps and pipes"
    = Ok (zeros 384) /\
  zeros 384 <> zeros 768 /\
  CompanyScraperAgent._find_matching_tenders Sample.float32_id
    (CompanyScraperAgent.mkAgent (Some (Faiss.mk 768 [zeros 768]))
       [CompanyScraperAgent.Tender Sample.t0])
    (Sample.company (Some (zeros 384))) 10
  = ([LogError "Error finding matching tenders" (Some AssertionError)],
     Ok []).
Proof.
  split; [reflexivity|]. split; [reflexivity|]. split.
  - intro H. apply (f_equal (@List.length Q)) in H.
    unfold zeros in H. rewrite !repeat_length in H. discriminate.
  - vm_compute. reflexivity.
Qed.

End EmbeddingFallback.

(** ** The external representation of a recommendation *)

Section ExternalRepresentation.
Import Py CompanyScraperAgent.
Local Open Scope string_scope.

(** The set ["tender_details.embedding"] names no field of a
    recommendation: the dump keeps [tender_details] whole, embedding
    included. *)
Lemma dump_recommendation_keeps_embedding (r : RecommendationSchema.t) :
  exists details,
    Pydantic.get "tender_details"
      (Pydantic.dump_recommendation ["tender_details.embedding"] r)
    = Some (PDict details) /\
    Pydantic.get "embedding" details
    = Some (Pydantic.opt_vector
              (TenderSchema.embedding (RecommendationSchema.tender_details r))).
Proof.
  eexists. split; reflexivity.
Qed.

(** C9 at a store of one tender that carries the embedding [1]: the
    successful response lists one recommendation, and its [tender_details]
    holds the key "embedding" with that vector. *)
Theorem C9_embedding_is_dumped :
  let self :=
    mkAgent (Some (Faiss.mk 1 [[1]]))
            [Tender (Sample.tender "tamil-nadu-tenders-1-0" "Pumps"
                                   (Some [1]))] in
  let response :=
    process_company_profile SampleRun.service Sample.float32_id self
                            (Ok (Sample.company None)) in
  status response = "success" /\
  exists dumped details,
    recommendations response = [dumped] /\
    Pydantic.get "tender_details" dumped = Some (PDict details) /\
    Pydantic.get "embedding" details = Some (PList [PFloat 1]).
Proof.
  split; [reflexivity|].
  eexists. eexists. split; [vm_compute; reflexivity|].
  split; reflexivity.
Qed.

End ExternalRepresentation.

(* ================================================================== *)
(** * Further properties                                                *)
(* ================================================================== *)

(** ** Persistence and appends *)

Section IngestionFacts.
Import Py TenderScraperAgent.

Variable VECTOR_DIMENSION : nat.
Variable service : string -> Ollama.response.
Variable float32 : Q -> Q.

Local Abbreviation get_embedding := (get_embedding VECTOR_DIMENSION service).
Local Abbreviation embedding_for := (embedding_for VECTOR_DIMENSION service).
Local Abbreviation embed_loop := (embed_loop VECTOR_DIMENSION service).
Local Abbreviation _update_index := (_update_index VECTOR_DIMENSION float32).
Local Abbreviation _process_and_store_tenders :=
  (_process_and_store_tenders VECTOR_DIMENSION service float32).
Local Abbreviation consistent :=
  (consistent VECTOR_DIMENSION service float32).
Local Abbreviation disk_consistent :=
  (disk_consistent VECTOR_DIMENSION service float32).
Local Abbreviation step := (step VECTOR_DIMENSION service float32).
Local Abbreviation run := (run VECTOR_DIMENSION service float32).

Lemma get_embedding_for (tender : TenderSchema.t) :
  get_embedding (text_for_embedding tender) = Ok (embedding_for tender).
Proof.
  unfold embedding_for.
  destruct (get_embedding_returns VECTOR_DIMENSION service
              (text_for_embedding tender)) as [[v Hv] _].
  rewrite Hv. reflexivity.
Qed.

(** The loop keeps every tender of the batch, each with its embedding. *)
Lemma embed_loop_all (batch : list TenderSchema.t) :
  forall new_tenders embeddings,
    embed_loop batch new_tenders embeddings
    = (new_tenders
         ++ map (fun t => TenderSchema.set_embedding t (embedding_for t))
                batch,
       embeddings ++ map embedding_for batch).
Proof.
  induction batch as [|t batch IH]; intros new_tenders embeddings; simpl.
  - rewrite !app_nil_r. reflexivity.
  - rewrite get_embedding_for, IH, <- !app_assoc. reflexivity.
Qed.

(** X1: writing index and store and loading them again restores the agent
    that wrote them, provided it has an index and no write fails; a new
    company agent then holds the same index and the same records. *)
Theorem X1_save_load_round_trip
        (self other : agent) (dk : disk) (ix : Faiss.IndexFlatL2) :
  index self = Some ix ->
  let dk' := _save_index_and_tenders self dk no_faults in
  _load_index_and_tenders other dk' = self /\
  CompanyScraperAgentInit.__init__ dk'
  = CompanyScraperAgent.mkAgent
      (Some ix) (map CompanyScraperAgent.Tender (tenders self)).
Proof.
  intro Hi. destruct self as [i ts]. simpl in Hi. subst i.
  split; reflexivity.
Qed.

Lemma X1_save_load_round_trip_witness :
  let self := mkAgent (Some (Faiss.mk 1 [[1]])) [Sample.t0] in
  _load_index_and_tenders __init__
    (_save_index_and_tenders self (mkDisk Absent Unreadable) no_faults)
  = self.
Proof.
  exact (proj1 (@X1_save_load_round_trip
                  (mkAgent (Some (Faiss.mk 1 [[1]])) [Sample.t0]) __init__
                  (mkDisk Absent Unreadable) (Faiss.mk 1 [[1]]) eq_refl)).
Defined.

Lemma forallb_length_map (n : nat) (rows : list (list Q)) :
  forallb (fun row => (List.length row =? n)%nat) (map (map float32) rows)
  = forallb (fun row => (List.length row =? n)%nat) rows.
Proof.
  induction rows as [|r rows IH]; simpl; [reflexivity|].
  rewrite length_map, IH. reflexivity.
Qed.

(** An update of the index completes exactly when every new vector has the
    dimension of the index. *)
Lemma update_index_completes (self : agent) (embeddings : list (list Q)) :
  snd (_update_index self embeddings) = Ok tt <->
  Forall (fun e =>
            List.length e = index_dimension VECTOR_DIMENSION (index self))
         embeddings.
Proof.
  unfold TenderScraperAgent._update_index, np_array2, Faiss.add.
  destruct embeddings as [|row rest]; [simpl; intuition constructor|].
  set (dim := index_dimension VECTOR_DIMENSION (index self)).
  assert (Hd : Faiss.d (match index self with
                        | Some ix => ix
                        | None => Faiss.new VECTOR_DIMENSION
                        end) = dim).
  { unfold dim. destruct (index self); reflexivity. }
  destruct (forallb (fun r => (List.length r =? List.length row)%nat) rest)
    eqn:Esame.
  - rewrite forallb_length_map, Hd.
    destruct (forallb _ (row :: rest)) eqn:Edim; simpl.
    + split; [intros _|reflexivity].
      apply Forall_forall. intros e He.
      rewrite forallb_forall in Edim. apply Nat.eqb_eq, Edim, He.
    + split; [discriminate|]. intro H. exfalso.
      assert (forallb (fun r => (List.length r =? dim)%nat) (row :: rest)
              = true) as Ht; [|congruence].
      apply forallb_forall. intros e He. apply Nat.eqb_eq.
      rewrite Forall_forall in H. auto.
  - simpl. split; [discriminate|]. intro H. exfalso.
    inversion H as [|? ? Hrow Hrest]; subst.
    assert (forallb (fun r => (List.length r =? List.length row)%nat) rest
            = true) as Ht; [|congruence].
    apply forallb_forall. intros e He. apply Nat.eqb_eq.
    rewrite Forall_forall in Hrest. rewrite Hrow. auto.
Qed.

(** Whether a cycle on a batch that is not empty completes is decided by
    the update of the index. *)
Lemma append_outcome
      (self : agent) (dk : disk) (batch : list TenderSchema.t)
      (faults : write_faults) :
  batch <> [] ->
  snd (_process_and_store_tenders self dk batch faults)
  = snd (_update_index
           (mkAgent
              (index (_load_index_and_tenders self dk))
              (tenders (_load_index_and_tenders self dk)
               ++ map (fun t =>
                         TenderSchema.set_embedding t (embedding_for t))
                      batch))
           (map embedding_for batch)).
Proof.
  intro Hne. unfold TenderScraperAgent._process_and_store_tenders.
  rewrite embed_loop_all. simpl app.
  destruct batch as [|t batch]; [contradiction|]. cbn [map].
  match goal with
  | |- context [_update_index ?a ?es] =>
      destruct (_update_index a es) as [self3 [[]|e]]
  end; reflexivity.
Qed.

(** What a completed cycle leaves: the batch at the end of the store, its
    converted embeddings at the end of the index, and both files written
    unless the batch was empty. *)
Lemma append_result
      (self self' : agent) (dk dk' : disk) (batch : list TenderSchema.t)
      (faults : write_faults) :
  _process_and_store_tenders self dk batch faults = (self', dk', Ok tt) ->
  tenders self'
  = tenders (_load_index_and_tenders self dk)
    ++ map (fun t => TenderSchema.set_embedding t (embedding_for t)) batch /\
  index_vectors (index self')
  = index_vectors (index (_load_index_and_tenders self dk))
    ++ map (fun t => map float32 (embedding_for t)) batch /\
  dk' = match batch with
        | [] => dk
        | _ => _save_index_and_tenders self' dk faults
        end.
Proof.
  unfold TenderScraperAgent._process_and_store_tenders.
  rewrite embed_loop_all. simpl app.
  destruct batch as [|t batch].
  - intro H; inversion H; subst. simpl. rewrite !app_nil_r. auto.
  - cbn [map].
    match goal with
    | |- context [_update_index ?a ?es] =>
        destruct (_update_index a es) as [self3 [[]|e]] eqn:E
    end; [|discriminate].
    intro H; inversion H; subst.
    apply update_index_completed in E as (Hv & Ht & _).
    cbn [index tenders] in Hv, Ht. rewrite Hv, Ht.
    change (map (map float32)
              (embedding_for t :: map embedding_for batch))
      with (map (map float32) (map embedding_for (t :: batch))).
    rewrite map_map. auto.
Qed.

(** X2: a scrape cycle completes exactly when the embedding obtained for
    every tender of the batch has the dimension of the index in use (that of
    the loaded index, or VECTOR_DIMENSION when there is none). *)
Theorem X2_append_completes_iff
        (self : agent) (dk : disk) (batch : list TenderSchema.t)
        (faults : write_faults) :
  snd (_process_and_store_tenders self dk batch faults) = Ok tt <->
  Forall (fun t =>
            List.length (embedding_for t)
            = index_dimension VECTOR_DIMENSION
                (index (_load_index_and_tenders self dk)))
         batch.
Proof.
  destruct batch as [|t batch].
  - split; [constructor | reflexivity].
  - rewrite append_outcome by discriminate.
    rewrite update_index_completes. cbn [index].
    rewrite Forall_map. reflexivity.
Qed.

(** X4: an outage of the embedding service does not abort a scrape cycle:
    when the service fails for every tender of the batch and the index in
    use has the configured dimension, the cycle completes and adds one zero
    vector of that dimension per tender. *)
Theorem X4_outage_stores_zero_vectors
        (self : agent) (dk : disk) (batch : list TenderSchema.t)
        (faults : write_faults) :
  (forall t, In t batch ->
             service_failure (service (text_for_embedding t))) ->
  index_dimension VECTOR_DIMENSION
    (index (_load_index_and_tenders self dk)) = VECTOR_DIMENSION ->
  exists self' dk',
    _process_and_store_tenders self dk batch faults = (self', dk', Ok tt) /\
    index_vectors (index self')
    = index_vectors (index (_load_index_and_tenders self dk))
      ++ repeat (map float32 (zeros VECTOR_DIMENSION)) (List.length batch) /\
    List.length (tenders self')
    = (List.length (tenders (_load_index_and_tenders self dk))
       + List.length batch)%nat.
Proof.
  intros Hfail Hdim.
  assert (Hz : forall t, In t batch ->
                         embedding_for t = zeros VECTOR_DIMENSION).
  { intros t Ht. unfold embedding_for.
    rewrite (tender_get_embedding_failure VECTOR_DIMENSION service _
               (Hfail t Ht)). reflexivity. }
  assert (Hok : snd (_process_and_store_tenders self dk batch faults)
                = Ok tt).
  { destruct batch as [|t0 batch0] eqn:Eb; [reflexivity|].
    rewrite append_outcome by discriminate.
    apply update_index_completes. cbn [index].
    apply Forall_map, Forall_forall. intros t Ht.
    rewrite (Hz t Ht), Hdim. apply repeat_length. }
  destruct (_process_and_store_tenders self dk batch faults)
    as [[self' dk'] r] eqn:E.
  simpl in Hok. subst r. exists self', dk'. split; [reflexivity|].
  apply append_result in E as (Ht & Hv & _). split.
  - rewrite Hv. f_equal. clear - Hz.
    induction batch as [|t batch IH]; simpl; [reflexivity|].
    rewrite (Hz t (or_introl eq_refl)). f_equal.
    apply IH. intros t' Ht'. apply Hz. right. exact Ht'.
  - rewrite Ht, length_app, length_map. reflexivity.
Qed.

(** A run without faults in which every event completes keeps the
    installation consistent. *)
Lemma run_consistent (evs : list event) :
  forall st,
    consistent st ->
    Forall fault_free evs ->
    Forall (fun sr => snd sr = Ok tt) (run st evs) ->
    Forall (fun sr => consistent (fst sr)) (run st evs).
Proof.
  induction evs as [|ev evs IH]; intros st Hc Hf Hok; simpl in *;
    [constructor|].
  destruct (step st ev) as [st' r] eqn:E.
  inversion Hf as [|? ? Hev Hevs]; subst.
  inversion Hok as [|? ? Hr Hrs]; subst. simpl in Hr. subst r.
  pose proof (@step_consistent VECTOR_DIMENSION service float32
                st st' ev Hc Hev E) as Hc'.
  constructor; [exact Hc' | apply IH; assumption].
Qed.

(** A company agent started on a consistent data directory holds tender
    records only, as many as the index holds vectors. *)
Lemma company_agent_of_consistent_disk (dk : disk) :
  disk_consistent dk ->
  let a := CompanyScraperAgentInit.__init__ dk in
  Forall is_tender (CompanyScraperAgent.tenders a) /\
  List.length (index_vectors (CompanyScraperAgent.index a))
  = List.length (CompanyScraperAgent.tenders a).
Proof.
  unfold disk_consistent, CompanyScraperAgentInit.__init__,
    CompanyScraperAgentInit._load_index_and_tenders.
  destruct (faiss_index_bin dk), (tenders_pkl dk); simpl;
    try contradiction; intro H.
  - split; [constructor | reflexivity].
  - split.
    + apply Forall_forall. intros o Ho.
      apply in_map_iff in Ho as (t & <- & _). exact I.
    + rewrite length_map. apply (Forall2_length H).
Qed.

End IngestionFacts.

Lemma X4_outage_stores_zero_vectors_witness :
  exists self' dk',
    TenderScraperAgent._process_and_store_tenders 2 SampleRun.service_down
      Sample.float32_id TenderScraperAgent.__init__
      (TenderScraperAgent.mkDisk TenderScraperAgent.Absent
                                 TenderScraperAgent.Absent)
      [Sample.t0; Sample.t1] TenderScraperAgent.no_faults
    = (self', dk', Py.Ok tt) /\
    TenderScraperAgent.index_vectors (TenderScraperAgent.index self')
    = [[0; 0]; [0; 0]].
Proof.
  destruct (@X4_outage_stores_zero_vectors 2 SampleRun.service_down
              Sample.float32_id TenderScraperAgent.__init__
              (TenderScraperAgent.mkDisk TenderScraperAgent.Absent
                                         TenderScraperAgent.Absent)
              [Sample.t0; Sample.t1] TenderScraperAgent.no_faults)
    as (self' & dk' & H & Hv & _).
  - intros t _. exact I.
  - reflexivity.
  - exists self', dk'. split; [exact H | exact Hv].
Defined.

(** ** Matching on a store of tender records *)

Section SortedInput.
Import StableSort.

Variable A : Type.
Variable before : A -> A -> bool.

(** A list already in order is left as it is. *)
Lemma sort_of_sorted (l : list A) :
  StronglySorted (may_precede before) l -> sort before l = l.
Proof.
  induction 1 as [|x l Hs IH Hx]; simpl; [reflexivity|].
  rewrite IH. destruct l as [|y l]; [reflexivity|]. simpl.
  inversion Hx as [|? ? Hy _]; subst. unfold may_precede in Hy.
  rewrite Hy. reflexivity.
Qed.

End SortedInput.

Section MatchingOnTenders.
Import Py CompanyScraperAgent.

Variable float32 : Q -> Q.

Lemma similarity_antitone (d1 d2 : Q) :
  d1 <= d2 -> similarity d2 <= similarity d1.
Proof.
  intro H. unfold similarity, py_max, py_min.
  set (x1 := (1 - d1 / 10) * 100). set (x2 := (1 - d2 / 10) * 100).
  assert (H1 : x1 == 100 - 10 * d1) by (unfold x1; field).
  assert (H2 : x2 == 100 - 10 * d2) by (unfold x2; field).
  assert (x2 <= x1) by (rewrite H1, H2; lra).
  clearbody x1 x2.
  Qcase x1 100; Qcase x2 100; Qcases; lra.
Qed.

Lemma StronglySorted_filter B (R : B -> B -> Prop) (f : B -> bool) l :
  StronglySorted R l -> StronglySorted R (filter f l).
Proof.
  induction 1 as [|x l Hs IH Hx]; simpl; [constructor|].
  destruct (f x); [|exact IH]. constructor; [exact IH|].
  rewrite Forall_forall in *. intros y Hy.
  apply filter_In in Hy as [Hy _]. auto.
Qed.

Lemma StronglySorted_map_scores (built : list RecommendationSchema.t)
      (ns : list (Q * nat)) :
  map RecommendationSchema.similarity_score built
  = map (fun n => similarity (fst n)) ns ->
  StronglySorted (fun n1 n2 => fst n1 <= fst n2) ns ->
  StronglySorted (StableSort.may_precede higher_score) built.
Proof.
  revert ns. induction built as [|r built IH]; intros [|n ns] Hm Hs;
    simpl in Hm; try discriminate; [constructor|].
  inversion Hm as [[Hr Hrest]]. inversion Hs as [|? ? Hs' Hn]; subst.
  constructor; [eapply IH; eauto|].
  rewrite Forall_forall in *. intros r' Hr'.
  unfold StableSort.may_precede, higher_score.
  apply Qlt_bool_false_iff. rewrite Hr.
  apply (in_map RecommendationSchema.similarity_score) in Hr'.
  rewrite Hrest in Hr'. apply in_map_iff in Hr' as (n' & <- & Hn').
  apply similarity_antitone. auto.
Qed.

(** X5: when search and scoring go through, the recommendations come out in
    the order in which the index returned their neighbours: distances are
    ascending and the score falls as the distance grows, so the final sort
    moves nothing and the nearest stored tender comes first. *)
Theorem X5_result_in_neighbour_order
        (self : agent) (company : CompanySchema.t) (top_k : nat)
        ix embedding ns built :
  index self = Some ix ->
  CompanySchema.embedding company = Some embedding ->
  Faiss.search ix (map float32 embedding)
               (Nat.min top_k (Faiss.ntotal ix)) = Ok ns ->
  scoring_loop (tenders self) ns [] = (built, None) ->
  snd (_find_matching_tenders float32 self company top_k) = Ok built.
Proof.
  intros Hi He Hs Hl.
  rewrite (find_matching_of_loop float32 self company top_k Hi He Hs Hl).
  f_equal. unfold sort_recommendations. apply sort_of_sorted.
  apply scoring_loop_completes in Hl as (new & -> & Hm). simpl.
  eapply StronglySorted_map_scores; [exact Hm|].
  apply StronglySorted_filter. eapply search_ascending, Hs.
Qed.

Lemma scoring_loop_well_formed (store : list pyobj) ns :
  forall acc built exc,
    scoring_loop store ns acc = (built, exc) ->
    Forall (well_formed store) acc ->
    Forall (well_formed store) built.
Proof.
  induction ns as [|[distance idx] ns IH]; intros acc built exc H Hacc;
    simpl in H.
  - inversion H; subst. exact Hacc.
  - destruct (idx <? List.length store)%nat; [|eapply IH; eauto].
    destruct (nth_error store idx) as [[tender|]|] eqn:En;
      try (inversion H; subst; exact Hacc).
    eapply IH; [exact H|]. apply Forall_app. split; [exact Hacc|].
    constructor; [|constructor].
    unfold well_formed. simpl.
    split; [eapply nth_error_In, En|].
    pose proof (similarity_range distance). intuition.
Qed.

(** On a store of tender records the loop never raises. *)
Lemma scoring_loop_on_tenders (store : list pyobj) ns :
  Forall is_tender store ->
  forall acc, exists built, scoring_loop store ns acc = (built, None).
Proof.
  intro Hs. induction ns as [|[distance idx] ns IH]; intro acc; simpl;
    [eauto|].
  destruct (idx <? List.length store)%nat eqn:E; [|apply IH].
  destruct (nth_error store idx) as [[tender|]|] eqn:En.
  - apply IH.
  - apply nth_error_In in En. rewrite Forall_forall in Hs.
    destruct (Hs _ En).
  - apply Nat.ltb_lt in E. apply nth_error_None in En. lia.
Qed.

(** X6: every recommendation the engine returns carries a tender that is
    in the store at the time of the query, the id and the title of that
    tender, and a similarity score between 0 and 100. *)
Theorem X6_recommendations_are_of_the_store
        (self : agent) (company : CompanySchema.t) (top_k : nat) log recs :
  _find_matching_tenders float32 self company top_k = (log, Ok recs) ->
  Forall (well_formed (tenders self)) recs.
Proof.
  intro H. pose proof (find_matching_outcome float32 self company top_k) as Ho.
  rewrite H in Ho.
  inversion Ho as [ | | ix emb ns built Hi He Hs Hl]; subst;
    try constructor.
  apply scoring_loop_well_formed in Hl; [|constructor].
  rewrite Forall_forall in *. intros r Hr. apply Hl.
  unfold sort_recommendations in Hr.
  eapply Permutation_in; [apply sort_perm | exact Hr].
Qed.

Lemma ranked_length (ix : Faiss.IndexFlatL2) (q : list Q) :
  List.length (Faiss.ranked ix q) = Faiss.ntotal ix.
Proof.
  rewrite <- (length_map snd), (Permutation_length (ranked_labels ix q)).
  apply length_seq.
Qed.

Lemma ranked_in_range (ix : Faiss.IndexFlatL2) (q : list Q) n :
  In n (Faiss.ranked ix q) -> (snd n < Faiss.ntotal ix)%nat.
Proof.
  intro H. apply (in_map snd) in H.
  apply (Permutation_in _ (ranked_labels ix q)) in H.
  apply in_seq in H. lia.
Qed.

(** X7: on a store of tender records with one vector per record, a query
    of the dimension of the index is answered without error by exactly
    min(top_k, n) recommendations, n being the size of the store. *)
Theorem X7_exact_number_of_recommendations
        (self : agent) (company : CompanySchema.t) (top_k : nat)
        ix embedding :
  index self = Some ix ->
  Forall is_tender (tenders self) ->
  Faiss.ntotal ix = List.length (tenders self) ->
  Faiss.ntotal ix <> 0%nat ->
  top_k <> 0%nat ->
  CompanySchema.embedding company = Some embedding ->
  List.length embedding = Faiss.d ix ->
  exists recs,
    _find_matching_tenders float32 self company top_k = ([], Ok recs) /\
    List.length recs = Nat.min top_k (List.length (tenders self)).
Proof.
  intros Hi Ht Hn Hn0 Hk He Hd.
  set (k := Nat.min top_k (Faiss.ntotal ix)).
  assert (Hs : Faiss.search ix (map float32 embedding) k
               = Ok (firstn k (Faiss.ranked ix (map float32 embedding)))).
  { unfold Faiss.search. rewrite length_map, Hd, Nat.eqb_refl. simpl.
    destruct (k =? 0)%nat eqn:Ek; [|reflexivity].
    apply Nat.eqb_eq in Ek. unfold k in Ek. lia. }
  set (ns := firstn k (Faiss.ranked ix (map float32 embedding))) in *.
  destruct (scoring_loop_on_tenders ns Ht []) as [built Hl].
  exists (sort_recommendations built). split.
  - unfold _find_matching_tenders. rewrite Hi.
    destruct (tenders self) as [|t ts] eqn:Et; [simpl in Hn; lia|].
    destruct (Faiss.ntotal ix =? 0)%nat eqn:E0;
      [apply Nat.eqb_eq in E0; contradiction|].
    unfold matching_body. rewrite He. fold k. rewrite Hs.
    cbn [bind]. rewrite Et, Hl. reflexivity.
  - unfold sort_recommendations. rewrite sort_length.
    apply scoring_loop_completes in Hl as (new & -> & Hm). simpl.
    rewrite <- (length_map RecommendationSchema.similarity_score), Hm.
    rewrite length_map.
    assert (Hall : filter (in_store (tenders self)) ns = ns).
    { apply forallb_filter_id. apply forallb_forall. intros n Hin.
      unfold in_store. apply Nat.ltb_lt. rewrite <- Hn.
      eapply ranked_in_range.
      unfold ns in Hin. rewrite <- (firstn_skipn k (Faiss.ranked _ _)).
      apply in_or_app. left. exact Hin. }
    rewrite Hall. unfold ns. rewrite length_firstn, ranked_length.
    unfold k. rewrite <- Hn. lia.
Qed.

End MatchingOnTenders.

Lemma X5_result_in_neighbour_order_witness :
  snd (CompanyScraperAgent._find_matching_tenders Sample.float32_id
         Sample.matcher3 (Sample.company (Some [0])) 10)
  = Py.Ok (fst (CompanyScraperAgent.scoring_loop
                  (CompanyScraperAgent.tenders Sample.matcher3)
                  [(0, 1%nat); (4, 0%nat); (4, 2%nat)] [])).
Proof.
  apply (@X5_result_in_neighbour_order Sample.float32_id Sample.matcher3
           (Sample.company (Some [0])) 10 Sample.index3 [0]
           [(0, 1%nat); (4, 0%nat); (4, 2%nat)]); reflexivity.
Defined.

Lemma X6_recommendations_are_of_the_store_witness :
  Forall (well_formed (CompanyScraperAgent.tenders Sample.matcher3))
         (CompanyScraperAgent.sort_recommendations
            (fst (CompanyScraperAgent.scoring_loop
                    (CompanyScraperAgent.tenders Sample.matcher3)
                    [(0, 1%nat); (4, 0%nat); (4, 2%nat)] []))).
Proof.
  apply (@X6_recommendations_are_of_the_store Sample.float32_id
           Sample.matcher3 (Sample.company (Some [0])) 10 []).
  reflexivity.
Defined.

Lemma X7_exact_number_of_recommendations_witness :
  exists recs,
    CompanyScraperAgent._find_matching_tenders Sample.float32_id
      Sample.matcher3 (Sample.company (Some [0])) 2 = ([], Py.Ok recs) /\
    List.length recs = 2%nat.
Proof.
  apply (@X7_exact_number_of_recommendations Sample.float32_id
           Sample.matcher3 (Sample.company (Some [0])) 2 Sample.index3 [0]);
    try reflexivity; try discriminate.
  repeat constructor.
Defined.

(** X8: after every event of a run that starts from a consistent
    installation, has no failing write and completes each time, a company
    agent started on the data directory holds tender records only, and as
    many of them as its index holds vectors. *)
Theorem X8_matcher_loads_aligned_store
        (VECTOR_DIMENSION : nat) (service : string -> Ollama.response)
        (float32 : Q -> Q)
        (st : TenderScraperAgent.system)
        (evs : list TenderScraperAgent.event) :
  consistent VECTOR_DIMENSION service float32 st ->
  Forall fault_free evs ->
  Forall (fun sr => snd sr = Py.Ok tt)
         (TenderScraperAgent.run VECTOR_DIMENSION service float32 st evs) ->
  Forall (fun sr =>
            let a :=
              CompanyScraperAgentInit.__init__
                (TenderScraperAgent.the_disk (fst sr)) in
            Forall is_tender (CompanyScraperAgent.tenders a) /\
            List.length
              (TenderScraperAgent.index_vectors (CompanyScraperAgent.index a))
            = List.length (CompanyScraperAgent.tenders a))
         (TenderScraperAgent.run VECTOR_DIMENSION service float32 st evs).
Proof.
  intros Hc Hf Hok.
  eapply Forall_impl; [|apply run_consistent; eassumption].
  intros sr [_ Hd]. eapply company_agent_of_consistent_disk, Hd.
Qed.

Lemma X8_matcher_loads_aligned_store_witness :
  Forall (fun sr =>
            let a :=
              CompanyScraperAgentInit.__init__
                (TenderScraperAgent.the_disk (fst sr)) in
            Forall is_tender (CompanyScraperAgent.tenders a) /\
            List.length
              (TenderScraperAgent.index_vectors (CompanyScraperAgent.index a))
            = List.length (CompanyScraperAgent.tenders a))
         (TenderScraperAgent.run 1 SampleRun.service Sample.float32_id
            TenderScraperAgent.fresh SampleRun.two_cycles).
Proof.
  apply X8_matcher_loads_aligned_store.
  - apply fresh_consistent.
  - repeat constructor.
  - vm_compute. repeat constructor.
Defined.

(** ** Strings and their characters *)

Section Characters.
Import Py.
Local Open Scope string_scope.

Lemma string_app_assoc (a b c : string) : (a ++ b) ++ c = a ++ (b ++ c).
Proof. induction a as [|x a IH]; simpl; [reflexivity | now rewrite IH]. Qed.

Lemma string_app_empty_r (a : string) : a ++ "" = a.
Proof. induction a as [|x a IH]; simpl; [reflexivity | now rewrite IH]. Qed.

Lemma string_length_app (a b : string) :
  length (a ++ b) = (length a + length b)%nat.
Proof. induction a as [|x a IH]; simpl; [reflexivity | now rewrite IH]. Qed.

Lemma take_drop (n : nat) (s : string) : take n s ++ drop n s = s.
Proof.
  revert s. induction n as [|n IH]; intros [|a s]; simpl; auto.
  now rewrite IH.
Qed.

Lemma length_drop (n : nat) (s : string) :
  length (drop n s) = (length s - n)%nat.
Proof.
  revert s. induction n as [|n IH]; intros [|a s]; simpl; auto.
Qed.

Lemma take_app_exact (w t : string) : take (length w) (w ++ t) = w.
Proof.
  induction w as [|a w IH]; simpl; [now destruct t|]. now rewrite IH.
Qed.

Lemma drop_app_exact (w t : string) : drop (length w) (w ++ t) = t.
Proof.
  induction w as [|a w IH]; simpl; [now destruct t | exact IH].
Qed.

Lemma take_all (n : nat) (s : string) :
  (length s <= n)%nat -> take n s = s.
Proof.
  revert s. induction n as [|n IH]; intros [|a s]; simpl; auto; try lia.
  intro H. rewrite IH; [reflexivity | lia].
Qed.

Lemma drop_all (n : nat) (s : string) :
  (length s <= n)%nat -> drop n s = "".
Proof.
  revert s. induction n as [|n IH]; intros [|a s]; simpl; auto; try lia.
  intro H. apply IH. lia.
Qed.

Lemma width_pos (a : ascii) : (1 <= width a)%nat.
Proof.
  unfold width.
  repeat match goal with |- context [if ?b then _ else _] => destruct b end;
    lia.
Qed.

Lemma chars_from_drop (k : nat) (s : string) :
  chars_from k s = chars (drop k s).
Proof.
  revert k. induction s as [|a s IH]; intros [|k]; try reflexivity.
  simpl. apply IH.
Qed.

(** The first character of a string and the characters after it. *)
Lemma chars_cons (a : ascii) (s : string) :
  chars (String a s)
  = take (width a) (String a s) :: chars (drop (width a) (String a s)).
Proof.
  unfold chars at 1. cbn [chars_from]. rewrite chars_from_drop.
  pose proof (width_pos a) as Hw.
  destruct (width a) as [|w]; [lia|]. simpl. now rewrite Nat.sub_0_r.
Qed.

(** Induction along the characters of a string. *)
Lemma chars_ind (P : string -> Prop) :
  P "" ->
  (forall a s, P (drop (width a) (String a s)) -> P (String a s)) ->
  forall s, P s.
Proof.
  intros H0 Hs s.
  assert (H : forall n s, (length s <= n)%nat -> P s).
  { clear s. induction n as [|n IH]; intros [|a s] Hl; auto.
    - simpl in Hl. lia.
    - apply Hs. apply IH. rewrite length_drop.
      pose proof (width_pos a). cbn [length] in *. lia. }
  apply (H (length s)). lia.
Qed.

Lemma join_app (l1 l2 : list string) :
  join (l1 ++ l2)%list = join l1 ++ join l2.
Proof.
  induction l1 as [|c l1 IH]; simpl; [reflexivity|].
  now rewrite IH, string_app_assoc.
Qed.

(** A string is the sequence of its characters. *)
Lemma join_chars (s : string) : join (chars s) = s.
Proof.
  induction s as [|a s IH] using chars_ind; [reflexivity|].
  rewrite chars_cons. cbn [join fold_right].
  fold (join (chars (drop (width a) (String a s)))).
  rewrite IH. apply take_drop.
Qed.

Lemma chars_empty (s : string) : chars s = [] -> s = "".
Proof. intro H. rewrite <- (join_chars s), H. reflexivity. Qed.

Ltac byte_cases :=
  repeat match goal with
         | H : context [if ?b then _ else _] |- _ =>
             let E := fresh "E" in destruct b eqn:E; try discriminate H
         | H : context [match continuation ?b with _ => _ end] |- _ =>
             let E := fresh "E" in
             destruct (continuation b) eqn:E; try discriminate H
         end;
  repeat match goal with
         | H : (_ && _)%bool = true |- _ => apply andb_true_iff in H as [? ?]
         | H : (_ <=? _)%N = true |- _ => apply N.leb_le in H
         | H : (_ <? _)%N = true |- _ => apply N.ltb_lt in H
         end.

Ltac width_is :=
  unfold width;
  repeat match goal with
         | |- context [(?x <? ?y)%N] =>
             let E := fresh "E" in
             destruct (x <? y)%N eqn:E;
             [apply N.ltb_lt in E | apply N.ltb_ge in E]
         end;
  try reflexivity; try lia.

(** A character is as long as its first byte announces. *)
Lemma ord_complete (w : string) (n : N) :
  ord w = Some n ->
  exists a w', w = String a w' /\ length w = width a.
Proof.
  destruct w as [|a [|b1 [|b2 [|b3 [|b4 w]]]]]; cbn [ord]; try discriminate;
    intro H; eexists _, _; (split; [reflexivity|]); cbn [length];
    byte_cases; width_is.
Qed.

(** A character at the head of a string is its first character. *)
Lemma chars_app_char (w t : string) (n : N) :
  ord w = Some n -> chars (w ++ t) = w :: chars t.
Proof.
  intro H. apply ord_complete in H as (a & w' & -> & Hl).
  change (String a w' ++ t) with (String a (w' ++ t)).
  rewrite chars_cons. rewrite <- Hl.
  change (String a (w' ++ t)) with (String a w' ++ t).
  now rewrite take_app_exact, drop_app_exact.
Qed.

Lemma chars_char (w : string) (n : N) : ord w = Some n -> chars w = [w].
Proof.
  intro H. rewrite <- (string_app_empty_r w) at 1.
  now rewrite (@chars_app_char w "" n H).
Qed.

(** The bytes of a character: the one of its code when it is below 128,
    bytes from 128 on otherwise. *)
Lemma ord_bytes (w : string) (n : N) :
  ord w = Some n ->
  all_chars (fun b => (128 <=? byte b)%N || (byte b =? n)%N) w.
Proof.
  assert (Hc : forall b x, continuation b = Some x ->
                           (128 <=? byte b)%N = true).
  { intros b x. unfold continuation.
    destruct ((128 <=? byte b)%N); [reflexivity | discriminate]. }
  destruct w as [|a [|b1 [|b2 [|b3 [|b4 w]]]]]; cbn [ord]; try discriminate;
    intro H; cbn [all_chars].
  - destruct (byte a <? 128)%N; [|discriminate]. inversion H; subst.
    rewrite N.eqb_refl, orb_true_r. auto.
  - destruct (continuation b1) eqn:E1; [|discriminate].
    apply Hc in E1. byte_cases.
    repeat split; apply orb_true_iff; left; apply N.leb_le; lia.
  - destruct (continuation b1) eqn:E1; [|discriminate].
    destruct (continuation b2) eqn:E2; [|discriminate].
    apply Hc in E1, E2. byte_cases.
    repeat split; apply orb_true_iff; left; apply N.leb_le; lia.
  - destruct (continuation b1) eqn:E1; [|discriminate].
    destruct (continuation b2) eqn:E2; [|discriminate].
    destruct (continuation b3) eqn:E3; [|discriminate].
    apply Hc in E1, E2, E3. byte_cases.
    repeat split; apply orb_true_iff; left; apply N.leb_le; lia.
Qed.

Lemma all_chars_app (p : ascii -> bool) (a b : string) :
  all_chars p (a ++ b) <-> all_chars p a /\ all_chars p b.
Proof.
  induction a as [|x a IH]; simpl; [tauto|]. rewrite IH. tauto.
Qed.

Lemma all_chars_impl (p q : ascii -> bool) (s : string) :
  (forall a, p a = true -> q a = true) -> all_chars p s -> all_chars q s.
Proof.
  intro Hpq. induction s as [|x s IH]; simpl; [auto|].
  intros [Hx Hs]. auto.
Qed.

(** The bytes of a character of a string are bytes of the string. *)
Lemma all_chars_char (p : ascii -> bool) (s c : string) :
  all_chars p s -> In c (chars s) -> all_chars p c.
Proof.
  rewrite <- (join_chars s) at 1.
  induction (chars s) as [|c' l IH]; [contradiction|].
  cbn [join fold_right]. rewrite all_chars_app.
  intros [Hc Hl] [<-|Hin]; auto.
Qed.

(** The characters of the first characters of a string. *)
Lemma chars_join_firstn (n : nat) (s : string) :
  chars (join (firstn n (chars s))) = firstn n (chars s).
Proof.
  revert n. induction s as [|a s IH] using chars_ind; intro n.
  - destruct n; reflexivity.
  - destruct n as [|n]; [reflexivity|].
    rewrite chars_cons. cbn [firstn join fold_right].
    set (w := take (width a) (String a s)).
    set (r := drop (width a) (String a s)) in *.
    fold (join (firstn n (chars r))).
    destruct (Nat.le_gt_cases (width a) (length (String a s))) as [Hl|Hl].
    + assert (Hw : length w = width a).
      { pose proof (f_equal length (take_drop (width a) (String a s))) as E.
        rewrite string_length_app, length_drop in E. fold w in E. lia. }
      assert (Hh : w = String a (take (width a - 1) s)).
      { unfold w. pose proof (width_pos a).
        destruct (width a); [lia|]. simpl. now rewrite Nat.sub_0_r. }
      rewrite Hh. cbn [append]. rewrite chars_cons.
      rewrite <- Hh.
      change (String a (take (width a - 1) s ++ join (firstn n (chars r))))
        with (String a (take (width a - 1) s) ++ join (firstn n (chars r))).
      rewrite <- Hh, <- Hw, take_app_exact, drop_app_exact, IH.
      reflexivity.
    + assert (Hr : r = "") by (apply drop_all; lia).
      assert (Hw : w = String a s) by (apply take_all; lia).
      rewrite Hr. replace (firstn n (chars "")) with (@nil string)
        by (destruct n; reflexivity).
      cbn [join fold_right]. rewrite string_app_empty_r, Hw, chars_cons.
      fold w. fold r. rewrite Hr, Hw. reflexivity.
Qed.

Lemma chars_prefix (s : string) (l1 l2 : list string) :
  chars s = (l1 ++ l2)%list -> chars (join l1) = l1.
Proof.
  intro H. pose proof (chars_join_firstn (List.length l1) s) as E.
  rewrite H, firstn_app, Nat.sub_diag, firstn_all in E.
  cbn [firstn] in E. rewrite app_nil_r in E. exact E.
Qed.

Lemma chars_suffix (s : string) (l1 l2 : list string) :
  chars s = (l1 ++ l2)%list -> chars (join l2) = l2.
Proof.
  revert l1. induction s as [|a s IH] using chars_ind; intros l1 H.
  - destruct l1, l2; try discriminate. reflexivity.
  - destruct l1 as [|c l1].
    + cbn [app] in H. rewrite <- H, join_chars. reflexivity.
    + rewrite chars_cons in H. inversion H. eapply IH. eassumption.
Qed.

Lemma lstrip_chars_suffix (l : list string) :
  exists l1, l = (l1 ++ lstrip_chars l)%list.
Proof.
  induction l as [|c l [l1 IH]]; [exists []; reflexivity|].
  cbn [lstrip_chars]. destruct (holds is_space c).
  - exists (c :: l1). cbn [app]. now rewrite <- IH.
  - exists []. reflexivity.
Qed.

Lemma rstrip_chars_prefix (l : list string) :
  exists l2, l = (rstrip_chars l ++ l2)%list.
Proof.
  induction l as [|c l [l2 IH]]; [exists []; reflexivity|].
  cbn [rstrip_chars]. destruct (rstrip_chars l) as [|c' r].
  - destruct (holds is_space c).
    + exists (c :: l). reflexivity.
    + exists l. reflexivity.
  - exists l2. cbn [app] in *. now rewrite <- IH.
Qed.

Lemma chars_lstrip (s : string) : chars (lstrip s) = lstrip_chars (chars s).
Proof.
  destruct (lstrip_chars_suffix (chars s)) as [l1 H].
  exact (@chars_suffix _ _ _ H).
Qed.

Lemma chars_strip (s : string) :
  chars (strip s) = rstrip_chars (lstrip_chars (chars s)).
Proof.
  destruct (rstrip_chars_prefix (lstrip_chars (chars s))) as [l2 H].
  rewrite <- chars_lstrip in H at 1.
  exact (@chars_prefix _ _ _ H).
Qed.

Lemma chars_slice_to (n : nat) (s : string) :
  chars (slice_to n s) = firstn n (chars s).
Proof. apply chars_join_firstn. Qed.

End Characters.

(** ** The matcher and the language of a pattern *)

Section MatcherSoundness.
Import Re.
Local Open Scope string_scope.

Lemma substring_0_empty (s : string) : substring 0 0 s = "".
Proof. destruct s; reflexivity. Qed.

Lemma substring_prefix (w s : string) : substring 0 (length w) (w ++ s) = w.
Proof.
  induction w as [|x w IH]; simpl; [apply substring_0_empty|].
  now rewrite IH.
Qed.

Lemma captured_prefix (w s : string) :
  substring 0 (length (w ++ s) - length s) (w ++ s) = w.
Proof.
  rewrite string_length_app.
  replace (length w + length s - length s)%nat with (length w) by lia.
  apply substring_prefix.
Qed.

Lemma orelse_assoc (c2 c1 g : option string) :
  orelse (orelse c2 c1) g = orelse c2 (orelse c1 g).
Proof. destruct c2; reflexivity. Qed.

Lemma char_test_inv (p : N -> bool) A s (k : string -> option A) x :
  char_test p s k = Some x ->
  exists w a s',
    s = w ++ s' /\ Py.ord w = Some a /\ p a = true /\ k s' = Some x.
Proof.
  destruct s as [|b s0]; unfold char_test; [discriminate|].
  unfold Py.holds.
  destruct (Py.ord (Py.take (Py.width b) (String b s0))) as [a|] eqn:Eo;
    [|discriminate].
  destruct (p a) eqn:E; [|discriminate]. intro H.
  exists (Py.take (Py.width b) (String b s0)), a,
    (Py.drop (Py.width b) (String b s0)).
  rewrite take_drop. auto.
Qed.

(** What a successful match has consumed is a text of the language of the
    pattern, and the continuation was called on the rest with the group that
    text leaves. *)
Lemma m_sound (r : regex) :
  forall A s g (k : string -> option string -> option A) x,
    m r s g k = Some x ->
    exists w c s',
      s = w ++ s' /\ matches r w c /\ k s' (orelse c g) = Some x.
Proof.
  induction r; intros A s g k x H; simpl in H.
  - exists "", None, s. repeat split; [apply matches_eps | exact H].
  - apply char_test_inv in H as (w & a & s' & -> & Ho & Hp & H).
    exists w, None, s'. repeat split; [|exact H].
    apply matches_lit with a; assumption.
  - apply char_test_inv in H as (w & a & s' & -> & Ho & Hp & H).
    exists w, None, s'. repeat split; [|exact H].
    apply matches_digit with a; assumption.
  - apply char_test_inv in H as (w & a & s' & -> & Ho & Hp & H).
    exists w, None, s'. repeat split; [|exact H].
    apply matches_space with a; assumption.
  - apply char_test_inv in H as (w & a & s' & -> & Ho & Hp & H).
    exists w, None, s'. repeat split; [|exact H].
    apply matches_digit_or_comma with a; assumption.
  - apply IHr1 in H as (w1 & c1 & s1 & -> & Hm1 & H).
    apply IHr2 in H as (w2 & c2 & s2 & -> & Hm2 & H).
    exists (w1 ++ w2), (orelse c2 c1), s2.
    rewrite string_app_assoc, orelse_assoc.
    repeat split; [apply matches_seq; assumption | exact H].
  - destruct (m r1 s g k) eqn:E.
    + inversion H; subst.
      apply IHr1 in E as (w & c & s' & -> & Hm & E).
      exists w, c, s'. repeat split; [apply matches_alt_l, Hm | exact E].
    + apply IHr2 in H as (w & c & s' & -> & Hm & H).
      exists w, c, s'. repeat split; [apply matches_alt_r, Hm | exact H].
  - destruct (m r s g k) eqn:E.
    + inversion H; subst.
      apply IHr in E as (w & c & s' & -> & Hm & E).
      exists w, c, s'. repeat split; [apply matches_opt_some, Hm | exact E].
    + exists "", None, s. repeat split; [apply matches_opt_none | exact H].
  - change (star_loop r k (length s) s g = Some x) in H.
    revert H. generalize (length s) at 1. intro fuel. revert s g.
    induction fuel as [|fuel IHf]; intros s g H; simpl in H.
    + exists "", None, s.
      repeat split; [apply matches_star_nil | exact H].
    + match type of H with
      | match ?c with _ => _ end = _ => destruct c eqn:E
      end.
      * inversion H; subst.
        apply IHr in E as (w1 & c1 & s1 & -> & Hm1 & E).
        destruct (length s1 <? length (w1 ++ s1))%nat; [|discriminate].
        apply IHf in E as (w2 & c2 & s2 & -> & Hm2 & E).
        exists (w1 ++ w2), (orelse c2 c1), s2.
        rewrite string_app_assoc, orelse_assoc.
        repeat split; [apply matches_star_cons; assumption | exact E].
      * exists "", None, s.
        repeat split; [apply matches_star_nil | exact H].
  - apply IHr in H as (w1 & c1 & s1 & -> & Hm1 & H).
    change (star_loop r k (length s1) s1 (orelse c1 g) = Some x) in H.
    assert (Hloop : forall fuel s0 g0,
               star_loop r k fuel s0 g0 = Some x ->
               exists w c s',
                 s0 = w ++ s' /\ matches (Star r) w c /\
                 k s' (orelse c g0) = Some x).
    { induction fuel as [|fuel IHf]; intros s0 g0 H0; simpl in H0.
      - exists "", None, s0.
        repeat split; [apply matches_star_nil | exact H0].
      - match type of H0 with
        | match ?c with _ => _ end = _ => destruct c eqn:E
        end.
        + inversion H0; subst.
          apply IHr in E as (w2 & c2 & s2 & -> & Hm2 & E).
          destruct (length s2 <? length (w2 ++ s2))%nat; [|discriminate].
          apply IHf in E as (w3 & c3 & s3 & -> & Hm3 & E).
          exists (w2 ++ w3), (orelse c3 c2), s3.
          rewrite string_app_assoc, orelse_assoc.
          repeat split; [apply matches_star_cons; assumption | exact E].
        + exists "", None, s0.
          repeat split; [apply matches_star_nil | exact H0]. }
    apply Hloop in H as (w2 & c2 & s2 & -> & Hm2 & H).
    exists (w1 ++ w2), (orelse c2 c1), s2.
    rewrite string_app_assoc, orelse_assoc.
    repeat split; [apply matches_plus; assumption | exact H].
  - apply IHr in H as (w & c & s' & -> & Hm & H).
    rewrite captured_prefix in H.
    exists w, (Some w), s'.
    repeat split; [apply matches_group with c; exact Hm | exact H].
Qed.

(** A search reports a text of the language of the pattern that occurs in
    the subject, with the group that text leaves. *)
Lemma search_sound (r : regex) (text : string) (mo : match_object) :
  search r text = Some mo ->
  exists before w after,
    text = before ++ w ++ after /\ matches r w (group1 mo).
Proof.
  unfold search. generalize 0%nat.
  assert (Hh : forall s mo',
             match_here r s = Some mo' ->
             exists before w after,
               s = before ++ w ++ after /\ matches r w (group1 mo')).
  { intros s mo' E. unfold match_here in E.
    apply m_sound in E as (w & c & s' & Hs & Hm & E).
    inversion E; subst. exists "", w, s'. simpl.
    destruct c; simpl in *; auto. }
  induction text as [|a text IH]; intros skip; simpl.
  - destruct skip; destruct (match_here r _) as [mo'|] eqn:E; intro H;
      try discriminate; inversion H; subst; apply Hh; exact E.
  - assert (Ht : forall k,
               search_from k r text = Some mo ->
               exists before w after,
                 String a text = before ++ w ++ after /\
                 matches r w (group1 mo)).
    { intros k H. apply IH in H as (before & w & after & -> & Hm).
      exists (String a before), w, after. auto. }
    destruct skip as [|skip]; [|apply Ht].
    destruct (match_here r _) as [mo'|] eqn:E; intro H.
    + inversion H; subst. apply Hh; exact E.
    + eapply Ht; exact H.
Qed.

End MatcherSoundness.

(** ** Dates and amounts found in a text *)

Section ExtractedText.
Import Re.
Local Open Scope string_scope.

Lemma admits_alphabet (r r' : regex) (b : ascii) :
  (forall a, alphabet r a = true -> alphabet r' a = true) ->
  admits r b = true -> admits r' b = true.
Proof.
  unfold admits. intros Ha H. apply orb_true_iff in H as [H|H].
  - rewrite H. reflexivity.
  - rewrite (Ha _ H). apply orb_true_r.
Qed.

Lemma char_admitted (r : regex) (w : string) (a : N) :
  Py.ord w = Some a -> alphabet r a = true -> all_chars (admits r) w.
Proof.
  intros Ho Ha. eapply all_chars_impl; [|apply (@ord_bytes _ _ Ho)].
  intros b H. unfold admits. apply orb_true_iff in H as [H|H].
  - rewrite H. reflexivity.
  - apply N.eqb_eq in H. rewrite H, Ha. apply orb_true_r.
Qed.

(** A text of the language of a pattern, and the group it leaves, are
    written with the bytes the pattern admits. *)
Lemma matches_bytes r w c :
  matches r w c ->
  all_chars (admits r) w /\
  forall u, c = Some u -> all_chars (admits r) u.
Proof.
  induction 1 as
    [ | c w a Ho Ha | w a Ho Ha | w a Ho Ha | w a Ho Ha
      | r1 r2 w1 w2 c1 c2 H1 [IH1 IH1'] H2 [IH2 IH2']
      | r1 r2 w c H [IH IH'] | r1 r2 w c H [IH IH']
      | r w c H [IH IH'] | r | r
      | r w1 w2 c1 c2 H1 [IH1 IH1'] H2 [IH2 IH2']
      | r w1 w2 c1 c2 H1 [IH1 IH1'] H2 [IH2 IH2']
      | r w c H [IH IH'] ].
  - split; [exact I | discriminate].
  - split; [|discriminate]. eapply char_admitted; eauto.
  - split; [|discriminate]. eapply char_admitted; eauto.
  - split; [|discriminate]. eapply char_admitted; eauto.
  - split; [|discriminate]. eapply char_admitted; eauto.
  - assert (M1 : forall b, admits r1 b = true -> admits (Seq r1 r2) b = true)
      by (intro b; apply admits_alphabet; simpl; intros a ->; reflexivity).
    assert (M2 : forall b, admits r2 b = true -> admits (Seq r1 r2) b = true)
      by (intro b; apply admits_alphabet; simpl; intros a ->;
          apply orb_true_r).
    split.
    + apply all_chars_app.
      split; eapply all_chars_impl;
        [exact M1 | exact IH1 | exact M2 | exact IH2].
    + intros u Hu. destruct c2 as [u2|]; simpl in Hu.
      * eapply all_chars_impl; [exact M2 | auto].
      * eapply all_chars_impl; [exact M1 | auto].
  - assert (M : forall b, admits r1 b = true -> admits (Alt r1 r2) b = true)
      by (intro b; apply admits_alphabet; simpl; intros a ->; reflexivity).
    split; [|intros u Hu]; (eapply all_chars_impl; [exact M | auto]).
  - assert (M : forall b, admits r2 b = true -> admits (Alt r1 r2) b = true)
      by (intro b; apply admits_alphabet; simpl; intros a ->;
          apply orb_true_r).
    split; [|intros u Hu]; (eapply all_chars_impl; [exact M | auto]).
  - auto.
  - split; [exact I | discriminate].
  - split; [exact I | discriminate].
  - split.
    + apply all_chars_app. auto.
    + intros u Hu. destruct c2; simpl in Hu; auto.
  - split.
    + apply all_chars_app. auto.
    + intros u Hu. destruct c2; simpl in Hu; auto.
  - split; [exact IH|]. intros u Hu. inversion Hu; subst. exact IH.
Qed.

Lemma holds_impl (p q : N -> bool) (c : string) :
  (forall a, p a = true -> q a = true) ->
  Py.holds p c = true -> Py.holds q c = true.
Proof.
  unfold Py.holds. intro H. destruct (Py.ord c); [apply H | auto].
Qed.

Lemma all_of_impl (p q : N -> bool) (s : string) :
  (forall a, p a = true -> q a = true) -> all_of p s -> all_of q s.
Proof.
  intros H. unfold all_of. apply Forall_impl. intro c.
  apply holds_impl, H.
Qed.

(** The characters of a text of the language of a pattern: they are whole,
    at least as many as the least length of the pattern, and of its
    alphabet, and so are those of the group the text leaves. *)
Lemma matches_chars r w c :
  matches r w c ->
  (forall t, Py.chars (w ++ t) = (Py.chars w ++ Py.chars t)%list) /\
  all_of (alphabet r) w /\
  (min_length r <= Py.len w)%nat /\
  forall u, c = Some u -> all_of (alphabet r) u.
Proof.
  assert (Hchar : forall r w a,
             Py.ord w = Some a -> alphabet r a = true ->
             min_length r = 1%nat ->
             (forall t, Py.chars (w ++ t) = (Py.chars w ++ Py.chars t)%list)
             /\ all_of (alphabet r) w /\ (min_length r <= Py.len w)%nat /\
             forall u, @None string = Some u -> all_of (alphabet r) u).
  { intros r0 w0 a Ho Ha Hm. unfold all_of, Py.len.
    rewrite (@chars_char _ _ Ho), Hm.
    split; [intro t; rewrite (@chars_app_char w0 t a Ho); reflexivity|].
    split; [|split; [simpl; lia | discriminate]].
    constructor; [|constructor]. unfold Py.holds. now rewrite Ho. }
  induction 1 as
    [ | c w a Ho Ha | w a Ho Ha | w a Ho Ha | w a Ho Ha
      | r1 r2 w1 w2 c1 c2 H1 (A1 & B1 & L1 & G1) H2 (A2 & B2 & L2 & G2)
      | r1 r2 w c H (A & B & L & G) | r1 r2 w c H (A & B & L & G)
      | r w c H (A & B & L & G) | r | r
      | r w1 w2 c1 c2 H1 (A1 & B1 & L1 & G1) H2 (A2 & B2 & L2 & G2)
      | r w1 w2 c1 c2 H1 (A1 & B1 & L1 & G1) H2 (A2 & B2 & L2 & G2)
      | r w c H (A & B & L & G) ].
  - unfold all_of, Py.len. simpl.
    repeat split; auto; try lia; discriminate.
  - eapply Hchar; eauto.
  - eapply Hchar; eauto.
  - eapply Hchar; eauto.
  - eapply Hchar; eauto.
  - assert (M1 : forall a, alphabet r1 a = true ->
                           alphabet (Seq r1 r2) a = true)
      by (simpl; intros a ->; reflexivity).
    assert (M2 : forall a, alphabet r2 a = true ->
                           alphabet (Seq r1 r2) a = true)
      by (simpl; intros a ->; apply orb_true_r).
    split; [|split; [|split]].
    + intro t. rewrite string_app_assoc, A1, A2, (A1 w2).
      now rewrite <- app_assoc.
    + unfold all_of. rewrite A1. apply Forall_app.
      split; [apply (@all_of_impl _ _ _ M1 B1)
             | apply (@all_of_impl _ _ _ M2 B2)].
    + unfold Py.len in *. rewrite A1, length_app. simpl. lia.
    + intros u Hu. destruct c2 as [u2|]; simpl in Hu.
      * eapply all_of_impl; [exact M2 | auto].
      * eapply all_of_impl; [exact M1 | auto].
  - assert (M : forall a, alphabet r1 a = true ->
                          alphabet (Alt r1 r2) a = true)
      by (simpl; intros a ->; reflexivity).
    split; [exact A|]. split; [apply (@all_of_impl _ _ _ M B)|].
    split; [simpl; lia|]. intros u Hu. eapply all_of_impl; [exact M | auto].
  - assert (M : forall a, alphabet r2 a = true ->
                          alphabet (Alt r1 r2) a = true)
      by (simpl; intros a ->; apply orb_true_r).
    split; [exact A|]. split; [apply (@all_of_impl _ _ _ M B)|].
    split; [simpl; lia|]. intros u Hu. eapply all_of_impl; [exact M | auto].
  - repeat split; auto. simpl. lia.
  - unfold all_of, Py.len. simpl.
    repeat split; auto; try lia; discriminate.
  - unfold all_of, Py.len. simpl.
    repeat split; auto; try lia; discriminate.
  - split; [|split; [|split]].
    + intro t. rewrite string_app_assoc, A1, A2, (A1 w2).
      now rewrite <- app_assoc.
    + unfold all_of. rewrite A1. apply Forall_app. split; assumption.
    + simpl. lia.
    + intros u Hu. destruct c2; simpl in Hu; auto.
  - split; [|split; [|split]].
    + intro t. rewrite string_app_assoc, A1, A2, (A1 w2).
      now rewrite <- app_assoc.
    + unfold all_of. rewrite A1. apply Forall_app. split; assumption.
    + unfold Py.len in *. rewrite A1, length_app. simpl. lia.
    + intros u Hu. destruct c2; simpl in Hu; auto.
  - repeat split; auto. intros u Hu. inversion Hu; subst. exact B.
Qed.

Lemma starts_with_digit_app (a b : string) (n : N) :
  Py.ord a = Some n -> Py.is_digit n = true -> starts_with_digit (a ++ b).
Proof.
  intros Ho Hd. unfold starts_with_digit.
  rewrite (@chars_app_char a b n Ho). unfold Py.holds. now rewrite Ho.
Qed.

(** The two date patterns are one group around a text that begins with one
    or two digits. *)
Lemma date_starts_with_digit rest w c :
  matches (Group (Seq FirecrawlDates.digits_1_2 rest)) w c ->
  c = Some w /\ starts_with_digit w.
Proof.
  intro H. inversion H as [| | | | | | | | | | | | |? ? ? Hg]; subst.
  split; [reflexivity|].
  inversion Hg as [| | | | |? ? w1 w2 ? ? H1 H2| | | | | | | |]; subst.
  inversion H1 as [| | | | |? ? wa wb ? ? Ha Hb| | | | | | | |]; subst.
  inversion Ha; subst. rewrite !string_app_assoc.
  eapply starts_with_digit_app; eassumption.
Qed.

Lemma extract_date_from_pattern (text d : string) :
  FirecrawlDates._extract_date text = Some d ->
  exists pattern mo,
    In pattern FirecrawlDates.date_patterns /\
    search pattern text = Some mo /\ group1 mo = Some d.
Proof.
  unfold FirecrawlDates._extract_date, FirecrawlDates.date_patterns.
  cbn [FirecrawlDates.first_group].
  destruct (search FirecrawlDates.date_numeric text) as [mo|] eqn:E1.
  - intro H. exists FirecrawlDates.date_numeric, mo. simpl. auto.
  - destruct (search FirecrawlDates.date_month text) as [mo|] eqn:E2;
      [|discriminate].
    intro H. exists FirecrawlDates.date_month, mo. simpl. auto.
Qed.

(** X9: a date is returned verbatim: it is a piece of the text, of one of
    the two date patterns. *)
Theorem X9_date_occurs_in_text (text d : string) :
  FirecrawlDates._extract_date text = Some d ->
  occurs_in d text /\
  exists pattern c,
    In pattern FirecrawlDates.date_patterns /\ matches pattern d c.
Proof.
  intro H. apply extract_date_from_pattern in H as (p & mo & Hp & Hs & Hg).
  apply search_sound in Hs as (before & w & after & -> & Hm).
  rewrite Hg in Hm.
  assert (w = d) as ->.
  { destruct Hp as [<-|[<-|[]]];
      apply date_starts_with_digit in Hm as [Hc _]; congruence. }
  split; [exists before, after; reflexivity|].
  exists p, (Some d). auto.
Qed.

Lemma X9_date_occurs_in_text_witness :
  occurs_in "15/08/2024" "Submit by 15/08/2024".
Proof.
  apply (@X9_date_occurs_in_text "Submit by 15/08/2024" "15/08/2024").
  vm_compute. reflexivity.
Defined.

(** X10: a date that is returned begins with a decimal digit, has at least
    6 characters, and is written with characters of the two patterns only
    (decimal digits, white space, slashes, hyphens and letters): no calendar
    check is made on it. *)
Theorem X10_date_shape (text d : string) :
  FirecrawlDates._extract_date text = Some d ->
  starts_with_digit d /\
  (6 <= Py.len d)%nat /\
  all_of (fun a => alphabet FirecrawlDates.date_numeric a
                   || alphabet FirecrawlDates.date_month a) d.
Proof.
  intro H. apply extract_date_from_pattern in H as (p & mo & Hp & Hs & Hg).
  apply search_sound in Hs as (before & w & after & _ & Hm).
  rewrite Hg in Hm.
  pose proof (@matches_chars _ _ _ Hm) as (_ & _ & Hlen & Halpha).
  specialize (Halpha d eq_refl).
  destruct Hp as [<-|[<-|[]]];
    pose proof Hm as Hm';
    apply date_starts_with_digit in Hm' as [Hc Hd];
    inversion Hc; subst w.
  - split; [exact Hd|]. split; [exact Hlen|].
    eapply all_of_impl; [|exact Halpha]. intros a ->. reflexivity.
  - split; [exact Hd|]. split; [simpl in Hlen; lia|].
    eapply all_of_impl; [|exact Halpha]. intros a ->.
    apply orb_true_r.
Qed.

Lemma X10_date_shape_witness :
  starts_with_digit "5 Jan 2025" /\ (6 <= Py.len "5 Jan 2025")%nat.
Proof.
  destruct (@X10_date_shape "Deadline: 5 Jan 2025" "5 Jan 2025")
    as (H1 & H2 & _); [vm_compute; reflexivity|].
  split; assumption.
Defined.

(** White space, digits and letters beyond ASCII: a no-break space after
    the currency marker, a date in Devanagari digits, and a unit word
    written with the Kelvin sign, whose lowercase is the letter k. *)
Example amount_after_no_break_space :
  returns (FirecrawlWrapper._extract_amount ("Rs." ++ Py.chr 160 ++ "5,000"))
          5000.
Proof. vm_compute. reflexivity. Qed.

Example date_in_devanagari_digits :
  let five := Py.chr 2411 in
  let year := Py.chr 2408 ++ Py.chr 2406 ++ Py.chr 2408 ++ five in
  FirecrawlDates._extract_date ("due " ++ five ++ "-" ++ five ++ "-" ++ year)
  = Some (five ++ "-" ++ five ++ "-" ++ year).
Proof. vm_compute. reflexivity. Qed.

Example unit_word_with_kelvin_sign :
  returns (FirecrawlWrapper._extract_amount ("5 la" ++ Py.chr 8490 ++ "h"))
          500000.
Proof. vm_compute. reflexivity. Qed.

Lemma decimal_nonneg (c : N) (d : Z) : Py.decimal c = Some d -> (0 <= d)%Z.
Proof.
  unfold Py.decimal. destruct (find _ _); [|discriminate].
  intro H. inversion H. apply N2Z.is_nonneg.
Qed.

Lemma read_digits_nonneg (l : list string) :
  forall acc n ip ni rest,
    (0 <= acc)%Z ->
    Py.read_digits l acc n = (ip, ni, rest) -> (0 <= ip)%Z.
Proof.
  induction l as [|c l IH]; intros acc n ip ni rest Hacc;
    cbn [Py.read_digits].
  - intro H; inversion H; subst. exact Hacc.
  - destruct (Py.digit c) as [d|] eqn:E.
    + intro H. eapply IH; [|exact H].
      unfold Py.digit in E. destruct (Py.ord c); [|discriminate].
      apply decimal_nonneg in E. lia.
    + intro H; inversion H; subst. exact Hacc.
Qed.

Lemma float_unsigned_nonneg (l : list string) (x : Q) :
  Py.float_unsigned l = Some x -> 0 <= x.
Proof.
  unfold Py.float_unsigned.
  destruct (Py.read_digits l 0 0) as [[ip ni] rest] eqn:E1.
  apply read_digits_nonneg in E1; [|lia].
  assert (Hip : 0 <= inject_Z ip) by (unfold Qle; simpl; lia).
  destruct rest as [|c rest'].
  - destruct (ni =? 0)%nat; intro H; inversion H; subst. exact Hip.
  - destruct (String.eqb c ".").
    + destruct (Py.read_digits rest' 0 0) as [[fp nf] rest''] eqn:E2.
      apply read_digits_nonneg in E2; [|lia].
      destruct (_ || _); intro H; inversion H; subst.
      assert (0 <= fp # 10 ^ Pos.of_nat nf) by (unfold Qle; simpl; lia).
      lra.
    + destruct ((ni =? 0)%nat || _); intro H; inversion H; subst.
      exact Hip.
Qed.

Lemma skip_space_incl (l : list string) (c : string) :
  In c (Py.skip_space l) -> In c l.
Proof.
  induction l as [|c' l IH]; cbn [Py.skip_space]; [auto|].
  destruct (Py.holds Py.float_space c'); [right; auto | auto].
Qed.

Lemma all_chars_remove_char (p : ascii -> bool) (c : ascii) (s : string) :
  all_chars p s -> all_chars p (Py.remove_char c s).
Proof.
  induction s as [|a s IH]; simpl; [auto|].
  intros [Ha Hs]. destruct (Ascii.eqb a c); simpl; auto.
Qed.

(** A text without minus sign is not parsed as a negative number. *)
Lemma float_nonneg (s : string) (x : Q) :
  all_chars not_minus s -> Py.float s = Some x -> 0 <= x.
Proof.
  intro Hs. unfold Py.float.
  destruct (Py.skip_space (Py.chars s)) as [|c l] eqn:E; [discriminate|].
  destruct (String.eqb c "-") eqn:Em.
  { apply String.eqb_eq in Em. subst c.
    assert (Hin : In "-" (Py.chars s))
      by (apply skip_space_incl; rewrite E; left; reflexivity).
    apply (@all_chars_char _ _ _ Hs) in Hin. destruct Hin as [Hm _].
    discriminate Hm. }
  destruct (String.eqb c "+"); apply float_unsigned_nonneg.
Qed.

Lemma apply_multiplier_nonneg (text : string) (x : Q) :
  0 <= x -> 0 <= apply_multiplier text x.
Proof.
  intro H. unfold apply_multiplier.
  destruct (Py.contains "lakh" _); [lra|].
  destruct (_ || _); lra.
Qed.

(** What a pattern without minus sign in its alphabet yields is not
    negative. *)
Lemma parsed_nonneg (pattern : regex) (text : string) (x : Q) :
  alphabet pattern 45 = false ->
  parsed pattern text = Some x -> 0 <= x.
Proof.
  intros Ha. unfold parsed.
  destruct (search pattern text) as [mo|] eqn:Es; [|discriminate].
  apply search_sound in Es as (before & w & after & _ & Hm).
  apply matches_bytes in Hm as [_ Hg].
  unfold FirecrawlWrapper.amount_str_of.
  destruct (group1 mo) as [u|]; [|discriminate].
  apply float_nonneg, all_chars_remove_char.
  eapply all_chars_impl; [|apply Hg; reflexivity].
  intros a Hin. unfold not_minus.
  destruct (Ascii.eqb a "-") eqn:E; [|reflexivity].
  apply Ascii.eqb_eq in E. subst a.
  unfold admits in Hin. change (Py.byte "-") with 45%N in Hin.
  rewrite Ha in Hin. discriminate Hin.
Qed.

(** X11: an extracted amount is never negative, whatever the text: the
    literal a pattern captures holds no minus sign and the multipliers are
    positive. *)
Theorem X11_amount_not_negative (text : string) (amount : Q) :
  FirecrawlWrapper._extract_amount text = Some amount -> 0 <= amount.
Proof.
  unfold FirecrawlWrapper._extract_amount, FirecrawlWrapper.amount_patterns.
  rewrite !extract_with_cons. cbn [FirecrawlWrapper.extract_with].
  destruct (parsed FirecrawlWrapper.pattern_currency text) as [x|] eqn:E1.
  - intro H; inversion H; subst.
    apply apply_multiplier_nonneg. eapply parsed_nonneg; [|exact E1].
    vm_compute. reflexivity.
  - destruct (parsed FirecrawlWrapper.pattern_magnitude text) as [x|] eqn:E2;
      [|discriminate].
    intro H; inversion H; subst.
    apply apply_multiplier_nonneg. eapply parsed_nonneg; [|exact E2].
    vm_compute. reflexivity.
Qed.

Lemma X11_amount_not_negative_witness :
  0 <= apply_multiplier "Rs. 2,500 lakh" 2500.
Proof.
  apply (@X11_amount_not_negative "Rs. 2,500 lakh").
  vm_compute. reflexivity.
Defined.

End ExtractedText.

(** ** The heuristic extraction of company information *)

Section Heuristics.
Import Py CompanyExtraction.
Local Open Scope string_scope.

Lemma first_five_or_length (default : string) (xs : list string) :
  (1 <= List.length (first_five_or default xs) <= 5)%nat.
Proof.
  destruct xs as [|x xs]; [simpl; lia|].
  unfold first_five_or. rewrite length_firstn. simpl List.length. lia.
Qed.

Lemma first_five_or_In (default : string) (xs : list string) (e : string) :
  In e (first_five_or default xs) -> e = default \/ In e xs.
Proof.
  destruct xs as [|x xs].
  - simpl. intros [<-|[]]. auto.
  - unfold first_five_or. intro H. right.
    rewrite <- (firstn_skipn 5 (x :: xs)). apply in_or_app. auto.
Qed.

(** X12: the heuristic extraction always returns between one and five
    services, capabilities and areas of expertise. *)
Theorem X12_lists_of_one_to_five (text : string) :
  let c := _basic_company_extraction text in
  (1 <= List.length (CompanySchema.services c) <= 5)%nat /\
  (1 <= List.length (CompanySchema.capabilities c) <= 5)%nat /\
  (1 <= List.length (CompanySchema.expertise c) <= 5)%nat.
Proof.
  unfold _basic_company_extraction.
  destruct (bucket_loop _ [] [] []) as [[s c] e]. simpl.
  repeat split; apply first_five_or_length.
Qed.

Lemma prefix_app (a b : string) : prefix a (a ++ b) = true.
Proof.
  induction a as [|x a IH]; simpl; [now destruct b|].
  rewrite IH. destruct (ascii_dec x x); [reflexivity | contradiction].
Qed.

Lemma prefix_slice_to (n : nat) (s : string) : prefix (slice_to n s) s = true.
Proof.
  unfold slice_to. rewrite <- (join_chars s) at 2.
  rewrite <- (firstn_skipn n (chars s)) at 2.
  rewrite join_app. apply prefix_app.
Qed.

(** X13: the description of the heuristic extraction is the beginning of
    the text, cut after its first 500 characters. *)
Theorem X13_description_is_a_prefix (text : string) :
  let c := _basic_company_extraction text in
  prefix (CompanySchema.description c) text = true /\
  chars (CompanySchema.description c) = firstn 500 (chars text) /\
  len (CompanySchema.description c) = Nat.min 500 (len text).
Proof.
  unfold _basic_company_extraction.
  destruct (bucket_loop _ [] [] []) as [[s c] e].
  cbn [CompanySchema.description]. unfold len.
  destruct (500 <? List.length (chars text))%nat eqn:E.
  - split; [apply prefix_slice_to|]. rewrite chars_slice_to.
    split; [reflexivity | apply length_firstn].
  - apply Nat.ltb_ge in E.
    split; [rewrite <- (string_app_empty_r text) at 2; apply prefix_app|].
    split; [symmetry; apply firstn_all2; exact E | lia].
Qed.

(** The first piece of a split has no line break and begins the text. *)
Lemma split_lines_first (s : string) :
  exists first rest,
    split_lines s = first :: rest /\
    all_chars not_newline first /\
    (s = first \/ exists more, s = first ++ String newline more).
Proof.
  induction s as [|a s (first & rest & Hs & Hn & Hp)]; simpl.
  - exists "", []. simpl. auto.
  - destruct (Ascii.eqb a newline) eqn:E.
    + apply Ascii.eqb_eq in E. subst a.
      exists "", (split_lines s). simpl. repeat split; auto.
      right. exists s. reflexivity.
    + rewrite Hs. exists (String a first), rest. simpl.
      repeat split; auto.
      * unfold not_newline. rewrite E. reflexivity.
      * destruct Hp as [->|[more ->]]; [left | right; exists more];
          reflexivity.
Qed.

(** X14: the name of the heuristic extraction is the first line of the
    stripped text, whatever the text: it has no line break, and the default
    name is not used (an empty text gives the empty name). *)
Theorem X14_name_is_the_first_line (text : string) :
  let name := CompanySchema.name (_basic_company_extraction text) in
  all_chars not_newline name /\
  (strip text = name \/
   exists more, strip text = name ++ String newline more).
Proof.
  unfold _basic_company_extraction.
  destruct (split_lines_first (strip text))
    as (first & rest & Hs & Hn & Hp).
  rewrite Hs.
  destruct (bucket_loop _ [] [] []) as [[s c] e]. simpl. auto.
Qed.

(** What the loop files under each heading. *)
Lemma bucket_loop_entries (all_lines lines : list string) :
  forall services capabilities expertise s c e,
    incl lines all_lines ->
    bucket_loop lines services capabilities expertise = (s, c, e) ->
    Forall (filed service_line all_lines) services ->
    Forall (filed capability_line all_lines) capabilities ->
    Forall (filed expertise_line all_lines) expertise ->
    Forall (filed service_line all_lines) s /\
    Forall (filed capability_line all_lines) c /\
    Forall (filed expertise_line all_lines) e.
Proof.
  induction lines as [|line lines IH];
    intros services capabilities expertise s c e Hincl H Hs Hc He;
    cbn [bucket_loop] in H.
  - inversion H; subst. auto.
  - assert (Hin : In line all_lines) by (apply Hincl; left; reflexivity).
    assert (Hincl' : incl lines all_lines)
      by (intros l Hl; apply Hincl; right; exact Hl).
    destruct (has_keyword (lower line)) eqn:Ek; [|eapply IH; eauto].
    fold (service_line (lower line)) in H.
    destruct (service_line (lower line)) eqn:E1.
    { eapply IH; eauto. apply Forall_app. split; [exact Hs|].
      constructor; [|constructor]. exists line. auto. }
    destruct (contains "capability" (lower line)) eqn:E2.
    { eapply IH; eauto. apply Forall_app. split; [exact Hc|].
      constructor; [|constructor]. exists line.
      unfold capability_line. rewrite E1, E2. auto. }
    destruct (contains "expertise" (lower line)
              || contains "specialize" (lower line)) eqn:E3;
      [|eapply IH; eauto].
    eapply IH; eauto. apply Forall_app. split; [exact He|].
    constructor; [|constructor]. exists line.
    unfold expertise_line. rewrite E1, E2, E3. auto.
Qed.

(** X15: every entry of the three lists of the heuristic extraction is the
    default of its list or a line of the stripped text, lowercased and
    stripped, that holds one of the seven keywords; a service names
    service, provide or offer; a capability names capability and none of
    these; an area of expertise names expertise or specialize and none of
    the others.  A line that names specialize but none of the seven keywords
    is filed nowhere. *)
Theorem X15_entries_of_the_lists (text : string) :
  let c := _basic_company_extraction text in
  let lines := split_lines (strip text) in
  (forall e, In e (CompanySchema.services c) ->
             e = "General services" \/ filed service_line lines e) /\
  (forall e, In e (CompanySchema.capabilities c) ->
             e = "General capabilities" \/ filed capability_line lines e) /\
  (forall e, In e (CompanySchema.expertise c) ->
             e = "General expertise" \/ filed expertise_line lines e).
Proof.
  unfold _basic_company_extraction.
  destruct (bucket_loop (split_lines (strip text)) [] [] [])
    as [[s c] e] eqn:E.
  destruct (@bucket_loop_entries (split_lines (strip text)) _ [] [] []
              s c e (incl_refl _) E (Forall_nil _) (Forall_nil _)
              (Forall_nil _)) as (Hs & Hc & He).
  rewrite Forall_forall in Hs, Hc, He. cbn zeta.
  cbn [CompanySchema.services CompanySchema.capabilities
       CompanySchema.expertise].
  repeat split; intros x Hx; apply first_five_or_In in Hx as [->|Hx]; auto.
Qed.

Section MatchRequests.

Variable service : string -> Ollama.response.
Variable float32 : Q -> Q.
Variable read_pdf : string -> result string.
Variable decode_utf8 : string -> result string.
Variable llm : string -> llm_response.

(** A match request: [process_company_profile] on what
    [_extract_company_info] makes of the submitted profile. *)
Local Abbreviation match_profile self profile_text file_content file_type :=
  (CompanyScraperAgent.process_company_profile service float32 self
     (_extract_company_info read_pdf decode_utf8 llm
        profile_text file_content file_type)).

(** X16: a profile submitted as a docx file, and a request with neither a
    file (content and type, both non-empty) nor a profile text, are answered
    with status "error", no company information and no recommendation. *)
Theorem X16_unusable_profile_is_an_error
        (self : CompanyScraperAgent.agent)
        (profile_text file_content file_type : option string) :
  (truthy file_content && truthy file_type = true /\
   value file_type = "docx") \/
  (truthy file_content && truthy file_type = false /\
   truthy profile_text = false) ->
  let response := match_profile self profile_text file_content file_type in
  CompanyScraperAgent.status response = "error" /\
  CompanyScraperAgent.company_info response = None /\
  CompanyScraperAgent.recommendations response = [].
Proof.
  intros H.
  assert (He : exists e,
             _extract_company_info read_pdf decode_utf8 llm
               profile_text file_content file_type = Raise e).
  { unfold _extract_company_info, profile_source.
    destruct H as [[-> ->]|[-> ->]]; simpl; eauto. }
  destruct He as [e He]. cbn zeta. rewrite He.
  unfold CompanyScraperAgent.process_company_profile. simpl. auto.
Qed.

Lemma extract_from_text_returns
      (profile_text file_content file_type : option string) :
  truthy file_content && truthy file_type = false ->
  truthy profile_text = true ->
  exists c,
    _extract_company_info read_pdf decode_utf8 llm
      profile_text file_content file_type = Ok c.
Proof.
  intros Hf Ht. unfold _extract_company_info, profile_source.
  rewrite Hf, Ht. cbn [bind].
  destruct (llm (value profile_text)) as [|code [c|e]]; simpl;
    try destruct (negb (code =? 200)%Z); simpl; eauto.
Qed.

(** X17: a request with a non-empty profile text and no file is always
    answered with status "success", whatever the language model and the
    embedding service do; the company information of the answer has no
    embedding, and there are at most 10 recommendations. *)
Theorem X17_profile_text_is_always_answered
        (self : CompanyScraperAgent.agent)
        (profile_text file_content file_type : option string) :
  truthy file_content && truthy file_type = false ->
  truthy profile_text = true ->
  let response := match_profile self profile_text file_content file_type in
  CompanyScraperAgent.status response = "success" /\
  (exists info,
      CompanyScraperAgent.company_info response = Some info /\
      Pydantic.get "embedding" info = None /\
      Pydantic.get "name" info <> None) /\
  (List.length (CompanyScraperAgent.recommendations response) <= 10)%nat.
Proof.
  intros Hf Ht.
  destruct (extract_from_text_returns _ _ _ Hf Ht) as [c Hc].
  cbn zeta. rewrite Hc.
  unfold CompanyScraperAgent.process_company_profile. cbn [bind].
  destruct (get_embedding_returns 0 service (CompanySchema.description c))
    as [_ [v Hv]].
  rewrite Hv. cbn [bind].
  pose proof (find_matching_outcome float32 self
                (CompanySchema.set_embedding c v) 10) as Ho.
  destruct (CompanyScraperAgent._find_matching_tenders float32 self
              (CompanySchema.set_embedding c v) 10) as [log r] eqn:E.
  assert (Hr : exists recs, r = Ok recs)
    by (inversion Ho; subst; eauto).
  destruct Hr as [recs ->]. cbn [snd bind].
  split; [reflexivity|]. split.
  - eexists. split; [reflexivity|]. split; [reflexivity | discriminate].
  - cbn [CompanyScraperAgent.recommendations]. rewrite length_map.
    pose proof (find_matching_length float32 self _ 10 E). lia.
Qed.

End MatchRequests.

End Heuristics.

Lemma X16_unusable_profile_is_an_error_witness :
  let response :=
    CompanyScraperAgent.process_company_profile
      SampleRun.service Sample.float32_id Sample.matcher3
      (CompanyExtraction._extract_company_info
         (fun _ => Py.Raise Py.IOError) (@Py.Ok string)
         (fun _ => CompanyExtraction.LlmConnectionError)
         None (Some "PK..."%string) (Some "docx"%string)) in
  CompanyScraperAgent.status response = "error"%string /\
  CompanyScraperAgent.company_info response = None /\
  CompanyScraperAgent.recommendations response = [].
Proof.
  apply (@X16_unusable_profile_is_an_error
           SampleRun.service Sample.float32_id
           (fun _ => Py.Raise Py.IOError) (@Py.Ok string)
           (fun _ => CompanyExtraction.LlmConnectionError)
           Sample.matcher3 None (Some "PK..."%string) (Some "docx"%string)).
  left. split; reflexivity.
Defined.

Lemma X17_profile_text_is_always_answered_witness :
  let response :=
    CompanyScraperAgent.process_company_profile
      SampleRun.service Sample.float32_id Sample.matcher3
      (CompanyExtraction._extract_company_info
         (fun _ => Py.Raise Py.IOError) (@Py.Ok string)
         (fun _ => CompanyExtraction.LlmConnectionError)
         (Some "Acme Roads. We provide paving."%string) None None) in
  CompanyScraperAgent.status response = "success"%string /\
  (exists info,
      CompanyScraperAgent.company_info response = Some info /\
      Pydantic.get "embedding" info = None /\
      Pydantic.get "name" info <> None) /\
  (List.length (CompanyScraperAgent.recommendations response) <= 10)%nat.
Proof.
  apply (@X17_profile_text_is_always_answered
           SampleRun.service Sample.float32_id
           (fun _ => Py.Raise Py.IOError) (@Py.Ok string)
           (fun _ => CompanyExtraction.LlmConnectionError)
           Sample.matcher3
           (Some "Acme Roads. We provide paving."%string) None None);
    reflexivity.
Defined.

(** ** Scraping *)

Section ScrapingFacts.
Import Py Scraping.

Lemma scrape_loop_app (src : source) (clock : nat -> N) (elements : list element) :
  forall index scraped_tenders,
    scrape_loop src clock index elements scraped_tenders
    = scraped_tenders ++ scrape_loop src clock index elements [].
Proof.
  induction elements as [|e rest IH]; intros index acc; simpl.
  - now rewrite app_nil_r.
  - destruct (skipped _); [apply IH|].
    rewrite IH, (IH _ [_]). now rewrite <- app_assoc.
Qed.

(** One turn of the loop. *)
Lemma scrape_loop_cons (src : source) (clock : nat -> N) (index : nat)
      (e : element) (rest : list element) :
  scrape_loop src clock index (e :: rest) []
  = (if skipped (_extract_tender_data e src) then []
     else [new_tender src (clock index) index e (_extract_tender_data e src)])
    ++ scrape_loop src clock (S index) rest [].
Proof.
  simpl. destruct (skipped _); [reflexivity|]. apply scrape_loop_app.
Qed.

(** What the loop returns: the tenders of the elements that are kept. *)
Lemma scrape_loop_In (src : source) (clock : nat -> N)
      (elements : list element) (t : TenderSchema.t) :
  forall index,
    In t (scrape_loop src clock index elements []) <->
    exists j e,
      nth_error elements j = Some e /\
      skipped (_extract_tender_data e src) = false /\
      t = new_tender src (clock (index + j)%nat) (index + j) e
            (_extract_tender_data e src).
Proof.
  induction elements as [|e rest IH]; intro index.
  - simpl. split; [contradiction|]. intros (j & e & H & _).
    destruct j; discriminate.
  - rewrite scrape_loop_cons, in_app_iff, IH. split.
    + intros [H|(j & e' & Hn & Hs & ->)].
      * destruct (skipped _) eqn:E; [contradiction|].
        destruct H as [<-|[]]. exists 0%nat, e.
        rewrite Nat.add_0_r. auto.
      * exists (S j), e'. rewrite Nat.add_succ_r. auto.
    + intros ([|j] & e' & Hn & Hs & ->).
      * left. simpl in Hn. inversion Hn; subst e'. rewrite Hs.
        rewrite Nat.add_0_r. left. reflexivity.
      * right. exists j, e'. rewrite Nat.add_succ_r. auto.
Qed.

Lemma scrape_source_In (src : source)
      (fetch : source -> result (list element))
      (clock : source -> nat -> N) (t : TenderSchema.t) :
  In t (_scrape_source src (fetch src) (clock src)) <->
  exists index e, tender_of_element src fetch clock index e t.
Proof.
  unfold _scrape_source, tender_of_element.
  destruct (fetch src) as [tender_elements|x].
  - rewrite scrape_loop_In. split.
    + intros (j & e & Hn & Hs & ->). exists j, e, tender_elements.
      rewrite nth_error_firstn in Hn.
      destruct (j <? 20)%nat eqn:E; [|discriminate].
      apply Nat.ltb_lt in E. auto.
    + intros (j & e & l & Hl & Hj & Hn & Hs & ->).
      inversion Hl; subst l. exists j, e.
      rewrite nth_error_firstn.
      apply Nat.ltb_lt in Hj. rewrite Hj. auto.
  - simpl. split; [contradiction|].
    intros (j & e & l & Hl & _). discriminate.
Qed.

(** Where a scraped tender comes from. *)
Lemma scraped_from
      (sources : list source) (fetch : source -> result (list element))
      (clock : source -> nat -> N) (t : TenderSchema.t) :
  In t (scrape_all_sources sources fetch clock) ->
  exists src index e,
    In src sources /\ tender_of_element src fetch clock index e t.
Proof.
  induction sources as [|s rest IH]; simpl; [contradiction|].
  rewrite in_app_iff, scrape_source_In.
  intros [(j & e & H)|H].
  - exists s, j, e. auto.
  - destruct (IH H) as (src & j & e & Hin & H'). exists src, j, e. auto.
Qed.

(** X18: what a scrape returns, exactly: a tender is returned if and only
    if it is the record built from one of the first 20 elements of the page
    of one of the sources, the page could be fetched, and the title and the
    description extracted from the element are both non-empty. *)
Theorem X18_scraped_tenders_exactly
        (sources : list source) (fetch : source -> result (list element))
        (clock : source -> nat -> N) (t : TenderSchema.t) :
  In t (scrape_all_sources sources fetch clock) <->
  exists src index e,
    In src sources /\ tender_of_element src fetch clock index e t.
Proof.
  split; [apply scraped_from|].
  induction sources as [|s rest IH]; simpl.
  - intros (src & _ & _ & [] & _).
  - rewrite in_app_iff, scrape_source_In.
    intros (src & j & e & [<-|Hin] & H).
    + left. eauto.
    + right. apply IH. eauto.
Qed.

Lemma is_empty_false (s : string) : is_empty s = false -> s <> ""%string.
Proof. destruct s; discriminate. Qed.

(** X19: every scraped tender has a non-empty title and a non-empty
    description and names one of the sources; its category, department,
    location and publication date are never filled in, and it carries no
    embedding yet. *)
Theorem X19_scraped_tenders_are_complete
        (sources : list source) (fetch : source -> result (list element))
        (clock : source -> nat -> N) (t : TenderSchema.t) :
  In t (scrape_all_sources sources fetch clock) ->
  TenderSchema.title t <> ""%string /\
  TenderSchema.description t <> ""%string /\
  In (TenderSchema.source t) (map name sources) /\
  TenderSchema.category t = None /\
  TenderSchema.department t = None /\
  TenderSchema.location t = None /\
  TenderSchema.publication_date t = None /\
  TenderSchema.embedding t = None.
Proof.
  intro H.
  apply scraped_from in H as (src & j & e & Hin & l & _ & _ & _ & Hs & ->).
  unfold skipped in Hs. apply orb_false_iff in Hs as [Ht Hd].
  apply is_empty_false in Ht, Hd. simpl.
  repeat split; auto. apply in_map. exact Hin.
Qed.

Lemma scrape_loop_length (src : source) (clock : nat -> N)
      (elements : list element) :
  forall index,
    (List.length (scrape_loop src clock index elements [])
     <= List.length elements)%nat.
Proof.
  induction elements as [|e rest IH]; intro index; [simpl; lia|].
  rewrite scrape_loop_cons, length_app. specialize (IH (S index)).
  destruct (skipped _); simpl; lia.
Qed.

Lemma scrape_source_length (src : source) (fetched : result (list element))
      (clock : nat -> N) :
  (List.length (_scrape_source src fetched clock) <= 20)%nat.
Proof.
  destruct fetched as [l|x]; cbn [_scrape_source]; [|simpl; lia].
  pose proof (scrape_loop_length src clock (firstn 20 l) 0).
  pose proof (firstn_le_length 20 l). lia.
Qed.

(** X20: a scrape returns at most 20 tenders for each source, whatever the
    pages hold; a source whose page cannot be fetched contributes none. *)
Theorem X20_at_most_20_per_source
        (sources : list source) (fetch : source -> result (list element))
        (clock : source -> nat -> N) :
  (List.length (scrape_all_sources sources fetch clock)
   <= 20 * List.length (filter (fun src => match fetch src with
                                           | Ok _ => true
                                           | Raise _ => false
                                           end) sources))%nat.
Proof.
  induction sources as [|s rest IH]; [simpl; lia|].
  cbn [scrape_all_sources filter]. rewrite length_app.
  pose proof (scrape_source_length s (fetch s) (clock s)) as Hs.
  destruct (fetch s) as [l|x]; cbn iota.
  - cbn [List.length]. lia.
  - cbn [_scrape_source List.length Nat.add]. exact IH.
Qed.

(** *** Identifiers *)

Lemma string_of_uint_not_minus (d : Decimal.uint) :
  all_chars not_minus (NilEmpty.string_of_uint d).
Proof.
  induction d; simpl; auto.
Qed.

Lemma decimal_not_minus (n : N) : all_chars not_minus (decimal n).
Proof. apply string_of_uint_not_minus. Qed.

Lemma decimal_inj (n n' : N) : decimal n = decimal n' -> n = n'.
Proof.
  unfold decimal. intro H. apply DecimalN.Unsigned.to_uint_inj.
  assert (E : Some (N.to_uint n) = Some (N.to_uint n')).
  { rewrite <- !NilEmpty.usu. now rewrite H. }
  now inversion E.
Qed.

(** A text that ends in a hyphen and a number is cut in one way only. *)
Lemma split_at_last_hyphen (p1 p2 d1 d2 : string) :
  all_chars not_minus d1 -> all_chars not_minus d2 ->
  (p1 ++ String "-" d1)%string = (p2 ++ String "-" d2)%string ->
  p1 = p2 /\ d1 = d2.
Proof.
  intros H1 H2. revert p2.
  induction p1 as [|c p1 IH]; intros [|c2 p2] E; simpl in E.
  - inversion E. auto.
  - inversion E; subst.
    apply all_chars_app in H1 as [_ [Hm _]]. discriminate Hm.
  - inversion E; subst.
    apply all_chars_app in H2 as [_ [Hm _]]. discriminate Hm.
  - inversion E; subst. destruct (IH p2 H3) as [-> ->]. auto.
Qed.

Lemma string_app_cons (a b rest : string) (c : ascii) :
  (a ++ String c (b ++ rest))%string = ((a ++ String c b) ++ rest)%string.
Proof. now rewrite string_app_assoc. Qed.

Lemma tender_id_inj (src src' : source) (now now' : N) (i i' : nat) :
  tender_id src now i = tender_id src' now' i' ->
  slug src = slug src' /\ now = now' /\ i = i'.
Proof.
  unfold tender_id. cbn [append]. intro E.
  rewrite !string_app_cons in E.
  apply split_at_last_hyphen in E as [E Ei]; try apply decimal_not_minus.
  apply split_at_last_hyphen in E as [Es En]; try apply decimal_not_minus.
  apply decimal_inj in Ei, En. apply Nat2N.inj in Ei. auto.
Qed.

(** The identifiers of a batch name the positions of the elements kept, in
    ascending order. *)
Lemma scrape_loop_ids (src : source) (clock : nat -> N)
      (elements : list element) :
  forall index,
    exists js,
      map TenderSchema.id (scrape_loop src clock index elements [])
      = map (fun j => tender_id src (clock j) j) js /\
      Forall (le index) js /\ NoDup js.
Proof.
  induction elements as [|e rest IH]; intro index.
  - exists []. repeat split; constructor.
  - rewrite scrape_loop_cons, map_app.
    destruct (IH (S index)) as (js & -> & Hle & Hnd).
    assert (Hle' : Forall (le index) js)
      by (eapply Forall_impl; [|exact Hle]; simpl; intros; lia).
    destruct (skipped _).
    + exists js. auto.
    + exists (index :: js). repeat split; auto.
      constructor; [|exact Hnd]. intro Hin.
      rewrite Forall_forall in Hle. apply Hle in Hin. lia.
Qed.

Lemma scrape_source_ids (src : source) (fetched : result (list element))
      (clock : nat -> N) :
  NoDup (map TenderSchema.id (_scrape_source src fetched clock)) /\
  forall t, In t (_scrape_source src fetched clock) ->
            exists now j, TenderSchema.id t = tender_id src now j.
Proof.
  destruct fetched as [l|x]; cbn [_scrape_source map];
    [|split; [constructor | contradiction]].
  split.
  - destruct (scrape_loop_ids src clock (firstn 20 l) 0)
      as (js & -> & _ & Hnd).
    induction Hnd as [|j js Hj Hnd IH]; simpl; constructor; auto.
    rewrite in_map_iff. intros (j' & E & Hj').
    apply tender_id_inj in E as (_ & _ & ->). auto.
  - intros t Ht. apply scrape_loop_In in Ht as (j & e & _ & _ & ->).
    simpl. eauto.
Qed.

(** X21: when no two sources have the same name up to case and to spaces
    written as hyphens, no two tenders of a scrape have the same id,
    whatever the clock says; in particular the tenders of one source never
    share an id. *)
Theorem X21_ids_are_distinct
        (sources : list source) (fetch : source -> result (list element))
        (clock : source -> nat -> N) :
  NoDup (map slug sources) ->
  NoDup (map TenderSchema.id (scrape_all_sources sources fetch clock)).
Proof.
  induction sources as [|s rest IH]; intro Hnd; simpl; [constructor|].
  inversion Hnd as [|? ? Hs Hrest]; subst.
  destruct (scrape_source_ids s (fetch s) (clock s)) as [Hown Hform].
  rewrite map_app. apply NoDup_app; auto.
  intros a Ha Hb.
  apply in_map_iff in Ha as (t & <- & Ht).
  apply in_map_iff in Hb as (t' & E & Ht').
  apply Hform in Ht as (now & j & Hid).
  apply scraped_from in Ht' as (src & j' & e & Hin & l & _ & _ & _ & _ & ->).
  simpl in E. rewrite Hid in E.
  apply tender_id_inj in E as (E & _). apply Hs.
  rewrite <- E. apply in_map. exact Hin.
Qed.

(** *** The extracted fields *)

(** The two ways a tender is extracted from an element. *)
Lemma extract_tender_data_cases (P : tender_data -> Prop) (e : element)
      (src : source) :
  P (_generic_extract e) ->
  (forall title_css description_css amount_css deadline_css link_css prefix
          data,
      specific_extract e src title_css description_css amount_css
                       deadline_css link_css prefix = Some data ->
      P data) ->
  P (_extract_tender_data e src).
Proof.
  intros Hg Hs. unfold _extract_tender_data, or_generic.
  repeat match goal with
         | |- context [if ?b then _ else _] => destruct b
         | |- context [specific_extract ?e ?s ?a ?b ?c ?d ?l ?p] =>
             let E := fresh "E" in
             destruct (specific_extract e s a b c d l p) eqn:E;
             [eapply Hs; exact E | exact Hg]
         end.
  exact Hg.
Qed.

(** The fields of a source-specific extraction. *)
Lemma specific_extract_fields (e : element) (src : source)
      (title_css description_css amount_css deadline_css link_css : string)
      (prefix : bool) (data : tender_data) :
  specific_extract e src title_css description_css amount_css deadline_css
                   link_css prefix = Some data ->
  exists title description amount_text,
    data_title data = strip title /\
    data_description data = strip description /\
    data_amount data = FirecrawlWrapper._extract_amount (strip amount_text).
Proof.
  unfold specific_extract.
  destruct (select_one e title_css) as [t|]; [|discriminate].
  destruct (select_one e description_css) as [d|]; [|discriminate].
  destruct (select_one e amount_css) as [a|]; [|discriminate].
  destruct (select_one e deadline_css) as [dl|]; [|discriminate].
  destruct (select_one e link_css) as [l|];
    [destruct (href l); [|discriminate]|];
    intro H; inversion H; subst; simpl;
    exists (text t), (text d), (text a); auto.
Qed.

Lemma lstrip_fixed (s : string) : no_leading_space s -> lstrip s = s.
Proof.
  unfold no_leading_space, lstrip. intro H.
  rewrite <- (join_chars s) at 2.
  destruct (chars s) as [|c l]; [reflexivity|].
  cbn [lstrip_chars]. destruct (holds is_space c); [|reflexivity].
  elim H. reflexivity.
Qed.

Lemma rstrip_chars_head (c : string) (l : list string) :
  holds is_space c = false ->
  exists r, rstrip_chars (c :: l) = c :: r.
Proof.
  intro H. cbn [rstrip_chars]. rewrite H.
  destruct (rstrip_chars l); eauto.
Qed.

Lemma lstrip_chars_head (l : list string) :
  match lstrip_chars l with
  | c :: _ => holds is_space c = false
  | [] => True
  end.
Proof.
  induction l as [|c l IH]; [exact I|]. cbn [lstrip_chars].
  destruct (holds is_space c) eqn:E; [exact IH | exact E].
Qed.

Lemma lstrip_chars_fixed (l : list string) :
  match l with
  | c :: _ => holds is_space c = false
  | [] => True
  end ->
  lstrip_chars l = l.
Proof.
  destruct l as [|c l]; [reflexivity|]. cbn [lstrip_chars].
  now intros ->.
Qed.

Lemma rstrip_chars_idempotent (l : list string) :
  rstrip_chars (rstrip_chars l) = rstrip_chars l.
Proof.
  induction l as [|c l IH]; [reflexivity|]. cbn [rstrip_chars].
  destruct (rstrip_chars l) as [|c' r] eqn:E.
  - destruct (holds is_space c) eqn:Ec; [reflexivity|].
    cbn [rstrip_chars]. now rewrite Ec.
  - remember (c' :: r) as u. cbn [rstrip_chars]. rewrite IH.
    subst u. reflexivity.
Qed.

(** The characters of a stripped text: none of white space at either end. *)
Lemma strip_chars_head (l : list string) :
  match rstrip_chars (lstrip_chars l) with
  | c :: _ => holds is_space c = false
  | [] => True
  end.
Proof.
  pose proof (lstrip_chars_head l) as H.
  destruct (lstrip_chars l) as [|c l']; [exact I|].
  destruct (@rstrip_chars_head c l' H) as [r ->]. exact H.
Qed.

Lemma strip_no_leading (s : string) : no_leading_space (strip s).
Proof.
  unfold no_leading_space, strip, CompanyExtraction.strip.
  rewrite chars_strip.
  pose proof (strip_chars_head (chars s)) as H.
  destruct (rstrip_chars _) as [|c r]; [exact I|].
  rewrite H. discriminate.
Qed.

Lemma strip_idempotent (s : string) : strip (strip s) = strip s.
Proof.
  unfold strip, CompanyExtraction.strip.
  unfold Py.strip at 1. rewrite chars_strip.
  rewrite (@lstrip_chars_fixed _ (strip_chars_head (chars s))).
  rewrite rstrip_chars_idempotent. reflexivity.
Qed.

Lemma slice_no_leading (n : nat) (s : string) :
  no_leading_space s -> no_leading_space (slice_to n s).
Proof.
  unfold no_leading_space. rewrite chars_slice_to.
  destruct (chars s) as [|c l], n as [|n]; simpl; auto.
Qed.

(** X22: the title of a scraped tender does not begin with white space,
    and its description neither begins nor ends with white space: stripping
    it again changes nothing. *)
Theorem X22_scraped_text_is_stripped
        (sources : list source) (fetch : source -> result (list element))
        (clock : source -> nat -> N) (t : TenderSchema.t) :
  In t (scrape_all_sources sources fetch clock) ->
  lstrip (TenderSchema.title t) = TenderSchema.title t /\
  strip (TenderSchema.description t) = TenderSchema.description t.
Proof.
  intro H.
  apply scraped_from in H as (src & j & e & _ & l & _ & _ & _ & _ & ->).
  cbn [new_tender TenderSchema.title TenderSchema.description].
  apply extract_tender_data_cases.
  - unfold _generic_extract. cbn [data_title data_description].
    split; [|apply strip_idempotent]. apply lstrip_fixed.
    destruct (headings e);
      [apply slice_no_leading|]; apply strip_no_leading.
  - intros ? ? ? ? ? ? data Hd.
    apply specific_extract_fields in Hd as (ti & d & a & -> & -> & _).
    split; [|apply strip_idempotent].
    apply lstrip_fixed, strip_no_leading.
Qed.

(** The sign of an extracted amount. *)
Lemma extracted_amount_sign (text : string) (amount : Q) :
  FirecrawlWrapper._extract_amount text = Some amount -> 0 <= amount.
Proof.
  unfold FirecrawlWrapper._extract_amount, FirecrawlWrapper.amount_patterns.
  rewrite !extract_with_cons. simpl.
  destruct (parsed FirecrawlWrapper.pattern_currency text) as [x|] eqn:E1;
    [|destruct (parsed FirecrawlWrapper.pattern_magnitude text)
        as [x|] eqn:E2; [|discriminate]];
    intro H; inversion H; subst;
    apply apply_multiplier_nonneg; eapply parsed_nonneg; eauto;
    reflexivity.
Qed.

(** X23: no scraped tender has a negative amount, whichever way it was
    extracted. *)
Theorem X23_scraped_amount_not_negative
        (sources : list source) (fetch : source -> result (list element))
        (clock : source -> nat -> N) (t : TenderSchema.t) (amount : Q) :
  In t (scrape_all_sources sources fetch clock) ->
  TenderSchema.amount t = Some amount -> 0 <= amount.
Proof.
  intro H.
  apply scraped_from in H as (src & j & e & _ & l & _ & _ & _ & _ & ->).
  cbn [new_tender TenderSchema.amount].
  apply extract_tender_data_cases.
  - unfold _generic_extract. cbn [data_amount].
    apply extracted_amount_sign.
  - intros ? ? ? ? ? ? data Hd.
    apply specific_extract_fields in Hd as (ti & d & a & _ & _ & ->).
    apply extracted_amount_sign.
Qed.

End ScrapingFacts.

Lemma X19_scraped_tenders_are_complete_witness :
  TenderSchema.title SamplePage.row_tender <> ""%string /\
  TenderSchema.description SamplePage.row_tender <> ""%string /\
  In (TenderSchema.source SamplePage.row_tender)
     (map Scraping.name Scraping.TENDER_SOURCES) /\
  TenderSchema.category SamplePage.row_tender = None /\
  TenderSchema.department SamplePage.row_tender = None /\
  TenderSchema.location SamplePage.row_tender = None /\
  TenderSchema.publication_date SamplePage.row_tender = None /\
  TenderSchema.embedding SamplePage.row_tender = None.
Proof.
  apply (@X19_scraped_tenders_are_complete
           Scraping.TENDER_SOURCES SamplePage.fetch SamplePage.clock).
  vm_compute. left. reflexivity.
Defined.

Lemma X21_ids_are_distinct_witness :
  NoDup (map TenderSchema.id
             (Scraping.scrape_all_sources
                Scraping.TENDER_SOURCES SamplePage.fetch SamplePage.clock)).
Proof.
  apply X21_ids_are_distinct. vm_compute.
  repeat (constructor; [simpl; intuition discriminate|]). constructor.
Defined.

Lemma X22_scraped_text_is_stripped_witness :
  Py.lstrip (TenderSchema.title SamplePage.row_tender)
  = TenderSchema.title SamplePage.row_tender /\
  Scraping.strip (TenderSchema.description SamplePage.row_tender)
  = TenderSchema.description SamplePage.row_tender.
Proof.
  apply (@X22_scraped_text_is_stripped
           Scraping.TENDER_SOURCES SamplePage.fetch SamplePage.clock).
  vm_compute. left. reflexivity.
Defined.

Lemma X23_scraped_amount_not_negative_witness :
  0 <= apply_multiplier "Rs. 2,500 lakh" 2500.
Proof.
  apply (@X23_scraped_amount_not_negative
           Scraping.TENDER_SOURCES SamplePage.fetch SamplePage.clock
           SamplePage.row_tender).
  - vm_compute. left. reflexivity.
  - vm_compute. reflexivity.
Defined.

(** ** The report of a scrape cycle *)

Section DataDirectory.
Import Py TenderScraperAgent.

Variable VECTOR_DIMENSION : nat.
Variable service : string -> Ollama.response.
Variable float32 : Q -> Q.

Local Abbreviation embedding_for := (embedding_for VECTOR_DIMENSION service).
Local Abbreviation export_loop :=
  (TenderIngestion.export_loop VECTOR_DIMENSION service).
Local Abbreviation process_and_store :=
  (TenderIngestion._process_and_store_tenders
     VECTOR_DIMENSION service float32).
Local Abbreviation scrape_and_store :=
  (TenderIngestion.scrape_and_store_tenders
     VECTOR_DIMENSION service float32).

(** What a cycle that raises leaves behind. *)
Lemma failed_cycle
      (self self' : agent) (dk dk' : disk) (batch : list TenderSchema.t)
      (faults : write_faults) (e : exn) :
  _process_and_store_tenders VECTOR_DIMENSION service float32
    self dk batch faults = (self', dk', Raise e) ->
  dk' = dk /\
  index_vectors (index self')
  = index_vectors (index (_load_index_and_tenders self dk)) /\
  tenders self'
  = tenders (_load_index_and_tenders self dk)
    ++ map (fun t => TenderSchema.set_embedding t (embedding_for t)) batch /\
  batch <> [].
Proof.
  unfold _process_and_store_tenders.
  rewrite embed_loop_all. simpl app.
  destruct batch as [|t batch]; [discriminate|].
  generalize (_load_index_and_tenders self dk). intros [li lts].
  cbn [map index tenders].
  unfold _update_index. cbn [index tenders].
  destruct (np_array2 float32 _) as [arr|e0]; cbn match.
  - destruct li as [ix|];
      destruct (Faiss.add _ arr) as [ix'|e1]; intro H; inversion H; subst;
      simpl; repeat split; discriminate.
  - intro H; inversion H; subst. simpl. repeat split; discriminate.
Qed.

Lemma raw_tender_set_embedding (tender : TenderSchema.t) (v : list Q) :
  raw_tender (TenderSchema.set_embedding tender v) = raw_tender tender.
Proof. destruct tender; reflexivity. Qed.

(** The loop removes nothing from the directory. *)
Lemma export_loop_keeps (batch : list TenderSchema.t)
      (export_fails : nat -> bool) (file : string * Pydantic.dict) :
  forall raw position,
    In file raw -> In file (export_loop raw batch export_fails position).
Proof.
  induction batch as [|t batch IH]; intros raw position H; [exact H|].
  cbn [TenderIngestion.export_loop]. apply IH. unfold _save_raw_tender.
  destruct (export_fails position); [exact H | right; exact H].
Qed.

(** The loop exports every tender of the batch whose write does not
    fail. *)
Lemma export_loop_exports (batch : list TenderSchema.t)
      (export_fails : nat -> bool) :
  forall raw position i tender,
    nth_error batch i = Some tender ->
    export_fails (position + i)%nat = false ->
    In (export_of tender) (export_loop raw batch export_fails position).
Proof.
  induction batch as [|t batch IH]; intros raw position i tender Hn Hf.
  - destruct i; discriminate.
  - cbn [TenderIngestion.export_loop]. destruct i as [|i].
    + inversion Hn; subst t. rewrite Nat.add_0_r in Hf.
      apply export_loop_keeps. unfold _save_raw_tender. rewrite Hf.
      left. unfold export_of. cbn [TenderSchema.set_embedding TenderSchema.id].
      now rewrite raw_tender_set_embedding.
    + apply IH with i; [exact Hn|]. now rewrite Nat.add_succ_comm.
Qed.

Lemma cycle_exports (self : agent) (directory : data_directory)
      (batch : list TenderSchema.t) (faults : write_faults)
      (export_fails : nat -> bool) :
  exported batch export_fails
    (raw_tenders (snd (fst (process_and_store self directory batch faults
                                              export_fails)))).
Proof.
  unfold TenderIngestion._process_and_store_tenders.
  destruct (_process_and_store_tenders _ _ _ _ _ _ _) as [[self' dk'] r].
  cbn [fst snd raw_tenders]. intros i tender Hn Hf.
  apply export_loop_exports with i; assumption.
Qed.

(** X3: a cycle that raises writes neither the index file nor the tenders
    file, and the index holds the vectors it held after the load; the
    batch has nevertheless been added to the store in memory, and the raw
    export of every tender of the batch has been written, unless its own
    write failed. *)
Theorem X3_failed_append
        (self self' : agent) (directory directory' : data_directory)
        (batch : list TenderSchema.t) (faults : write_faults)
        (export_fails : nat -> bool) (e : exn) :
  process_and_store self directory batch faults export_fails
  = (self', directory', Raise e) ->
  vector_db directory' = vector_db directory /\
  index_vectors (index self')
  = index_vectors
      (index (_load_index_and_tenders self (vector_db directory))) /\
  tenders self'
  = tenders (_load_index_and_tenders self (vector_db directory))
    ++ map (fun t => TenderSchema.set_embedding t (embedding_for t)) batch /\
  batch <> [] /\
  exported batch export_fails (raw_tenders directory').
Proof.
  intro H.
  pose proof (cycle_exports self directory batch faults export_fails) as Hx.
  rewrite H in Hx. cbn [fst snd] in Hx.
  unfold TenderIngestion._process_and_store_tenders in H.
  destruct (_process_and_store_tenders _ _ _ _ _ _ _)
    as [[self1 dk1] r] eqn:E.
  inversion H; subst. cbn [vector_db].
  apply failed_cycle in E as (Hd & Hv & Ht & Hb). auto.
Qed.

(** X24: the report of a scrape cycle against the store in memory and the
    data directory.  In every case the store has grown by the whole batch
    and the raw exports have been written.  On success the reported count
    is the number of scraped tenders.  On error the reported count is 0 and
    neither the index file nor the tenders file was written. *)
Theorem X24_report_and_store
        (self : agent) (directory : data_directory)
        (scraped_tenders : list TenderSchema.t)
        (faults : write_faults) (export_fails : nat -> bool) :
  let '(self', directory', report) :=
    scrape_and_store self directory scraped_tenders faults export_fails in
  List.length (tenders self')
  = (List.length
       (tenders (_load_index_and_tenders self (vector_db directory)))
     + List.length scraped_tenders)%nat /\
  exported scraped_tenders export_fails (raw_tenders directory') /\
  (report_status report = "success"%string /\
   tender_count report = List.length scraped_tenders \/
   report_status report = "error"%string /\
   tender_count report = 0%nat /\
   scraped_tenders <> [] /\
   vector_db directory' = vector_db directory).
Proof.
  unfold TenderIngestion.scrape_and_store_tenders.
  pose proof (cycle_exports self directory scraped_tenders faults
                            export_fails) as Hx.
  destruct (process_and_store self directory scraped_tenders faults
                              export_fails)
    as [[self' directory'] r] eqn:E.
  cbn [fst snd] in Hx.
  unfold TenderIngestion._process_and_store_tenders in E.
  destruct (_process_and_store_tenders _ _ _ _ _ _ _)
    as [[self1 dk1] r1] eqn:E1.
  inversion E; subst. destruct r as [[]|e].
  - apply append_result in E1 as (Ht & _ & _).
    rewrite Ht, length_app, length_map.
    split; [reflexivity|]. split; [exact Hx|]. left. auto.
  - apply failed_cycle in E1 as (Hd & _ & Ht & Hb).
    rewrite Ht, length_app, length_map.
    split; [reflexivity|]. split; [exact Hx|]. right. auto.
Qed.



End DataDirectory.

Lemma X3_failed_append_witness :
  let empty :=
    mkDirectory
      (TenderScraperAgent.mkDisk TenderScraperAgent.Absent
                                 TenderScraperAgent.Absent) [] in
  let self' :=
    TenderScraperAgent.mkAgent
      (Some (Faiss.mk 2 []))
      [Sample.tender "tamil-nadu-tenders-1-0" "Pumps" (Some [1])] in
  let directory' :=
    mkDirectory (vector_db empty) [export_of Sample.t0] in
  TenderIngestion._process_and_store_tenders 2 SampleRun.service
    Sample.float32_id TenderScraperAgent.__init__ empty
    [Sample.t0] TenderScraperAgent.no_faults (fun _ => false)
  = (self', directory', Py.Raise Py.AssertionError) /\
  vector_db directory' = vector_db empty /\
  TenderScraperAgent.index_vectors (TenderScraperAgent.index self') = [] /\
  exported [Sample.t0] (fun _ => false) (raw_tenders directory').
Proof.
  intros empty self' directory'.
  assert (H : TenderIngestion._process_and_store_tenders 2
                SampleRun.service Sample.float32_id
                TenderScraperAgent.__init__ empty
                [Sample.t0] TenderScraperAgent.no_faults (fun _ => false)
              = (self', directory', Py.Raise Py.AssertionError))
    by reflexivity.
  split; [exact H|].
  destruct (@X3_failed_append 2 SampleRun.service Sample.float32_id
              TenderScraperAgent.__init__ self' empty directory'
              [Sample.t0] TenderScraperAgent.no_faults (fun _ => false)
              Py.AssertionError H)
    as (Hd & Hv & _ & _ & Hx).
  split; [exact Hd|]. split; [exact Hv | exact Hx].
Defined.


(** ** The raw export *)

Section RawExport.

Lemma get_pop (key k : string) (d : Pydantic.dict) :
  Pydantic.get k (pop key d)
  = if String.eqb k key then None else Pydantic.get k d.
Proof.
  induction d as [|[k' v] d IH]; simpl.
  - now destruct (String.eqb k key).
  - destruct (String.eqb k' key) eqn:E1; simpl.
    + apply String.eqb_eq in E1. subst k'. rewrite IH.
      rewrite (String.eqb_sym key k).
      destruct (String.eqb k key); reflexivity.
    + rewrite IH. destruct (String.eqb k' k) eqn:E2; [|reflexivity].
      apply String.eqb_eq in E2. subst k'. now rewrite E1.
Qed.

(** X26: the raw export of a tender does not depend on its embedding: it
    has no key "embedding", agrees with the dump of the tender on every
    other key, and is the dump that excludes the field "embedding". *)
Theorem X26_raw_export_has_no_embedding
        (tender : TenderSchema.t) (embedding : list Q) :
  raw_tender (TenderSchema.set_embedding tender embedding)
  = raw_tender tender /\
  Pydantic.get "embedding" (raw_tender tender) = None /\
  (forall key, key <> "embedding"%string ->
               Pydantic.get key (raw_tender tender)
               = Pydantic.get key (Pydantic.dump_tender [] tender)) /\
  raw_tender tender = Pydantic.dump_tender ["embedding"%string] tender.
Proof.
  split; [destruct tender; reflexivity|].
  split; [reflexivity|].
  split; [|reflexivity].
  intros key Hk. unfold raw_tender. rewrite get_pop.
  destruct (String.eqb key "embedding") eqn:E; [|reflexivity].
  apply String.eqb_eq in E. contradiction.
Qed.

End RawExport.
